(** * The evaluation harness of irit-rst-dt: [irit_rst_dt/cmd/evaluate.py]

    The harness walks over training corpora, cross-validation folds and
    learner/decoder configurations, and decides from the presence of files
    which steps still have to run.  The operating system and the attelo
    tools it drives are not part of the module; they are an interface
    ([Env]) over an abstract [world].  Every function of the module is a
    computation that threads the world, lists the calls it makes on that
    interface, and ends by returning, by [sys.exit] or by an exception. *)

From Stdlib Require Import ZArith String List Ascii Bool DecimalString Lia Permutation.
From Stdlib Require DecimalZ DecimalPos.
Import ListNotations.

Infix "+:+" := String.append (at level 60, right associativity).

Local Open Scope string_scope.
Local Open Scope list_scope.

(** ** Strings and paths *)

(** [str(n)] and ["%d" % n] on a Python int. *)
Definition str_int (z : Z) : string := NilZero.string_of_int (Z.to_int z).

(** [s * n] on a Python string. *)
Fixpoint str_repeat (s : string) (n : nat) : string :=
  match n with
  | O => ""
  | S k => s +:+ str_repeat s k
  end.

(** [sep.join(parts)]. *)
Fixpoint str_join (sep : string) (parts : list string) : string :=
  match parts with
  | [] => ""
  | [p] => p
  | p :: rest => p +:+ sep +:+ str_join sep rest
  end.

Definition newline : string := String (ascii_of_nat 10) "".

Definition slash : ascii := "/"%char.

Definition starts_with_sep (p : string) : bool :=
  match p with
  | String c _ => Ascii.eqb c slash
  | EmptyString => false
  end.

Fixpoint ends_with_sep (p : string) : bool :=
  match p with
  | EmptyString => false
  | String c EmptyString => Ascii.eqb c slash
  | String _ r => ends_with_sep r
  end.

Fixpoint has_sep (p : string) : bool :=
  match p with
  | EmptyString => false
  | String c r => Ascii.eqb c slash || has_sep r
  end.

Definition str_empty (p : string) : bool :=
  match p with
  | EmptyString => true
  | _ => false
  end.

(** [os.path.join(a, b)] (posixpath): an absolute [b] replaces [a]; no
    separator is added after an empty [a] or one that already ends in one. *)
Definition os_path_join (a b : string) : string :=
  if starts_with_sep b then b
  else if str_empty a || ends_with_sep a then a +:+ b
  else a +:+ "/" +:+ b.

(** [os.path.basename(p)]: what follows the last separator. *)
Fixpoint os_path_basename (p : string) : string :=
  match p with
  | EmptyString => ""
  | String c r =>
      if has_sep r then os_path_basename r
      else if Ascii.eqb c slash then r
      else p
  end.

(** ** Configuration tuples *)

(** [LoopConfig]: "that which is common to outerish loops". *)
Record LoopConfig := mkLoopConfig {
  eval_dir : string;
  scratch_dir : string;
  fold_file : string;
  dataset : string
}.

(** The configuration tuples of [attelo.harness.config].  [relate] may be
    [None].  The decoder is dereferenced without a test by [_eval_banner],
    [_decode] and [FakeDecodeArgs.argv], so it is always present here. *)
Record LearnerConfig := mkLearnerConfig {
  lc_name : string;
  attach : string;
  relate : option string
}.

Record DecoderConfig := mkDecoderConfig {
  dc_name : string;
  dc_decoder : string
}.

Record EvaluationConfig := mkEvaluationConfig {
  ec_name : string;
  learner : LearnerConfig;
  decoder : DecoderConfig
}.

(** The dictionary [_do_tuple] returns: one row of a count index. *)
Record IndexEntry := mkIndexEntry {
  config : string;
  fold : Z;
  counts_file : string
}.

(** The command-line flags of the subcommand ([config_argparser]). *)
Record Args := mkArgs { resume : bool }.

(** The fold dictionary read from the fold file: document name to fold. *)
Definition FoldDict := list (string * Z).

Definition dict_values (d : FoldDict) : list Z := map snd d.

(** ** The simulated command line *)

Inductive tool := ToolEnfold | ToolLearn | ToolDecode.

(** Modelled from the spec: [CliArgs] of [attelo.harness.config] is not
    under src/; it is the "simulated command-line interface" through which
    the tools are invoked.  Entering the context parses [argv()] with the
    tool's parser and yields the namespace; here the namespace is the
    argument vector itself, and an option is read back by its flag. *)
Record Namespace := mkNamespace {
  ns_tool : tool;
  ns_argv : list string
}.

Fixpoint opt_value (flag : string) (opts : list string) : option string :=
  match opts with
  | f :: v :: rest => if String.eqb f flag then Some v else opt_value flag rest
  | _ => None
  end.

(** The three leading arguments are positional. *)
Definition ns_get (flag : string) (ns : Namespace) : string :=
  match opt_value flag (skipn 3 (ns_argv ns)) with
  | Some v => v
  | None => ""
  end.

Definition attachment_model : Namespace -> string := ns_get "--attachment-model".
Definition relation_model : Namespace -> string := ns_get "--relation-model".

(** ** Calls on the outside world *)

Inductive event :=
| Stderr (text : string)
| Makedirs (p : string)
| Link (src dst : string)
| ForceSymlink (src dst : string)
| OpenW (p : string)
| Call (cmd : list string) (stdout : string)
| LoadDataPack (edus pairings features : string)
| JsonLoad (p : string)
| CliEnter (t : tool) (argv : list string)
| CliExit (t : tool) (argv : list string)
| Enfold (argv : list string)
| Learn (argv : list string)
| LoadModels (argv : list string)
| Decode (argv : list string)
| IndexOpen (p : string)
| IndexRow (p : string) (row : IndexEntry)
| IndexClose (p : string).

(** The operating system, the attelo library and the local configuration
    ([..local], [..util]), none of which is defined by the module.  A call
    that changes the world is a function on worlds, a call that reads it a
    function of the world.  Calls return: a tool that fails raises an
    exception which the module does not catch, and such runs are left out,
    except for the fold file that cannot be read: [json_load] gives the
    dictionary when the file opens and parses and [None] otherwise, and
    [can_open] tells then whether [open] succeeded. *)
Class Env := {
  world : Type;
  dpack : Type;
  subpack : Type;
  decoder_obj : Type;
  models : Type;
  (* os, os.path *)
  fp_exists : string -> world -> bool;
  os_path_isfile : string -> world -> bool;
  os_listdir : string -> world -> list string;
  os_makedirs : string -> world -> world;
  os_link : string -> string -> world -> world;
  open_w : string -> world -> world;
  json_load : string -> world -> option FoldDict;
  can_open : string -> world -> bool;
  (* attelo.harness.util *)
  timestamp : world -> string;
  call : list string -> string -> world -> world;
  force_symlink : string -> string -> world -> world;
  (* attelo.io, attelo.args, attelo.cmd, DataPack *)
  load_data_pack : string -> string -> string -> world -> dpack;
  training : dpack -> FoldDict -> Z -> subpack;
  testing : dpack -> FoldDict -> Z -> subpack;
  args_to_decoder : Namespace -> decoder_obj;
  load_models : Namespace -> world -> models;
  learn_main_for_harness : Namespace -> subpack -> world -> world;
  decode_main_for_harness :
    Namespace -> decoder_obj -> subpack -> models -> world -> world;
  enfold_main_for_harness : Namespace -> dpack -> world -> world;
  (* attelo.harness.report.CountIndex *)
  index_enter : string -> world -> world;
  index_writerow : string -> IndexEntry -> world -> world;
  index_exit : string -> world -> world;
  (* iteration over a frozenset: some order, each member once *)
  frozenset_iter : list Z -> list Z;
  frozenset_iter_nodup : forall l, NoDup (frozenset_iter l);
  frozenset_iter_in : forall l x, In x (frozenset_iter l) <-> In x l;
  (* ..local, ..util *)
  TRAINING_CORPORA : list string;
  EVALUATIONS : list EvaluationConfig;
  ATTELO_CONFIG_FILE : string;
  latest_tmp : string
}.

(** [DataConfig]: "data tables we have read". *)
Record DataConfig `{Env} := mkDataConfig {
  pack : dpack;
  folds : FoldDict
}.

(** ** Computations *)

Inductive outcome (A : Type) :=
| Ret (a : A)
| Exit (msg : string)
| Raise (exn : string).
Arguments Ret {A} a.
Arguments Exit {A} msg.
Arguments Raise {A} exn.

Section Monad.
Context `{Env}.

(** A computation: from a world to how it ended, the world it left and
    the calls it made, in order. *)
Definition M (A : Type) : Type := world -> outcome A * world * list event.

Definition ret {A} (a : A) : M A := fun w => (Ret a, w, []).

Definition bind {A B} (m : M A) (f : A -> M B) : M B :=
  fun w =>
    match m w with
    | (Ret a, w1, e1) =>
        match f a w1 with
        | (r, w2, e2) => (r, w2, e1 ++ e2)
        end
    | (Exit msg, w1, e1) => (Exit msg, w1, e1)
    | (Raise exn, w1, e1) => (Raise exn, w1, e1)
    end.

Definition ask {A} (f : world -> A) : M A := fun w => (Ret (f w), w, []).

Definition act (e : event) (f : world -> world) : M unit :=
  fun w => (Ret tt, f w, [e]).

Definition emit (e : event) : M unit := fun w => (Ret tt, w, [e]).

(** [sys.exit(msg)]. *)
Definition sys_exit {A} (msg : string) : M A := fun w => (Exit msg, w, []).

Definition raise {A} (exn : string) : M A := fun w => (Raise exn, w, []).

(** [with enter as h: body]; the exit handler also runs when the body
    ends by [sys.exit] or an exception. *)
Definition with_ctx {C A} (enter : M C) (leave : C -> M unit)
    (body : C -> M A) : M A :=
  fun w =>
    match enter w with
    | (Ret h, w1, e1) =>
        match body h w1 with
        | (r, w2, e2) =>
            match leave h w2 with
            | (_, w3, e3) => (r, w3, e1 ++ e2 ++ e3)
            end
        end
    | (Exit msg, w1, e1) => (Exit msg, w1, e1)
    | (Raise exn, w1, e1) => (Raise exn, w1, e1)
    end.

(** [for x in xs: body(x)]. *)
Fixpoint for_each {A} (xs : list A) (body : A -> M unit) : M unit :=
  match xs with
  | [] => ret tt
  | x :: rest => bind (body x) (fun _ => for_each rest body)
  end.

(** [if c: m] without an else branch. *)
Definition when (c : bool) (m : M unit) : M unit := if c then m else ret tt.

(** [print(text, file=sys.stderr)]. *)
Definition print_err (text : string) : M unit := emit (Stderr text).
End Monad.

Declare Scope harness_scope.
Delimit Scope harness_scope with harness.
Notation "x <- m ;; k" := (bind m (fun x => k))
  (at level 61, m at next level, right associativity) : harness_scope.
Notation "m ;;; k" := (bind m (fun _ => k))
  (at level 61, right associativity) : harness_scope.
Local Open Scope harness_scope.

(** ** The module *)

Definition NAME : string := "evaluate".
Definition _DEBUG : Z := 0.

(** Truth value of a Python int. *)
Definition truthy (z : Z) : bool := negb (Z.eqb z 0).

Section Harness.
Context `{Env}.

(** *** user feedback *)

Definition ungathered_msg : string :=
  "No data to run experiments on." +:+ newline +:+
  "Please run `irit-rst-dt gather`".

Definition _exit_ungathered {A} : M A := sys_exit ungathered_msg.

Definition _eval_banner (econf : EvaluationConfig) (lconf : LoopConfig)
    (fold : Z) : string :=
  let rname := relate (learner econf) in
  let learner_str :=
    attach (learner econf) +:+
    match rname with
    | Some r => if str_empty r then "" else ":" +:+ r
    | None => ""
    end in
  str_join newline
    [str_repeat "----------" 3;
     "fold " +:+ str_int fold +:+ " [" +:+ dataset lconf +:+ "]";
     "learner(s): " +:+ learner_str;
     "decoder: " +:+ dc_decoder (decoder econf);
     str_repeat "----------" 3].

Definition _corpus_banner (lconf : LoopConfig) : string :=
  str_join newline
    [str_repeat "==========" 7; dataset lconf; str_repeat "==========" 7].

Definition _fold_banner (lconf : LoopConfig) (fold : Z) : string :=
  str_join newline
    [str_repeat "==========" 6;
     "fold " +:+ str_int fold +:+ " [" +:+ dataset lconf +:+ "]";
     str_repeat "==========" 6].

(** *** paths *)

Definition _eval_data_path (lconf : LoopConfig) (ext : string) : string :=
  os_path_join (eval_dir lconf) (dataset lconf +:+ "." +:+ ext).

Definition _features_path (lconf : LoopConfig) : string :=
  _eval_data_path lconf "relations.sparse".

Definition _edu_input_path (lconf : LoopConfig) : string :=
  _features_path lconf +:+ ".edu_input".

Definition _pairings_path (lconf : LoopConfig) : string :=
  _features_path lconf +:+ ".pairings".

Definition _fold_dir_path (lconf : LoopConfig) (fold : Z) : string :=
  os_path_join (scratch_dir lconf) ("fold-" +:+ str_int fold).

Definition _eval_model_path (lconf : LoopConfig) (econf : EvaluationConfig)
    (fold : Z) (mtype : string) : string :=
  let lname := lc_name (learner econf) in
  let fold_dir := _fold_dir_path lconf fold in
  os_path_join fold_dir
    (dataset lconf +:+ "." +:+ lname +:+ "." +:+ mtype +:+ ".model").

Definition _counts_file_path (lconf : LoopConfig) (econf : EvaluationConfig)
    (fold : Z) : string :=
  let fold_dir := _fold_dir_path lconf fold in
  os_path_join fold_dir (str_join "." ["counts"; ec_name econf; "csv"]).

Definition _decode_output_path (lconf : LoopConfig) (econf : EvaluationConfig)
    (fold : Z) : string :=
  let fold_dir := _fold_dir_path lconf fold in
  os_path_join fold_dir (str_join "." ["output"; ec_name econf]).

Definition _index_file_path (parent_dir : string) (lconf : LoopConfig) : string :=
  os_path_join parent_dir ("count-index-" +:+ dataset lconf +:+ ".csv").

Definition _score_file_path_prefix (parent_dir : string) (lconf : LoopConfig)
    : string :=
  os_path_join parent_dir ("scores-" +:+ dataset lconf).

(** *** attelo config *)

Definition FakeEvalArgs_argv (lconf : LoopConfig) (econf : EvaluationConfig)
    (fold : Z) : list string :=
  let model_file_a := _eval_model_path lconf econf fold "attach" in
  let model_file_r := _eval_model_path lconf econf fold "relate" in
  [_edu_input_path lconf;
   _pairings_path lconf;
   _features_path lconf;
   "--config"; ATTELO_CONFIG_FILE;
   "--fold"; str_int fold;
   "--fold-file"; fold_file lconf;
   "--attachment-model"; model_file_a;
   "--relation-model"; model_file_r].

Definition FakeEnfoldArgs_argv (lconf : LoopConfig) : list string :=
  [_edu_input_path lconf;
   _pairings_path lconf;
   _features_path lconf;
   "--config"; ATTELO_CONFIG_FILE;
   "--output"; fold_file lconf].

Definition FakeLearnArgs_argv (lconf : LoopConfig) (econf : EvaluationConfig)
    (fold : Z) : list string :=
  FakeEvalArgs_argv lconf econf fold
  ++ ["--learner"; attach (learner econf)]
  ++ match relate (learner econf) with
     | Some r => ["--relation-learner"; r]
     | None => []
     end
  ++ ["--decoder"; dc_decoder (decoder econf)].

Definition FakeDecodeArgs_argv (lconf : LoopConfig) (econf : EvaluationConfig)
    (fold : Z) : list string :=
  FakeEvalArgs_argv lconf econf fold
  ++ ["--decoder"; dc_decoder (decoder econf);
      "--scores"; _counts_file_path lconf econf fold;
      "--output"; _decode_output_path lconf econf fold].

(** Entering and leaving a [CliArgs] context. *)
Definition cli_enter (t : tool) (argv : list string) : M Namespace :=
  emit (CliEnter t argv) ;;; ret (mkNamespace t argv).

Definition cli_exit (ns : Namespace) : M unit :=
  emit (CliExit (ns_tool ns) (ns_argv ns)).

Definition FakeEnfoldArgs (lconf : LoopConfig) : M Namespace :=
  cli_enter ToolEnfold (FakeEnfoldArgs_argv lconf).

Definition FakeLearnArgs (lconf : LoopConfig) (econf : EvaluationConfig)
    (fold : Z) : M Namespace :=
  cli_enter ToolLearn (FakeLearnArgs_argv lconf econf fold).

Definition FakeDecodeArgs (lconf : LoopConfig) (econf : EvaluationConfig)
    (fold : Z) : M Namespace :=
  cli_enter ToolDecode (FakeDecodeArgs_argv lconf econf fold).

(** [CountIndex(path)] as a context, and its [writerow]; the index object
    is known by the path it writes to. *)
Definition CountIndex (path : string) : M string :=
  act (IndexOpen path) (index_enter path) ;;; ret path.

Definition CountIndex_exit (idx : string) : M unit :=
  act (IndexClose idx) (index_exit idx).

Definition writerow (idx : string) (row : IndexEntry) : M unit :=
  act (IndexRow idx row) (index_writerow idx row).

(** [os.makedirs(p)]. *)
Definition makedirs (p : string) : M unit := act (Makedirs p) (os_makedirs p).

(** [open(p, "w")] as a context; closing the stream calls nothing. *)
Definition open_write (p : string) : M string :=
  act (OpenW p) (open_w p) ;;; ret p.

(** *** evaluation *)

Definition _link_data_files (data_dir eval_dir : string) : M unit :=
  names <- ask (os_listdir data_dir) ;;
  for_each names (fun fname =>
    let data_file := os_path_join data_dir fname in
    let eval_file := os_path_join eval_dir fname in
    isf <- ask (os_path_isfile data_file) ;;
    when isf (act (Link data_file eval_file) (os_link data_file eval_file))).

Definition _maybe_learn (lconf : LoopConfig) (dconf : DataConfig)
    (econf : EvaluationConfig) (fold : Z) : M unit :=
  let fold_dir := _fold_dir_path lconf fold in
  ex <- ask (fp_exists fold_dir) ;;
  when (negb ex) (makedirs fold_dir) ;;;
  with_ctx (FakeLearnArgs lconf econf fold) cli_exit (fun args =>
    let subpack := training (pack dconf) (folds dconf) fold in
    ea <- ask (fp_exists (attachment_model args)) ;;
    er <- ask (fp_exists (relation_model args)) ;;
    if ea && er then
      print_err ("reusing " +:+ lc_name (learner econf)
                 +:+ " model (already built)")
    else
      act (Learn (ns_argv args)) (learn_main_for_harness args subpack)).

Definition _decode (lconf : LoopConfig) (dconf : DataConfig)
    (econf : EvaluationConfig) (fold : Z) : M unit :=
  done <- ask (fp_exists (_counts_file_path lconf econf fold)) ;;
  if done then
    print_err ("skipping " +:+ lc_name (learner econf) +:+ "/"
               +:+ dc_name (decoder econf) +:+ " (already done)")
  else
    let fold_dir := _fold_dir_path lconf fold in
    ex <- ask (fp_exists fold_dir) ;;
    when (negb ex) (makedirs fold_dir) ;;;
    with_ctx (FakeDecodeArgs lconf econf fold) cli_exit (fun args =>
      let decoder := args_to_decoder args in
      let subpack := testing (pack dconf) (folds dconf) fold in
      models <- (emit (LoadModels (ns_argv args)) ;;; ask (load_models args)) ;;
      act (Decode (ns_argv args))
          (decode_main_for_harness args decoder subpack models)).

Definition _generate_fold_file (lconf : LoopConfig) (dpack : dpack) : M unit :=
  with_ctx (FakeEnfoldArgs lconf) cli_exit (fun args =>
    act (Enfold (ns_argv args)) (enfold_main_for_harness args dpack)).

Definition report_cmd (idx_file json_file : string) : list string :=
  ["attelo"; "report"; idx_file; "--json"; json_file].

Definition _mk_report (parent_dir : string) (lconf : LoopConfig)
    (idx_file : string) : M unit :=
  let score_prefix := _score_file_path_prefix parent_dir lconf in
  let json_file := score_prefix +:+ ".json" in
  let pretty_file := score_prefix +:+ ".txt" in
  with_ctx (open_write pretty_file) (fun _ => ret tt) (fun pretty_stream =>
    act (Call (report_cmd idx_file json_file) pretty_stream)
        (call (report_cmd idx_file json_file) pretty_stream)) ;;;
  print_err ("Scores summarised in " +:+ pretty_file).

Definition _do_tuple (lconf : LoopConfig) (dconf : DataConfig)
    (econf : EvaluationConfig) (fold : Z) : M IndexEntry :=
  let cfile := _counts_file_path lconf econf fold in
  _maybe_learn lconf dconf econf fold ;;;
  _decode lconf dconf econf fold ;;;
  ret {| config := ec_name econf; fold := fold; counts_file := cfile |}.

Definition _do_fold (lconf : LoopConfig) (dconf : DataConfig) (fold : Z)
    (idx : string) : M unit :=
  let fold_dir := _fold_dir_path lconf fold in
  let score_prefix := _score_file_path_prefix fold_dir lconf in
  done <- ask (fp_exists (score_prefix +:+ ".txt")) ;;
  if done then
    print_err ("Skipping fold " +:+ str_int fold +:+ " (already run)")
  else
    print_err (_fold_banner lconf fold) ;;;
    ex <- ask (fp_exists fold_dir) ;;
    when (negb ex) (makedirs fold_dir) ;;;
    let fold_idx_file := _index_file_path fold_dir lconf in
    with_ctx (CountIndex fold_idx_file) CountIndex_exit (fun fold_idx =>
      for_each EVALUATIONS (fun econf =>
        print_err (_eval_banner econf lconf fold) ;;;
        idx_entry <- _do_tuple lconf dconf econf fold ;;
        writerow idx idx_entry ;;;
        writerow fold_idx idx_entry)) ;;;
    let fold_dir := _fold_dir_path lconf fold in
    _mk_report fold_dir lconf fold_idx_file.

(** [with open(lconf.fold_file) as f_in: json.load(f_in)].  A file that
    cannot be opened raises IOError from [open]; a file that opens and
    does not parse raises ValueError from [json.load]. *)
Definition read_folds (path : string) : M FoldDict :=
  fun w =>
    match json_load path w with
    | Some d => (Ret d, w, [JsonLoad path])
    | None =>
        if can_open path w then (Raise "ValueError", w, [])
        else (Raise "IOError", w, [])
    end.

Definition _do_corpus (lconf : LoopConfig) : M unit :=
  print_err (_corpus_banner lconf) ;;;
  let edus_file := _edu_input_path lconf in
  ex <- ask (fp_exists edus_file) ;;
  when (negb ex) _exit_ungathered ;;;
  dpack <- (emit (LoadDataPack edus_file (_pairings_path lconf)
                               (_features_path lconf)) ;;;
            ask (load_data_pack edus_file (_pairings_path lconf)
                                (_features_path lconf))) ;;
  _generate_fold_file lconf dpack ;;;
  fd <- read_folds (fold_file lconf) ;;
  let dconf := {| pack := dpack; folds := fd |} in
  let idx_file := _index_file_path (scratch_dir lconf) lconf in
  with_ctx (CountIndex idx_file) CountIndex_exit (fun idx =>
    for_each (frozenset_iter (dict_values (folds dconf))) (fun fold =>
      _do_fold lconf dconf fold idx)) ;;;
  _mk_report (eval_dir lconf) lconf idx_file.

(** *** main *)

(** [_create_eval_dirs], with the module constant [_DEBUG] as an argument. *)
Definition create_eval_dirs_with (debug : Z) (args : Args) (data_dir : string)
    : M (string * string) :=
  let eval_current := os_path_join data_dir "eval-current" in
  let scratch_current := os_path_join data_dir "scratch-current" in
  if resume args then
    ec <- ask (fp_exists eval_current) ;;
    sc <- ask (fp_exists scratch_current) ;;
    if negb ec || negb sc then
      sys_exit "No currently running evaluation to resume!"
    else
      ret (eval_current, scratch_current)
  else
    tstamp <- (if truthy debug then ret "TEST" else ask timestamp) ;;
    let eval_dir := os_path_join data_dir ("eval-" +:+ tstamp) in
    ex <- ask (fp_exists eval_dir) ;;
    (if negb ex then
       makedirs eval_dir ;;;
       _link_data_files data_dir eval_dir ;;;
       act (ForceSymlink (os_path_basename eval_dir) eval_current)
           (force_symlink (os_path_basename eval_dir) eval_current)
     else when (negb (truthy debug))
            (sys_exit "Try again in literally one second")) ;;;
    let scratch_dir := os_path_join data_dir ("scratch-" +:+ tstamp) in
    sx <- ask (fp_exists scratch_dir) ;;
    when (negb sx)
      (makedirs scratch_dir ;;;
       act (ForceSymlink (os_path_basename scratch_dir) scratch_current)
           (force_symlink (os_path_basename scratch_dir) scratch_current)) ;;;
    ret (eval_dir, scratch_dir).

Definition _create_eval_dirs : Args -> string -> M (string * string) :=
  create_eval_dirs_with _DEBUG.

(** The [LoopConfig] that [main] builds for a corpus. *)
Definition main_lconf (eval_dir scratch_dir corpus : string) : LoopConfig :=
  let dataset := os_path_basename corpus in
  let fold_file := os_path_join eval_dir ("folds-" +:+ dataset +:+ ".json") in
  {| eval_dir := eval_dir;
     scratch_dir := scratch_dir;
     fold_file := fold_file;
     dataset := dataset |}.

Definition main (args : Args) : M unit :=
  let data_dir := latest_tmp in
  ex <- ask (fp_exists data_dir) ;;
  when (negb ex) _exit_ungathered ;;;
  dirs <- _create_eval_dirs args data_dir ;;
  let '(eval_dir, scratch_dir) := dirs in
  with_ctx (open_write (os_path_join eval_dir "versions.txt"))
           (fun _ => ret tt)
           (fun stream => act (Call ["pip"; "freeze"] stream)
                              (call ["pip"; "freeze"] stream)) ;;;
  for_each TRAINING_CORPORA (fun corpus =>
    _do_corpus (main_lconf eval_dir scratch_dir corpus)).

End Harness.

(** ** A small environment to run the harness in

    A world is the list of the files and the list of the directories that
    exist.  The tools create the files named on their command line and
    touch nothing else; the clock stands still. *)
Module Toy.

Record fs := mkfs {
  files : list string;
  dirs : list string
}.

Definition mem (p : string) (l : list string) : bool :=
  existsb (String.eqb p) l.

Definition exists_ (p : string) (w : fs) : bool :=
  mem p (files w) || mem p (dirs w).

Definition add_file (p : string) (w : fs) : fs :=
  if mem p (files w) then w else {| files := files w ++ [p]; dirs := dirs w |}.

Definition add_dir (p : string) (w : fs) : fs :=
  if mem p (dirs w) then w else {| files := files w; dirs := dirs w ++ [p] |}.

(** The name of [q] inside directory [d], when [q] lies directly in it. *)
Definition entry_name (d q : string) : option string :=
  let pre := d +:+ "/" in
  if String.prefix pre q then
    let rest := String.substring (String.length pre)
                  (String.length q - String.length pre) q in
    if has_sep rest || str_empty rest then None else Some rest
  else None.

Definition listdir (d : string) (w : fs) : list string :=
  flat_map (fun q => match entry_name d q with Some n => [n] | None => [] end)
           (files w ++ dirs w).

Definition test_folds : FoldDict :=
  [("doc1", 0%Z); ("doc2", 1%Z); ("doc3", 0%Z)].

Definition run_call (cmd : list string) (stdout : string) (w : fs) : fs :=
  match cmd with
  | [_; "report"; _; "--json"; json_file] => add_file json_file w
  | _ => w
  end.

Definition maxent : LearnerConfig :=
  {| lc_name := "maxent"; attach := "maxent"; relate := None |}.

Definition bayes : LearnerConfig :=
  {| lc_name := "bayes"; attach := "bayes"; relate := Some "bayes" |}.

Definition mst : DecoderConfig := {| dc_name := "mst"; dc_decoder := "mst" |}.

Definition econf0 : EvaluationConfig :=
  {| ec_name := "maxent-mst"; learner := maxent; decoder := mst |}.

Definition evaluations : list EvaluationConfig :=
  [ econf0; {| ec_name := "bayes-mst"; learner := bayes; decoder := mst |} ].

#[export] Instance env : Env := {|
  world := fs;
  dpack := unit;
  subpack := unit;
  decoder_obj := unit;
  models := unit;
  fp_exists := exists_;
  os_path_isfile := fun p w => mem p (files w);
  os_listdir := listdir;
  os_makedirs := add_dir;
  os_link := fun _ dst => add_file dst;
  open_w := add_file;
  json_load := fun p w => if exists_ p w then Some test_folds else None;
  can_open := exists_;
  timestamp := fun _ => "2014-12-01T10:00:00";
  call := run_call;
  force_symlink := fun _ dst => add_dir dst;
  load_data_pack := fun _ _ _ _ => tt;
  training := fun _ _ _ => tt;
  testing := fun _ _ _ => tt;
  args_to_decoder := fun _ => tt;
  load_models := fun _ _ => tt;
  learn_main_for_harness := fun ns _ w =>
    add_file (relation_model ns) (add_file (attachment_model ns) w);
  decode_main_for_harness := fun ns _ _ _ w =>
    add_file (ns_get "--output" ns) (add_file (ns_get "--scores" ns) w);
  enfold_main_for_harness := fun ns _ => add_file (ns_get "--output" ns);
  index_enter := add_file;
  index_writerow := fun _ _ w => w;
  index_exit := fun _ w => w;
  frozenset_iter := nodup Z.eq_dec;
  frozenset_iter_nodup := NoDup_nodup Z.eq_dec;
  frozenset_iter_in := nodup_In Z.eq_dec;
  TRAINING_CORPORA := ["corpus/rst-dt"];
  EVALUATIONS := evaluations;
  ATTELO_CONFIG_FILE := "attelo.config";
  latest_tmp := "TMP/latest"
|}.

(** The same environment with an enfold that writes no fold file. *)
Definition env_lost_folds : Env := {|
  world := fs;
  dpack := unit;
  subpack := unit;
  decoder_obj := unit;
  models := unit;
  fp_exists := exists_;
  os_path_isfile := fun p w => mem p (files w);
  os_listdir := listdir;
  os_makedirs := add_dir;
  os_link := fun _ dst => add_file dst;
  open_w := add_file;
  json_load := fun p w => if exists_ p w then Some test_folds else None;
  can_open := exists_;
  timestamp := fun _ => "2014-12-01T10:00:00";
  call := run_call;
  force_symlink := fun _ dst => add_dir dst;
  load_data_pack := fun _ _ _ _ => tt;
  training := fun _ _ _ => tt;
  testing := fun _ _ _ => tt;
  args_to_decoder := fun _ => tt;
  load_models := fun _ _ => tt;
  learn_main_for_harness := fun ns _ w =>
    add_file (relation_model ns) (add_file (attachment_model ns) w);
  decode_main_for_harness := fun ns _ _ _ w =>
    add_file (ns_get "--output" ns) (add_file (ns_get "--scores" ns) w);
  enfold_main_for_harness := fun _ _ w => w;
  index_enter := add_file;
  index_writerow := fun _ _ w => w;
  index_exit := fun _ w => w;
  frozenset_iter := nodup Z.eq_dec;
  frozenset_iter_nodup := NoDup_nodup Z.eq_dec;
  frozenset_iter_in := nodup_In Z.eq_dec;
  TRAINING_CORPORA := ["corpus/rst-dt"];
  EVALUATIONS := evaluations;
  ATTELO_CONFIG_FILE := "attelo.config";
  latest_tmp := "TMP/latest"
|}.

(** The environment for other corpora; [writes] tells whether enfold
    leaves the fold file, [parses] whether a fold file that is there can
    be parsed. *)
Definition env_with (corpora : list string) (writes parses : bool) : Env := {|
  world := fs;
  dpack := unit;
  subpack := unit;
  decoder_obj := unit;
  models := unit;
  fp_exists := exists_;
  os_path_isfile := fun p w => mem p (files w);
  os_listdir := listdir;
  os_makedirs := add_dir;
  os_link := fun _ dst => add_file dst;
  open_w := add_file;
  json_load := fun p w =>
    if exists_ p w && parses then Some test_folds else None;
  can_open := exists_;
  timestamp := fun _ => "2014-12-01T10:00:00";
  call := run_call;
  force_symlink := fun _ dst => add_dir dst;
  load_data_pack := fun _ _ _ _ => tt;
  training := fun _ _ _ => tt;
  testing := fun _ _ _ => tt;
  args_to_decoder := fun _ => tt;
  load_models := fun _ _ => tt;
  learn_main_for_harness := fun ns _ w =>
    add_file (relation_model ns) (add_file (attachment_model ns) w);
  decode_main_for_harness := fun ns _ _ _ w =>
    add_file (ns_get "--output" ns) (add_file (ns_get "--scores" ns) w);
  enfold_main_for_harness := fun ns _ w =>
    if writes then add_file (ns_get "--output" ns) w else w;
  index_enter := add_file;
  index_writerow := fun _ _ w => w;
  index_exit := fun _ w => w;
  frozenset_iter := nodup Z.eq_dec;
  frozenset_iter_nodup := NoDup_nodup Z.eq_dec;
  frozenset_iter_in := nodup_In Z.eq_dec;
  TRAINING_CORPORA := corpora;
  EVALUATIONS := evaluations;
  ATTELO_CONFIG_FILE := "attelo.config";
  latest_tmp := "TMP/latest"
|}.

(** The data directory after gathering two corpora. *)
Definition gathered_two : fs :=
  {| files := ["TMP/latest/rst-dt.relations.sparse";
               "TMP/latest/rst-dt.relations.sparse.edu_input";
               "TMP/latest/rst-dt.relations.sparse.pairings";
               "TMP/latest/pdtb.relations.sparse";
               "TMP/latest/pdtb.relations.sparse.edu_input";
               "TMP/latest/pdtb.relations.sparse.pairings"];
     dirs := ["TMP/latest"] |}.

(** The data directory after [irit-rst-dt gather]. *)
Definition gathered : fs :=
  {| files := ["TMP/latest/rst-dt.relations.sparse";
               "TMP/latest/rst-dt.relations.sparse.edu_input";
               "TMP/latest/rst-dt.relations.sparse.pairings"];
     dirs := ["TMP/latest"] |}.

Definition lconf0 : LoopConfig :=
  main_lconf "TMP/latest/eval-current" "TMP/latest/scratch-current"
             "corpus/rst-dt".

Definition dconf0 : DataConfig := {| pack := tt; folds := test_folds |}.

(** An interrupted evaluation: fold 1 is done, fold 0 is not. *)
Definition interrupted : fs :=
  {| files := ["TMP/latest/eval-current/rst-dt.relations.sparse";
               "TMP/latest/eval-current/rst-dt.relations.sparse.edu_input";
               "TMP/latest/eval-current/rst-dt.relations.sparse.pairings";
               "TMP/latest/scratch-current/fold-1/scores-rst-dt.txt"];
     dirs := ["TMP/latest"; "TMP/latest/eval-current";
              "TMP/latest/scratch-current";
              "TMP/latest/scratch-current/fold-1"] |}.

End Toy.

(** ** Reading a run *)

Section Observations.
Context `{Env}.

Definition outcome_of {A} (x : outcome A * world * list event) : outcome A :=
  fst (fst x).

Definition world_of {A} (x : outcome A * world * list event) : world :=
  snd (fst x).

Definition events_of {A} (x : outcome A * world * list event) : list event :=
  snd x.

(** The bodies of a loop run one after the other: each starts in the world
    the one before it left, runs to its end, and contributes its own block
    of calls. *)
Inductive chain {A} (body : A -> M unit)
  : list A -> world -> list (list event) -> world -> Prop :=
| chain_nil w : chain body [] w [] w
| chain_cons x xs w w1 w2 b bs :
    body x w = (Ret tt, w1, b) ->
    chain body xs w1 bs w2 ->
    chain body (x :: xs) w (b :: bs) w2.

(** The worlds in which the successive bodies of a loop start. *)
Fixpoint start_worlds {A} (body : A -> M unit) (xs : list A) (w : world)
    : list world :=
  match xs with
  | [] => []
  | x :: rest => w :: start_worlds body rest (world_of (body x w))
  end.

(** The rows written to count indexes, with the index each went to. *)
Fixpoint index_rows (evs : list event) : list (string * IndexEntry) :=
  match evs with
  | [] => []
  | IndexRow p row :: rest => (p, row) :: index_rows rest
  | _ :: rest => index_rows rest
  end.

(** Modelled from the spec: [CountIndex] of [attelo.harness.report] is not
    under src/.  It is the writer of a count index file: entering the
    context starts the file afresh, [writerow] appends a row.  The rows of
    the index at [path] after the calls [evs], when it held [old] before. *)
Fixpoint index_contents (path : string) (evs : list event)
    (old : list IndexEntry) : list IndexEntry :=
  match evs with
  | [] => old
  | IndexOpen p :: rest =>
      index_contents path rest (if String.eqb p path then [] else old)
  | IndexRow p row :: rest =>
      index_contents path rest (if String.eqb p path then old ++ [row] else old)
  | _ :: rest => index_contents path rest old
  end.

(** Calls that touch no count index. *)
Definition index_free (evs : list event) : Prop :=
  Forall (fun e => match e with
                   | IndexOpen _ | IndexRow _ _ | IndexClose _ => False
                   | _ => True
                   end) evs.

(** The steps worth skipping: training, loading models, decoding. *)
Definition expensive (e : event) : bool :=
  match e with
  | Learn _ | LoadModels _ | Decode _ => true
  | _ => false
  end.

(** A directory path as [os.path.join] leaves it: not empty and without a
    trailing separator, so that joining a relative name to it inserts one
    separator. *)
Definition dir_like (d : string) : bool :=
  negb (str_empty d) && negb (ends_with_sep d).

(** The index row of a configuration in a fold. *)
Definition index_entry (lconf : LoopConfig) (econf : EvaluationConfig)
    (fold : Z) : IndexEntry :=
  {| config := ec_name econf;
     fold := fold;
     counts_file := _counts_file_path lconf econf fold |}.

(** The score file whose presence marks a fold as done. *)
Definition fold_score_file (lconf : LoopConfig) (fold : Z) : string :=
  _score_file_path_prefix (_fold_dir_path lconf fold) lconf +:+ ".txt".

(** What the harness relies on when it takes a file for finished work: the
    learner leaves both model files, the decoder leaves the counts file,
    [os.makedirs] leaves the directory, and none of them removes a file. *)
Record tools_contract : Prop := {
  makedirs_creates : forall p w, fp_exists p (os_makedirs p w) = true;
  makedirs_keeps : forall p q w,
    fp_exists q w = true -> fp_exists q (os_makedirs p w) = true;
  learn_creates_attach : forall ns sub w,
    fp_exists (attachment_model ns) (learn_main_for_harness ns sub w) = true;
  learn_creates_relate : forall ns sub w,
    fp_exists (relation_model ns) (learn_main_for_harness ns sub w) = true;
  learn_keeps : forall ns sub q w,
    fp_exists q w = true ->
    fp_exists q (learn_main_for_harness ns sub w) = true;
  decode_creates : forall ns d sub m w,
    fp_exists (ns_get "--scores" ns)
              (decode_main_for_harness ns d sub m w) = true;
  decode_keeps : forall ns d sub m q w,
    fp_exists q w = true ->
    fp_exists q (decode_main_for_harness ns d sub m w) = true
}.

(** The world in which [_maybe_learn] and [_decode] go on once the fold
    directory is there. *)
Definition ensure_dir (d : string) (w : world) : world :=
  if fp_exists d w then w else os_makedirs d w.

(** Whether both model files are there. *)
Definition models_built (lconf : LoopConfig) (econf : EvaluationConfig)
    (fold : Z) (w : world) : bool :=
  fp_exists (_eval_model_path lconf econf fold "attach") w
  && fp_exists (_eval_model_path lconf econf fold "relate") w.

Definition mkdir_events (d : string) (w : world) : list event :=
  if fp_exists d w then [] else [Makedirs d].

(** The calls a report is made of: the text file is opened for writing,
    `attelo report` is run on the index with its output in that file and
    its JSON beside it, and the user is told. *)
Definition report_events (parent_dir : string) (lconf : LoopConfig)
    (idx_file : string) : list event :=
  let score_prefix := os_path_join parent_dir ("scores-" +:+ dataset lconf) in
  [OpenW (score_prefix +:+ ".txt");
   Call ["attelo"; "report"; idx_file; "--json"; score_prefix +:+ ".json"]
        (score_prefix +:+ ".txt");
   Stderr ("Scores summarised in " +:+ score_prefix +:+ ".txt")].

(** The world a report leaves. *)
Definition report_world (parent_dir : string) (lconf : LoopConfig)
    (idx_file : string) (w : world) : world :=
  let score_prefix := os_path_join parent_dir ("scores-" +:+ dataset lconf) in
  call ["attelo"; "report"; idx_file; "--json"; score_prefix +:+ ".json"]
       (score_prefix +:+ ".txt")
       (open_w (score_prefix +:+ ".txt") w).

(** The body of the loop of [_do_fold] over [EVALUATIONS]. *)
Definition config_step (lconf : LoopConfig) (dconf : DataConfig) (fold : Z)
    (idx fold_idx : string) (econf : EvaluationConfig) : M unit :=
  print_err (_eval_banner econf lconf fold) ;;;
  idx_entry <- _do_tuple lconf dconf econf fold ;;
  writerow idx idx_entry ;;;
  writerow fold_idx idx_entry.

(** The calls of one pass of that body: the banner, the calls of
    [_do_tuple] from some world, and the row written to both indexes. *)
Definition config_block (lconf : LoopConfig) (dconf : DataConfig) (fold : Z)
    (idx fold_idx : string) (econf : EvaluationConfig) (b : list event) : Prop :=
  exists wa,
    b = [Stderr (_eval_banner econf lconf fold)]
        ++ events_of (_do_tuple lconf dconf econf fold wa)
        ++ [IndexRow idx (index_entry lconf econf fold);
            IndexRow fold_idx (index_entry lconf econf fold)].

(** The rows written to the index at [path]. *)
Definition rows_to (path : string) (evs : list event) : list IndexEntry :=
  map snd (filter (fun pr => String.eqb (fst pr) path) (index_rows evs)).

(** The count index of a corpus and the count index of one of its folds. *)
Definition corpus_index (lconf : LoopConfig) : string :=
  _index_file_path (scratch_dir lconf) lconf.

Definition fold_index (lconf : LoopConfig) (fold : Z) : string :=
  _index_file_path (_fold_dir_path lconf fold) lconf.

(** What [_do_corpus] has loaded, the world after the fold file was
    generated, and the calls made up to there. *)
Definition corpus_pack (lconf : LoopConfig) (w : world) : dpack :=
  load_data_pack (_edu_input_path lconf) (_pairings_path lconf)
                 (_features_path lconf) w.

Definition corpus_enfolded (lconf : LoopConfig) (w : world) : world :=
  enfold_main_for_harness (mkNamespace ToolEnfold (FakeEnfoldArgs_argv lconf))
                          (corpus_pack lconf w) w.

Definition corpus_prelude (lconf : LoopConfig) : list event :=
  [Stderr (_corpus_banner lconf);
   LoadDataPack (_edu_input_path lconf) (_pairings_path lconf)
                (_features_path lconf);
   CliEnter ToolEnfold (FakeEnfoldArgs_argv lconf);
   Enfold (FakeEnfoldArgs_argv lconf);
   CliExit ToolEnfold (FakeEnfoldArgs_argv lconf)].

(** What the harness relies on when it takes the scores file of a fold
    for a finished fold: [open(p, "w")] leaves the file, and the report
    command removes nothing. *)
Record report_contract : Prop := {
  open_w_creates : forall p w, fp_exists p (open_w p w) = true;
  call_keeps : forall cmd out q w,
    fp_exists q w = true -> fp_exists q (call cmd out w) = true
}.

(** Writing a count index removes no file. *)
Record index_keeps : Prop := {
  index_enter_keeps : forall p q w,
    fp_exists q w = true -> fp_exists q (index_enter p w) = true;
  index_writerow_keeps : forall p row q w,
    fp_exists q w = true -> fp_exists q (index_writerow p row w) = true
}.

(** A configuration whose work in a fold is all there: the fold
    directory, both models and the counts file. *)
Definition config_done (lconf : LoopConfig) (fold : Z) (w : world)
    (econf : EvaluationConfig) : Prop :=
  fp_exists (_fold_dir_path lconf fold) w = true
  /\ models_built lconf econf fold w = true
  /\ fp_exists (_counts_file_path lconf econf fold) w = true.

(** The body of the loop of [_link_data_files]. *)
Definition link_step (data_dir eval_dir fname : string) : M unit :=
  let data_file := os_path_join data_dir fname in
  let eval_file := os_path_join eval_dir fname in
  isf <- ask (os_path_isfile data_file) ;;
  when isf (act (Link data_file eval_file) (os_link data_file eval_file)).

(** *** What running a configuration, a fold and the folds amounts to

    The steps as the harness is meant to take them, written out call by
    call and world by world, to compare the functions of the module with. *)

(** Learning: the fold directory is ensured, the learn command line is
    entered, and the learner is invoked unless both models are there. *)
Definition learn_expected (lconf : LoopConfig) (dconf : DataConfig)
    (econf : EvaluationConfig) (fold : Z) (w : world) : world * list event :=
  let d := _fold_dir_path lconf fold in
  let argv := FakeLearnArgs_argv lconf econf fold in
  let w1 := if fp_exists d w then w else os_makedirs d w in
  let mk := if fp_exists d w then [] else [Makedirs d] in
  if fp_exists (_eval_model_path lconf econf fold "attach") w1
     && fp_exists (_eval_model_path lconf econf fold "relate") w1
  then (w1,
        mk ++ [CliEnter ToolLearn argv;
               Stderr ("reusing " +:+ lc_name (learner econf)
                       +:+ " model (already built)");
               CliExit ToolLearn argv])
  else (learn_main_for_harness (mkNamespace ToolLearn argv)
          (training (pack dconf) (folds dconf) fold) w1,
        mk ++ [CliEnter ToolLearn argv; Learn argv; CliExit ToolLearn argv]).

(** Decoding: nothing but a word on stderr when the counts file is there;
    otherwise the fold directory is ensured, the decode command line is
    entered, the models are loaded and the decoder is invoked. *)
Definition decode_expected (lconf : LoopConfig) (dconf : DataConfig)
    (econf : EvaluationConfig) (fold : Z) (w : world) : world * list event :=
  let d := _fold_dir_path lconf fold in
  let argv := FakeDecodeArgs_argv lconf econf fold in
  let ns := mkNamespace ToolDecode argv in
  if fp_exists (_counts_file_path lconf econf fold) w
  then (w, [Stderr ("skipping " +:+ lc_name (learner econf) +:+ "/"
                    +:+ dc_name (decoder econf) +:+ " (already done)")])
  else
    let w1 := if fp_exists d w then w else os_makedirs d w in
    let mk := if fp_exists d w then [] else [Makedirs d] in
    (decode_main_for_harness ns (args_to_decoder ns)
       (testing (pack dconf) (folds dconf) fold) (load_models ns w1) w1,
     mk ++ [CliEnter ToolDecode argv; LoadModels argv; Decode argv;
            CliExit ToolDecode argv]).

(** One configuration inside a fold: its banner, learning, decoding, and
    its row written to the index of the corpus and to that of the fold. *)
Definition config_expected (lconf : LoopConfig) (dconf : DataConfig) (fold : Z)
    (idx fold_idx : string) (econf : EvaluationConfig) (w : world)
    : world * list event :=
  let row := {| config := ec_name econf;
                fold := fold;
                counts_file := _counts_file_path lconf econf fold |} in
  let learnt := learn_expected lconf dconf econf fold w in
  let decoded := decode_expected lconf dconf econf fold (fst learnt) in
  (index_writerow fold_idx row (index_writerow idx row (fst decoded)),
   [Stderr (_eval_banner econf lconf fold)]
   ++ snd learnt ++ snd decoded
   ++ [IndexRow idx row; IndexRow fold_idx row]).

(** The configurations in turn, each from the world the one before left;
    one block of calls per configuration. *)
Fixpoint configs_expected (lconf : LoopConfig) (dconf : DataConfig) (fold : Z)
    (idx fold_idx : string) (es : list EvaluationConfig) (w : world)
    : world * list (list event) :=
  match es with
  | [] => (w, [])
  | e :: rest =>
      let one := config_expected lconf dconf fold idx fold_idx e w in
      let others := configs_expected lconf dconf fold idx fold_idx rest (fst one) in
      (fst others, snd one :: snd others)
  end.

(** One fold: a word on stderr when its scores file is there; otherwise
    its banner, its directory, its own index opened, every configuration
    of [EVALUATIONS], the index closed and the report of the fold. *)
Definition fold_expected (lconf : LoopConfig) (dconf : DataConfig)
    (idx : string) (f : Z) (w : world) : world * list event :=
  let d := _fold_dir_path lconf f in
  let fidx := os_path_join d ("count-index-" +:+ dataset lconf +:+ ".csv") in
  if fp_exists (os_path_join d ("scores-" +:+ dataset lconf) +:+ ".txt") w
  then (w, [Stderr ("Skipping fold " +:+ str_int f +:+ " (already run)")])
  else
    let w1 := if fp_exists d w then w else os_makedirs d w in
    let mk := if fp_exists d w then [] else [Makedirs d] in
    let run := configs_expected lconf dconf f idx fidx EVALUATIONS
                 (index_enter fidx w1) in
    (report_world d lconf fidx (index_exit fidx (fst run)),
     [Stderr (_fold_banner lconf f)] ++ mk ++ [IndexOpen fidx]
     ++ concat (snd run) ++ [IndexClose fidx]
     ++ report_events d lconf fidx).

(** The folds in turn, each from the world the one before left. *)
Fixpoint folds_expected (lconf : LoopConfig) (dconf : DataConfig)
    (idx : string) (fs : list Z) (w : world) : world * list (list event) :=
  match fs with
  | [] => (w, [])
  | f :: rest =>
      let one := fold_expected lconf dconf idx f w in
      let others := folds_expected lconf dconf idx rest (fst one) in
      (fst others, snd one :: snd others)
  end.

End Observations.

(** * Properties *)

(** ** Strings and paths *)

Lemma append_assoc (a b c : string) : (a +:+ b) +:+ c = a +:+ (b +:+ c).
Proof. induction a as [|x a IH]; simpl; [reflexivity | now rewrite IH]. Qed.

Lemma append_length (a b : string) :
  String.length (a +:+ b) = String.length a + String.length b.
Proof. induction a as [|x a IH]; simpl; [reflexivity | now rewrite IH]. Qed.

Lemma has_sep_app (a b : string) : has_sep (a +:+ b) = has_sep a || has_sep b.
Proof.
  induction a as [|x a IH]; simpl; [reflexivity|].
  rewrite IH. now rewrite orb_assoc.
Qed.

Lemma starts_with_sep_app (a b : string) :
  starts_with_sep (a +:+ b) =
  if str_empty a then starts_with_sep b else starts_with_sep a.
Proof. destruct a; reflexivity. Qed.

Lemma ends_with_sep_app (a b : string) :
  ends_with_sep (a +:+ b) =
  if str_empty b then ends_with_sep a else ends_with_sep b.
Proof.
  induction a as [|x a IH]; simpl.
  - destruct b; reflexivity.
  - destruct b as [|y b].
    + simpl in *. destruct a; simpl in *; [reflexivity | exact IH].
    + simpl in *. destruct a; simpl in *; exact IH.
Qed.

Lemma no_sep_no_start (a : string) : has_sep a = false -> starts_with_sep a = false.
Proof. destruct a; simpl; [reflexivity|]. intros E. now apply orb_false_elim in E. Qed.

Lemma no_sep_no_end (a : string) : has_sep a = false -> ends_with_sep a = false.
Proof.
  induction a as [|x a IH]; simpl; [reflexivity|].
  intros E. apply orb_false_elim in E. destruct E as [Ex Ea].
  destruct a; [exact Ex | now apply IH].
Qed.

Lemma has_sep_uint (d : Decimal.uint) : has_sep (NilEmpty.string_of_uint d) = false.
Proof. induction d; simpl; auto. Qed.

Lemma has_sep_str_int (z : Z) : has_sep (str_int z) = false.
Proof.
  unfold str_int, NilZero.string_of_int, NilZero.string_of_uint.
  destruct (Z.to_int z) as [d|d]; destruct d; simpl; auto using has_sep_uint.
Qed.

Lemma has_sep_basename (p : string) : has_sep (os_path_basename p) = false.
Proof.
  induction p as [|c r IH]; simpl; [reflexivity|].
  destruct (has_sep r) eqn:E; [exact IH|].
  destruct (Ascii.eqb c slash) eqn:Ec; [exact E|].
  simpl. now rewrite Ec, E.
Qed.

Example os_path_join_relative : os_path_join "TMP/latest" "eval-current" = "TMP/latest/eval-current".
Proof. reflexivity. Qed.

Example os_path_join_trailing_sep : os_path_join "TMP/" "x.csv" = "TMP/x.csv".
Proof. reflexivity. Qed.

Example os_path_join_empty : os_path_join "" "x.csv" = "x.csv".
Proof. reflexivity. Qed.

Example os_path_join_absolute : os_path_join "TMP" "/etc/x" = "/etc/x".
Proof. reflexivity. Qed.

Example os_path_basename_corpus : os_path_basename "corpus/rst-dt" = "rst-dt".
Proof. reflexivity. Qed.

Example os_path_basename_trailing : os_path_basename "corpus/" = "".
Proof. reflexivity. Qed.

Example str_int_negative : str_int (-12) = "-12".
Proof. reflexivity. Qed.

(** Joining a relative name to a directory path inserts one separator. *)
Lemma os_path_join_plain (a b : string) :
  dir_like a = true -> starts_with_sep b = false ->
  os_path_join a b = a +:+ "/" +:+ b.
Proof.
  unfold dir_like, os_path_join. intros Ha Hb. rewrite Hb.
  apply andb_prop in Ha. destruct Ha as [H1 H2].
  apply negb_true_iff in H1, H2. now rewrite H1, H2.
Qed.

Lemma dir_like_app (a b : string) :
  str_empty b = false -> ends_with_sep b = false -> dir_like (a +:+ b) = true.
Proof.
  intros Hb He. unfold dir_like.
  rewrite ends_with_sep_app, Hb, He.
  destruct a; simpl; [now rewrite Hb | reflexivity].
Qed.

Lemma dir_like_join (a b : string) :
  str_empty b = false -> has_sep b = false -> dir_like (os_path_join a b) = true.
Proof.
  intros Hb Hs. unfold os_path_join.
  rewrite (no_sep_no_start _ Hs).
  destruct (str_empty a || ends_with_sep a).
  - apply dir_like_app; auto using no_sep_no_end.
  - apply dir_like_app.
    + reflexivity.
    + simpl. destruct b; [discriminate|]. now apply (no_sep_no_end (String a0 b)).
Qed.

Lemma join_length_le (a b : string) :
  String.length (os_path_join a b) <= String.length a + 1 + String.length b.
Proof.
  unfold os_path_join.
  destruct (starts_with_sep b); [lia|].
  destruct (str_empty a || ends_with_sep a);
    rewrite ?append_length; simpl; lia.
Qed.

Lemma join_length_ge (a b : string) :
  starts_with_sep b = false ->
  String.length a + String.length b <= String.length (os_path_join a b).
Proof.
  unfold os_path_join. intros ->.
  destruct (str_empty a || ends_with_sep a);
    rewrite ?append_length; simpl; lia.
Qed.

(** ** The naming of files *)

Lemma dataset_name_relative (d rest : string) :
  starts_with_sep d = false ->
  starts_with_sep (d +:+ "." +:+ rest) = false.
Proof. intros Hd. rewrite starts_with_sep_app. destruct d; [reflexivity | exact Hd]. Qed.

Lemma fold_dir_plain (lconf : LoopConfig) (fold : Z) :
  dir_like (scratch_dir lconf) = true ->
  _fold_dir_path lconf fold = scratch_dir lconf +:+ "/fold-" +:+ str_int fold.
Proof.
  intros Hs. unfold _fold_dir_path.
  now rewrite os_path_join_plain.
Qed.

Lemma fold_dir_dir_like (lconf : LoopConfig) (fold : Z) :
  dir_like (_fold_dir_path lconf fold) = true.
Proof.
  unfold _fold_dir_path. apply dir_like_join; [reflexivity|].
  rewrite has_sep_app. simpl. apply has_sep_str_int.
Qed.

(** The loop configurations of [main] name their dataset by a base name. *)
Lemma main_lconf_dataset (ed sd corpus : string) :
  starts_with_sep (dataset (main_lconf ed sd corpus)) = false.
Proof. simpl. apply no_sep_no_start, has_sep_basename. Qed.

(** C6: the model file of a loop configuration, an evaluation
    configuration, a fold and a model type is
    <scratch_dir>/fold-<fold>/<dataset>.<learner name>.<mtype>.model, for
    loop configurations as the harness has them: the scratch directory is
    a directory path (not empty, no trailing separator) and the dataset is
    a relative name, so that [os.path.join] inserts exactly one separator
    at each level. *)
Theorem eval_model_path_layout (lconf : LoopConfig) (econf : EvaluationConfig)
    (fold : Z) (mtype : string) :
  dir_like (scratch_dir lconf) = true ->
  starts_with_sep (dataset lconf) = false ->
  _eval_model_path lconf econf fold mtype =
    scratch_dir lconf +:+ "/fold-" +:+ str_int fold +:+ "/" +:+
    dataset lconf +:+ "." +:+ lc_name (learner econf) +:+ "." +:+ mtype
    +:+ ".model".
Proof.
  intros Hs Hd. unfold _eval_model_path.
  rewrite os_path_join_plain.
  - rewrite fold_dir_plain by exact Hs.
    now rewrite !append_assoc.
  - apply fold_dir_dir_like.
  - now apply dataset_name_relative.
Qed.

Lemma eval_model_path_layout_witness :
  _eval_model_path Toy.lconf0 Toy.econf0 1 "attach" =
  "TMP/latest/scratch-current/fold-1/rst-dt.maxent.attach.model".
Proof.
  exact (eval_model_path_layout Toy.lconf0 _ 1 "attach" eq_refl eq_refl).
Defined.

(** C7: for the loop configuration [main] builds for a corpus, the
    feature file is <eval_dir>/<dataset>.relations.sparse, the EDU input
    and the pairings are that path plus ".edu_input" and ".pairings", the
    fold file is <eval_dir>/folds-<dataset>.json, and the counts file of a
    configuration is counts.<econf.name>.csv in the fold directory. *)
Theorem data_file_layout (ed sd corpus : string) :
  dir_like ed = true ->
  let lconf := main_lconf ed sd corpus in
  _features_path lconf = ed +:+ "/" +:+ dataset lconf +:+ ".relations.sparse"
  /\ _edu_input_path lconf = _features_path lconf +:+ ".edu_input"
  /\ _pairings_path lconf = _features_path lconf +:+ ".pairings"
  /\ fold_file lconf = ed +:+ "/folds-" +:+ dataset lconf +:+ ".json"
  /\ forall (econf : EvaluationConfig) (fold : Z),
       _counts_file_path lconf econf fold =
       _fold_dir_path lconf fold +:+ "/counts." +:+ ec_name econf +:+ ".csv".
Proof.
  intros He lconf. repeat split.
  - unfold _features_path, _eval_data_path. simpl eval_dir.
    rewrite os_path_join_plain; [reflexivity | exact He |].
    apply dataset_name_relative, main_lconf_dataset.
  - unfold lconf. simpl fold_file.
    rewrite os_path_join_plain; [reflexivity | exact He | reflexivity].
  - intros econf fold. unfold _counts_file_path.
    rewrite os_path_join_plain; [reflexivity | apply fold_dir_dir_like | reflexivity].
Qed.

Lemma data_file_layout_witness :
  _features_path Toy.lconf0 = "TMP/latest/eval-current/rst-dt.relations.sparse"
  /\ fold_file Toy.lconf0 = "TMP/latest/eval-current/folds-rst-dt.json".
Proof.
  destruct (data_file_layout "TMP/latest/eval-current"
              "TMP/latest/scratch-current" "corpus/rst-dt" eq_refl)
    as (Hf & _ & _ & Hj & _).
  split; [exact Hf | exact Hj].
Defined.

(** ** Loops and traces *)

Section Traces.
Context `{Env}.

Lemma for_each_chain {A} (body : A -> M unit) (xs : list A) :
  forall w w' evs,
    for_each xs body w = (Ret tt, w', evs) ->
    exists bs, chain body xs w bs w' /\ evs = concat bs.
Proof.
  induction xs as [|x xs IH]; intros w w' evs Hrun; simpl in Hrun.
  - inversion Hrun; subst. exists []. split; [constructor | reflexivity].
  - unfold bind in Hrun.
    destruct (body x w) as [[r w1] e1] eqn:Hb.
    destruct r as [[]|msg|exn]; try discriminate.
    destruct (for_each xs body w1) as [[r2 w2] e2] eqn:Hrest.
    inversion Hrun; subst.
    destruct (IH _ _ _ Hrest) as (bs & Hc & ->).
    exists (e1 :: bs). split; [econstructor; eassumption | reflexivity].
Qed.

Lemma chain_for_each {A} (body : A -> M unit) (xs : list A) :
  forall w w' bs,
    chain body xs w bs w' -> for_each xs body w = (Ret tt, w', concat bs).
Proof.
  intros w w' bs Hc. induction Hc as [w | x xs w w1 w2 b bs Hb Hc IH].
  - reflexivity.
  - simpl. unfold bind. now rewrite Hb, IH.
Qed.

(** A loop whose body always returns runs all its bodies. *)
Lemma chain_total {A} (body : A -> M unit) (xs : list A) :
  (forall x w, outcome_of (body x w) = Ret tt) ->
  forall w, exists bs w', chain body xs w bs w'.
Proof.
  intros Hret. induction xs as [|x xs IH]; intros w.
  - exists [], w. constructor.
  - specialize (Hret x w). unfold outcome_of in Hret.
    destruct (body x w) as [[r w1] e1] eqn:Hb. simpl in Hret. subst r.
    destruct (IH w1) as (bs & w' & Hc).
    exists (e1 :: bs), w'. econstructor; eassumption.
Qed.

Lemma for_each_returns {A} (body : A -> M unit) (xs : list A) :
  (forall x w, outcome_of (body x w) = Ret tt) ->
  forall w, outcome_of (for_each xs body w) = Ret tt.
Proof.
  intros Hret w. destruct (chain_total body xs Hret w) as (bs & w' & Hc).
  now rewrite (chain_for_each _ _ _ _ _ Hc).
Qed.

Lemma chain_length {A} (body : A -> M unit) xs w bs w' :
  chain body xs w bs w' -> length bs = length xs.
Proof. induction 1; simpl; congruence. Qed.

(** Each block of a chain is the run of its body from its start world. *)
Lemma chain_blocks {A} (body : A -> M unit) xs w bs w' :
  chain body xs w bs w' ->
  bs = map (fun xw => events_of (body (fst xw) (snd xw)))
           (combine xs (start_worlds body xs w)).
Proof.
  induction 1 as [w | x xs w w1 w2 b bs Hb Hc IH]; [reflexivity|].
  simpl. unfold world_of, events_of at 1. rewrite Hb. simpl.
  now rewrite <- IH.
Qed.

Lemma chain_Forall2 {A} (body : A -> M unit) xs w bs w' :
  chain body xs w bs w' ->
  Forall2 (fun x b => exists wa wb, body x wa = (Ret tt, wb, b)) xs bs.
Proof.
  induction 1; constructor; eauto.
Qed.

Lemma index_rows_app (a b : list event) :
  index_rows (a ++ b) = index_rows a ++ index_rows b.
Proof.
  induction a as [|e a IH]; simpl; [reflexivity|].
  destruct e; simpl; now rewrite ?IH.
Qed.

Lemma index_rows_concat (bs : list (list event)) :
  index_rows (concat bs) = flat_map index_rows bs.
Proof.
  induction bs as [|b bs IH]; simpl; [reflexivity|].
  now rewrite index_rows_app, IH.
Qed.

Lemma index_contents_app (p : string) (a b : list event) :
  forall old,
    index_contents p (a ++ b) old = index_contents p b (index_contents p a old).
Proof.
  induction a as [|e a IH]; intros old; simpl; [reflexivity|].
  destruct e; simpl; apply IH.
Qed.

Lemma index_free_rows (evs : list event) : index_free evs -> index_rows evs = [].
Proof.
  induction 1 as [|e evs He _ IH]; [reflexivity|].
  destruct e; simpl; try exact IH; contradiction.
Qed.

Lemma index_free_contents (p : string) (evs : list event) :
  index_free evs -> forall old, index_contents p evs old = old.
Proof.
  induction 1 as [|e evs He _ IH]; intros old; [reflexivity|].
  destruct e; simpl; try apply IH; contradiction.
Qed.

End Traces.

(** ** The steps of one configuration *)

Section Steps.
Context `{Env}.

Lemma learn_args_attach (lconf : LoopConfig) (econf : EvaluationConfig) (fold : Z) :
  attachment_model (mkNamespace ToolLearn (FakeLearnArgs_argv lconf econf fold))
  = _eval_model_path lconf econf fold "attach".
Proof. reflexivity. Qed.

Lemma learn_args_relate (lconf : LoopConfig) (econf : EvaluationConfig) (fold : Z) :
  relation_model (mkNamespace ToolLearn (FakeLearnArgs_argv lconf econf fold))
  = _eval_model_path lconf econf fold "relate".
Proof. reflexivity. Qed.

Lemma decode_args_scores (lconf : LoopConfig) (econf : EvaluationConfig) (fold : Z) :
  ns_get "--scores" (mkNamespace ToolDecode (FakeDecodeArgs_argv lconf econf fold))
  = _counts_file_path lconf econf fold.
Proof. reflexivity. Qed.

Lemma maybe_learn_run (lconf : LoopConfig) (dconf : DataConfig)
    (econf : EvaluationConfig) (fold : Z) (w : world) :
  let d := _fold_dir_path lconf fold in
  let argv := FakeLearnArgs_argv lconf econf fold in
  let w1 := ensure_dir d w in
  _maybe_learn lconf dconf econf fold w =
    (Ret tt,
     (if models_built lconf econf fold w1 then w1
      else learn_main_for_harness (mkNamespace ToolLearn argv)
             (training (pack dconf) (folds dconf) fold) w1),
     mkdir_events d w ++ [CliEnter ToolLearn argv]
     ++ (if models_built lconf econf fold w1
         then [Stderr ("reusing " +:+ lc_name (learner econf)
                       +:+ " model (already built)")]
         else [Learn argv])
     ++ [CliExit ToolLearn argv]).
Proof.
  intros d argv w1.
  unfold _maybe_learn, bind, ask, when, with_ctx, FakeLearnArgs, cli_enter,
    cli_exit, bind, emit, ret, makedirs, act, print_err.
  simpl ns_argv. simpl ns_tool.
  rewrite learn_args_attach, learn_args_relate.
  unfold w1, ensure_dir, mkdir_events, models_built. fold d. fold argv.
  destruct (fp_exists d w) eqn:Hd; simpl.
  - destruct (fp_exists _ w && fp_exists _ w); reflexivity.
  - destruct (fp_exists _ (os_makedirs d w) && fp_exists _ (os_makedirs d w));
      reflexivity.
Qed.

Lemma decode_run (lconf : LoopConfig) (dconf : DataConfig)
    (econf : EvaluationConfig) (fold : Z) (w : world) :
  let d := _fold_dir_path lconf fold in
  let argv := FakeDecodeArgs_argv lconf econf fold in
  let ns := mkNamespace ToolDecode argv in
  let w1 := ensure_dir d w in
  _decode lconf dconf econf fold w =
    if fp_exists (_counts_file_path lconf econf fold) w then
      (Ret tt, w,
       [Stderr ("skipping " +:+ lc_name (learner econf) +:+ "/"
                +:+ dc_name (decoder econf) +:+ " (already done)")])
    else
      (Ret tt,
       decode_main_for_harness ns (args_to_decoder ns)
         (testing (pack dconf) (folds dconf) fold) (load_models ns w1) w1,
       mkdir_events d w
       ++ [CliEnter ToolDecode argv; LoadModels argv; Decode argv;
           CliExit ToolDecode argv]).
Proof.
  intros d argv ns w1.
  unfold _decode, bind, ask, when, with_ctx, FakeDecodeArgs, cli_enter,
    cli_exit, bind, emit, ret, makedirs, act, print_err.
  fold d. fold argv. fold ns.
  destruct (fp_exists (_counts_file_path lconf econf fold) w); [reflexivity|].
  unfold w1, ensure_dir, mkdir_events.
  destruct (fp_exists d w); reflexivity.
Qed.

End Steps.

Section Tuple.
Context `{Env}.

Lemma do_tuple_run (lconf : LoopConfig) (dconf : DataConfig)
    (econf : EvaluationConfig) (fold : Z) (w : world) :
  let learnt := _maybe_learn lconf dconf econf fold w in
  let decoded := _decode lconf dconf econf fold (world_of learnt) in
  _do_tuple lconf dconf econf fold w =
    (Ret (index_entry lconf econf fold), world_of decoded,
     events_of learnt ++ events_of decoded).
Proof.
  intros learnt decoded. unfold _do_tuple, bind. fold learnt.
  pose proof (maybe_learn_run lconf dconf econf fold w) as Hl.
  cbv zeta in Hl. fold learnt in Hl.
  destruct learnt as [[r1 w1] e1] eqn:El.
  injection Hl as -> Hw He.
  unfold decoded. unfold world_of at 2. simpl fst. simpl snd.
  pose proof (decode_run lconf dconf econf fold w1) as Hd.
  cbv zeta in Hd.
  destruct (_decode lconf dconf econf fold w1) as [[r2 w2] e2] eqn:Ed.
  assert (r2 = Ret tt) as ->.
  { destruct (fp_exists _ w1); congruence. }
  unfold ret, world_of, events_of. simpl. now rewrite Ed, app_nil_r.
Qed.

Lemma ensure_dir_exists (d : string) (w : world) :
  tools_contract -> fp_exists d (ensure_dir d w) = true.
Proof.
  intros C. unfold ensure_dir.
  destruct (fp_exists d w) eqn:E; [exact E | apply (makedirs_creates C)].
Qed.

Lemma ensure_dir_keeps (d q : string) (w : world) :
  tools_contract -> fp_exists q w = true -> fp_exists q (ensure_dir d w) = true.
Proof.
  intros C Hq. unfold ensure_dir.
  destruct (fp_exists d w); [exact Hq | now apply (makedirs_keeps C)].
Qed.

Lemma ensure_dir_present (d : string) (w : world) :
  fp_exists d w = true -> ensure_dir d w = w.
Proof. intros E. unfold ensure_dir. now rewrite E. Qed.

(** After one run of a configuration, with tools that keep their word, the
    fold directory, both models and the counts file are there. *)
Lemma do_tuple_leaves (lconf : LoopConfig) (dconf : DataConfig)
    (econf : EvaluationConfig) (fold : Z) (w : world) :
  tools_contract ->
  let w' := world_of (_do_tuple lconf dconf econf fold w) in
  fp_exists (_fold_dir_path lconf fold) w' = true
  /\ models_built lconf econf fold w' = true
  /\ fp_exists (_counts_file_path lconf econf fold) w' = true.
Proof.
  intros C. rewrite do_tuple_run. cbv zeta.
  rewrite maybe_learn_run. cbv zeta. unfold world_of. cbn [fst snd].
  set (d := _fold_dir_path lconf fold).
  set (w1 := ensure_dir d w).
  set (wl := if models_built lconf econf fold w1 then w1 else _).
  assert (Hd : fp_exists d wl = true).
  { unfold wl. destruct (models_built lconf econf fold w1).
    - now apply ensure_dir_exists.
    - apply (learn_keeps C). now apply ensure_dir_exists. }
  assert (Hm : models_built lconf econf fold wl = true).
  { unfold wl. destruct (models_built lconf econf fold w1) eqn:E; [exact E|].
    unfold models_built.
    rewrite <- learn_args_attach at 1. rewrite (learn_creates_attach C).
    rewrite <- learn_args_relate at 1. rewrite (learn_creates_relate C).
    reflexivity. }
  rewrite decode_run. cbv zeta. fold d.
  destruct (fp_exists (_counts_file_path lconf econf fold) wl) eqn:Ec.
  - cbn [fst snd]. repeat split; assumption.
  - cbn [fst snd]. rewrite (ensure_dir_present _ _ Hd).
    repeat split.
    + now apply (decode_keeps C).
    + unfold models_built in *. apply andb_prop in Hm. destruct Hm as [Ha Hr].
      now rewrite (decode_keeps C _ _ _ _ _ _ Ha), (decode_keeps C _ _ _ _ _ _ Hr).
    + rewrite <- decode_args_scores at 1. apply (decode_creates C).
Qed.

End Tuple.

(** ** The toy environment keeps the tools' contract *)

Lemma toy_mem_app (p : string) (l l' : list string) :
  Toy.mem p (l ++ l') = Toy.mem p l || Toy.mem p l'.
Proof. apply existsb_app. Qed.

Lemma toy_add_file_new (p : string) (w : Toy.fs) :
  Toy.exists_ p (Toy.add_file p w) = true.
Proof.
  unfold Toy.exists_, Toy.add_file.
  destruct (Toy.mem p (Toy.files w)) eqn:E.
  - now rewrite E.
  - simpl. rewrite toy_mem_app. simpl. rewrite String.eqb_refl.
    now rewrite !orb_true_r.
Qed.

Lemma toy_add_file_keeps (p q : string) (w : Toy.fs) :
  Toy.exists_ q w = true -> Toy.exists_ q (Toy.add_file p w) = true.
Proof.
  unfold Toy.exists_, Toy.add_file. intros Hq.
  destruct (Toy.mem p (Toy.files w)); [exact Hq|].
  simpl. rewrite toy_mem_app.
  apply orb_prop in Hq. destruct Hq as [-> | ->]; simpl; now rewrite ?orb_true_r.
Qed.

Lemma toy_add_dir_new (p : string) (w : Toy.fs) :
  Toy.exists_ p (Toy.add_dir p w) = true.
Proof.
  unfold Toy.exists_, Toy.add_dir.
  destruct (Toy.mem p (Toy.dirs w)) eqn:E.
  - rewrite E. apply orb_true_r.
  - simpl. rewrite toy_mem_app. simpl. rewrite String.eqb_refl.
    now rewrite !orb_true_r.
Qed.

Lemma toy_add_dir_keeps (p q : string) (w : Toy.fs) :
  Toy.exists_ q w = true -> Toy.exists_ q (Toy.add_dir p w) = true.
Proof.
  unfold Toy.exists_, Toy.add_dir. intros Hq.
  destruct (Toy.mem p (Toy.dirs w)); [exact Hq|].
  simpl. rewrite toy_mem_app.
  apply orb_prop in Hq. destruct Hq as [-> | ->]; simpl; now rewrite ?orb_true_r.
Qed.

Lemma toy_contract : @tools_contract Toy.env.
Proof.
  constructor; simpl; intros.
  - apply toy_add_dir_new.
  - now apply toy_add_dir_keeps.
  - apply toy_add_file_keeps, toy_add_file_new.
  - apply toy_add_file_new.
  - now apply toy_add_file_keeps, toy_add_file_keeps.
  - apply toy_add_file_keeps, toy_add_file_new.
  - now apply toy_add_file_keeps, toy_add_file_keeps.
Qed.

(** ** Skipping finished work *)

Section Skipping.
Context `{Env}.

(** C1: when the counts file of a configuration in a fold is there,
    [_decode] returns having only said so on stderr: no model is loaded,
    the decoder is not invoked, the world is as it was.  Hence, with tools
    that leave the files they are asked for and remove none, a second run
    of [_do_tuple] right after a first returns the same row, leaves the
    world as it found it, and trains, loads and decodes nothing. *)
Theorem decode_skips_finished_work (lconf : LoopConfig) (dconf : DataConfig)
    (econf : EvaluationConfig) (fold : Z) :
  (forall w,
     fp_exists (_counts_file_path lconf econf fold) w = true ->
     _decode lconf dconf econf fold w =
       (Ret tt, w,
        [Stderr ("skipping " +:+ lc_name (learner econf) +:+ "/"
                 +:+ dc_name (decoder econf) +:+ " (already done)")]))
  /\ (tools_contract ->
      forall w,
        let first := _do_tuple lconf dconf econf fold w in
        let second := _do_tuple lconf dconf econf fold (world_of first) in
        outcome_of second = outcome_of first
        /\ world_of second = world_of first
        /\ Forall (fun e => expensive e = false) (events_of second)).
Proof.
  split.
  - intros w Hc. rewrite decode_run. cbv zeta. now rewrite Hc.
  - intros C w first second.
    pose proof (do_tuple_leaves lconf dconf econf fold w C) as L.
    cbv zeta in L. fold first in L. destruct L as (Hd & Hm & Hc).
    subst second. set (w1 := world_of first) in *. clearbody w1.
    unfold first. rewrite !do_tuple_run. cbv zeta.
    rewrite maybe_learn_run. cbv zeta.
    rewrite (ensure_dir_present _ _ Hd), Hm.
    unfold world_of, outcome_of, events_of. cbn [fst snd].
    rewrite decode_run. cbv zeta. rewrite Hc. cbn [fst snd].
    repeat split.
    unfold mkdir_events. rewrite Hd. simpl.
    repeat constructor.
Qed.

(** C2: [_maybe_learn] invokes the learner exactly when the attachment
    model and the relation model of the (dataset, learner, fold) are not
    both there when it tests them, that is once the fold directory is
    ensured (the world itself when that directory is already there); with
    both there it returns without training, and one missing model of the
    pair is enough for training to run. *)
Theorem maybe_learn_iff_model_missing (lconf : LoopConfig) (dconf : DataConfig)
    (econf : EvaluationConfig) (fold : Z) (w : world) :
  let a := _eval_model_path lconf econf fold "attach" in
  let r := _eval_model_path lconf econf fold "relate" in
  let w1 := ensure_dir (_fold_dir_path lconf fold) w in
  let run := _maybe_learn lconf dconf econf fold w in
  outcome_of run = Ret tt
  /\ ((exists argv, In (Learn argv) (events_of run)) <->
      ~ (fp_exists a w1 = true /\ fp_exists r w1 = true))
  /\ (fp_exists a w1 = true /\ fp_exists r w1 = true ->
      world_of run = w1 /\ Forall (fun e => expensive e = false) (events_of run))
  /\ (fp_exists a w1 = false \/ fp_exists r w1 = false ->
      world_of run =
        learn_main_for_harness
          (mkNamespace ToolLearn (FakeLearnArgs_argv lconf econf fold))
          (training (pack dconf) (folds dconf) fold) w1)
  /\ (fp_exists (_fold_dir_path lconf fold) w = true -> w1 = w).
Proof.
  intros a r w1 run. unfold run. rewrite maybe_learn_run. cbv zeta.
  fold w1. unfold models_built. fold a. fold r.
  unfold outcome_of, world_of, events_of. cbn [fst snd].
  assert (Hmk : forall argv, ~ In (Learn argv)
                  (mkdir_events (_fold_dir_path lconf fold) w)).
  { intros argv. unfold mkdir_events.
    destruct (fp_exists _ w); simpl; [tauto|]. intros [E|[]]. discriminate. }
  assert (Hmk' : Forall (fun e => expensive e = false)
                   (mkdir_events (_fold_dir_path lconf fold) w)).
  { unfold mkdir_events. destruct (fp_exists _ w); repeat constructor. }
  split; [reflexivity|].
  destruct (fp_exists a w1) eqn:Ea, (fp_exists r w1) eqn:Er; simpl;
    (split; [split|split; [|split]]).
  all: try (intros [? ?]; discriminate).
  all: try (intros [?|?]; discriminate).
  all: try (intros _; intros [? ?]; discriminate).
  all: try (intros _; eexists; apply in_or_app; right; simpl; eauto; fail).
  all: try (intros E; apply ensure_dir_present; exact E).
  - intros [argv Hin] _. apply in_app_or in Hin. destruct Hin as [Hin|Hin].
    + now apply Hmk in Hin.
    + simpl in Hin. intuition discriminate.
  - intros Hn. exfalso. apply Hn. split; reflexivity.
  - intros _. split; [reflexivity|].
    apply Forall_app. split; [exact Hmk'|]. repeat constructor.
Qed.

End Skipping.

Lemma decode_skips_finished_work_witness :
  let w1 := world_of (_do_tuple (H := Toy.env) Toy.lconf0 Toy.dconf0
                        Toy.econf0 1 Toy.gathered) in
  _decode (H := Toy.env) Toy.lconf0 Toy.dconf0 Toy.econf0 1 w1
    = (Ret tt, w1, [Stderr "skipping maxent/mst (already done)"])
  /\ Forall (fun e => expensive e = false)
       (events_of (_do_tuple (H := Toy.env) Toy.lconf0 Toy.dconf0
                     Toy.econf0 1 w1)).
Proof.
  intros w1.
  destruct (decode_skips_finished_work (H := Toy.env) Toy.lconf0
              Toy.dconf0 Toy.econf0 1) as [A B].
  split.
  - apply A. vm_compute. reflexivity.
  - apply (B toy_contract Toy.gathered).
Defined.

Lemma maybe_learn_iff_model_missing_witness :
  exists argv,
    In (Learn argv)
       (events_of (_maybe_learn (H := Toy.env) Toy.lconf0 Toy.dconf0
                     Toy.econf0 1 Toy.gathered)).
Proof.
  destruct (maybe_learn_iff_model_missing (H := Toy.env) Toy.lconf0
              Toy.dconf0 Toy.econf0 1 Toy.gathered)
    as (_ & [_ B] & _).
  apply B. vm_compute. intros [E _]. discriminate E.
Defined.

(** ** One fold *)

Section Fold.
Context `{Env}.

Lemma mk_report_run (parent_dir : string) (lconf : LoopConfig)
    (idx_file : string) (w : world) :
  let score_prefix := _score_file_path_prefix parent_dir lconf in
  _mk_report parent_dir lconf idx_file w =
    (Ret tt,
     call (report_cmd idx_file (score_prefix +:+ ".json")) (score_prefix +:+ ".txt")
          (open_w (score_prefix +:+ ".txt") w),
     report_events parent_dir lconf idx_file).
Proof. reflexivity. Qed.

Lemma do_tuple_index_free (lconf : LoopConfig) (dconf : DataConfig)
    (econf : EvaluationConfig) (fold : Z) (w : world) :
  index_free (events_of (_do_tuple lconf dconf econf fold w)).
Proof.
  rewrite do_tuple_run. cbv zeta. unfold events_of at 1. cbn [snd].
  rewrite maybe_learn_run. cbv zeta. unfold events_of at 1, world_of. cbn [fst snd].
  rewrite decode_run. cbv zeta.
  unfold index_free, mkdir_events.
  repeat match goal with
         | |- context [if ?c then _ else _] => destruct c
         end;
    unfold events_of; cbn [snd app]; repeat constructor.
Qed.

Lemma config_step_run (lconf : LoopConfig) (dconf : DataConfig) (fold : Z)
    (idx fold_idx : string) (econf : EvaluationConfig) (w : world) :
  let tuple := _do_tuple lconf dconf econf fold w in
  let row := index_entry lconf econf fold in
  config_step lconf dconf fold idx fold_idx econf w =
    (Ret tt,
     index_writerow fold_idx row (index_writerow idx row (world_of tuple)),
     [Stderr (_eval_banner econf lconf fold)] ++ events_of tuple
     ++ [IndexRow idx row; IndexRow fold_idx row]).
Proof.
  intros tuple row.
  unfold config_step, bind, print_err, emit, writerow, act.
  rewrite do_tuple_run. cbv zeta.
  unfold tuple. rewrite do_tuple_run. cbv zeta.
  unfold world_of, events_of. cbn [fst snd]. reflexivity.
Qed.

Lemma config_step_returns (lconf : LoopConfig) (dconf : DataConfig) (fold : Z)
    (idx fold_idx : string) (econf : EvaluationConfig) (w : world) :
  outcome_of (config_step lconf dconf fold idx fold_idx econf w) = Ret tt.
Proof. now rewrite config_step_run. Qed.

Lemma config_chain_blocks (lconf : LoopConfig) (dconf : DataConfig) (fold : Z)
    (idx fold_idx : string) (es : list EvaluationConfig) w bs w' :
  chain (config_step lconf dconf fold idx fold_idx) es w bs w' ->
  Forall2 (config_block lconf dconf fold idx fold_idx) es bs.
Proof.
  induction 1 as [w | e es w w1 w2 b bs Hb Hc IH]; constructor; [|exact IH].
  rewrite config_step_run in Hb. cbv zeta in Hb.
  injection Hb as _ <-. now exists w.
Qed.

Lemma config_block_rows (lconf : LoopConfig) (dconf : DataConfig) (fold : Z)
    (idx fold_idx : string) (e : EvaluationConfig) (b : list event) :
  config_block lconf dconf fold idx fold_idx e b ->
  index_rows b = [(idx, index_entry lconf e fold);
                  (fold_idx, index_entry lconf e fold)].
Proof.
  intros [wa ->]. rewrite !index_rows_app.
  now rewrite (index_free_rows _ (do_tuple_index_free _ _ _ _ _)).
Qed.

Lemma config_blocks_rows (lconf : LoopConfig) (dconf : DataConfig) (fold : Z)
    (idx fold_idx : string) (es : list EvaluationConfig) (bs : list (list event)) :
  Forall2 (config_block lconf dconf fold idx fold_idx) es bs ->
  index_rows (concat bs) =
  flat_map (fun e => [(idx, index_entry lconf e fold);
                      (fold_idx, index_entry lconf e fold)]) es.
Proof.
  induction 1 as [|e b es bs Hb _ IH]; [reflexivity|].
  simpl concat. rewrite index_rows_app, IH, (config_block_rows _ _ _ _ _ _ _ Hb).
  reflexivity.
Qed.

(** The whole of [_do_fold]. *)
Lemma do_fold_run (lconf : LoopConfig) (dconf : DataConfig) (fold : Z)
    (idx : string) (w : world) :
  let d := _fold_dir_path lconf fold in
  let fidx := _index_file_path d lconf in
  if fp_exists (fold_score_file lconf fold) w then
    _do_fold lconf dconf fold idx w =
      (Ret tt, w,
       [Stderr ("Skipping fold " +:+ str_int fold +:+ " (already run)")])
  else
    exists bs w2,
      chain (config_step lconf dconf fold idx fidx) EVALUATIONS
            (index_enter fidx (ensure_dir d w)) bs w2
      /\ _do_fold lconf dconf fold idx w =
           (Ret tt,
            world_of (_mk_report d lconf fidx (index_exit fidx w2)),
            [Stderr (_fold_banner lconf fold)] ++ mkdir_events d w
            ++ [IndexOpen fidx] ++ concat bs ++ [IndexClose fidx]
            ++ report_events d lconf fidx).
Proof.
  intros d fidx. unfold fold_score_file. fold d.
  destruct (fp_exists (_score_file_path_prefix d lconf +:+ ".txt") w) eqn:Hs.
  - unfold _do_fold, bind, ask. fold d. now rewrite Hs.
  - destruct (chain_total (config_step lconf dconf fold idx fidx) EVALUATIONS
                (config_step_returns lconf dconf fold idx fidx)
                (index_enter fidx (ensure_dir d w))) as (bs & w2 & Hc).
    exists bs, w2. split; [exact Hc|].
    pose proof (chain_for_each _ _ _ _ _ Hc) as Hloop.
    unfold _do_fold, bind, ask. fold d. rewrite Hs.
    unfold print_err, emit, when, with_ctx, CountIndex, CountIndex_exit,
      bind, act, ret, makedirs.
    fold fidx. unfold config_step, bind in Hloop.
    unfold ensure_dir in Hloop. unfold mkdir_events.
    destruct (fp_exists d w); cbn [negb];
      unfold print_err, emit, writerow, act in *; rewrite Hloop;
      rewrite mk_report_run; unfold world_of; cbn [fst snd];
      rewrite ?app_nil_r; cbn [app]; rewrite <- ?app_assoc; reflexivity.
Qed.

End Fold.

(** ** The module against the steps written out *)

Section Expected.
Context `{Env}.

Lemma maybe_learn_expected (lconf : LoopConfig) (dconf : DataConfig)
    (econf : EvaluationConfig) (fold : Z) (w : world) :
  _maybe_learn lconf dconf econf fold w =
    (Ret tt, fst (learn_expected lconf dconf econf fold w),
     snd (learn_expected lconf dconf econf fold w)).
Proof.
  rewrite maybe_learn_run. cbv zeta.
  unfold learn_expected, ensure_dir, mkdir_events, models_built.
  destruct (fp_exists (_fold_dir_path lconf fold) w);
    match goal with
    | |- context [if ?c then _ else _] => destruct c
    end; reflexivity.
Qed.

Lemma decode_expected_run (lconf : LoopConfig) (dconf : DataConfig)
    (econf : EvaluationConfig) (fold : Z) (w : world) :
  _decode lconf dconf econf fold w =
    (Ret tt, fst (decode_expected lconf dconf econf fold w),
     snd (decode_expected lconf dconf econf fold w)).
Proof.
  rewrite decode_run. cbv zeta.
  unfold decode_expected, ensure_dir, mkdir_events.
  destruct (fp_exists (_counts_file_path lconf econf fold) w); [reflexivity|].
  destruct (fp_exists (_fold_dir_path lconf fold) w); reflexivity.
Qed.

Lemma config_step_expected (lconf : LoopConfig) (dconf : DataConfig) (fold : Z)
    (idx fold_idx : string) (econf : EvaluationConfig) (w : world) :
  config_step lconf dconf fold idx fold_idx econf w =
    (Ret tt, fst (config_expected lconf dconf fold idx fold_idx econf w),
     snd (config_expected lconf dconf fold idx fold_idx econf w)).
Proof.
  rewrite config_step_run. cbv zeta. rewrite do_tuple_run. cbv zeta.
  rewrite maybe_learn_expected. unfold world_of at 2. cbn [fst snd].
  rewrite decode_expected_run.
  unfold config_expected, world_of, events_of, index_entry. cbn [fst snd].
  now rewrite <- !app_assoc.
Qed.

Lemma config_chain_expected (lconf : LoopConfig) (dconf : DataConfig)
    (fold : Z) (idx fold_idx : string) (es : list EvaluationConfig) w bs w' :
  chain (config_step lconf dconf fold idx fold_idx) es w bs w' ->
  configs_expected lconf dconf fold idx fold_idx es w = (w', bs).
Proof.
  induction 1 as [w | e es w w1 w2 b bs Hb Hc IH]; [reflexivity|].
  rewrite config_step_expected in Hb.
  pose proof (f_equal world_of Hb) as Hw.
  pose proof (f_equal events_of Hb) as He.
  unfold world_of, events_of in Hw, He. cbn [fst snd] in Hw, He.
  subst w1 b. cbn [configs_expected]. cbv zeta. now rewrite IH.
Qed.

Lemma do_fold_expected (lconf : LoopConfig) (dconf : DataConfig) (idx : string)
    (f : Z) (w : world) :
  _do_fold lconf dconf f idx w =
    (Ret tt, fst (fold_expected lconf dconf idx f w),
     snd (fold_expected lconf dconf idx f w)).
Proof.
  pose proof (do_fold_run lconf dconf f idx w) as R. cbv zeta in R.
  unfold fold_expected.
  change (os_path_join (_fold_dir_path lconf f) ("scores-" +:+ dataset lconf)
          +:+ ".txt") with (fold_score_file lconf f).
  destruct (fp_exists (fold_score_file lconf f) w); [exact R|].
  destruct R as (bs & w2 & Hc & ->).
  apply config_chain_expected in Hc.
  unfold ensure_dir in Hc. unfold _index_file_path in *.
  cbv zeta. rewrite Hc. cbn [fst snd].
  rewrite mk_report_run. unfold world_of, mkdir_events. cbn [fst snd].
  reflexivity.
Qed.

Lemma fold_chain_expected (lconf : LoopConfig) (dconf : DataConfig)
    (idx : string) (fs : list Z) w bs w' :
  chain (fun f => _do_fold lconf dconf f idx) fs w bs w' ->
  folds_expected lconf dconf idx fs w = (w', bs).
Proof.
  induction 1 as [w | f fs w w1 w2 b bs Hb Hc IH]; [reflexivity|].
  rewrite do_fold_expected in Hb.
  pose proof (f_equal world_of Hb) as Hw.
  pose proof (f_equal events_of Hb) as He.
  unfold world_of, events_of in Hw, He. cbn [fst snd] in Hw, He.
  subst w1 b. cbn [folds_expected]. cbv zeta. now rewrite IH.
Qed.

Lemma configs_expected_length (lconf : LoopConfig) (dconf : DataConfig)
    (fold : Z) (idx fold_idx : string) (es : list EvaluationConfig) :
  forall w,
    length (snd (configs_expected lconf dconf fold idx fold_idx es w))
    = length es.
Proof.
  induction es as [|e es IH]; intros w; [reflexivity|].
  cbn [configs_expected]. cbv zeta. cbn [snd length]. now rewrite IH.
Qed.

Lemma folds_expected_length (lconf : LoopConfig) (dconf : DataConfig)
    (idx : string) (fs : list Z) :
  forall w, length (snd (folds_expected lconf dconf idx fs w)) = length fs.
Proof.
  induction fs as [|f fs IH]; intros w; [reflexivity|].
  cbn [folds_expected]. cbv zeta. cbn [snd length]. now rewrite IH.
Qed.

(** Every configuration of the list has its block. *)
Lemma configs_expected_covers (lconf : LoopConfig) (dconf : DataConfig)
    (fold : Z) (idx fold_idx : string) (es : list EvaluationConfig)
    (e : EvaluationConfig) :
  In e es ->
  forall w, exists we,
    In (snd (config_expected lconf dconf fold idx fold_idx e we))
       (snd (configs_expected lconf dconf fold idx fold_idx es w)).
Proof.
  induction es as [|e0 es IH]; intros Hin w; [destruct Hin|].
  cbn [configs_expected]. cbv zeta. cbn [snd].
  destruct Hin as [-> | Hin].
  - exists w. now left.
  - destruct (IH Hin (fst (config_expected lconf dconf fold idx fold_idx e0 w)))
      as [we Hwe].
    exists we. now right.
Qed.

(** What the block of a configuration always holds: the learn command
    line entered, the learner invoked or the models reused, the decoder
    invoked or the configuration skipped. *)
Lemma config_expected_steps (lconf : LoopConfig) (dconf : DataConfig)
    (fold : Z) (idx fold_idx : string) (e : EvaluationConfig) (w : world) :
  let b := snd (config_expected lconf dconf fold idx fold_idx e w) in
  In (CliEnter ToolLearn (FakeLearnArgs_argv lconf e fold)) b
  /\ (In (Learn (FakeLearnArgs_argv lconf e fold)) b
      \/ In (Stderr ("reusing " +:+ lc_name (learner e)
                     +:+ " model (already built)")) b)
  /\ (In (Decode (FakeDecodeArgs_argv lconf e fold)) b
      \/ In (Stderr ("skipping " +:+ lc_name (learner e) +:+ "/"
                     +:+ dc_name (decoder e) +:+ " (already done)")) b).
Proof.
  cbv zeta. unfold config_expected. cbv zeta. cbn [snd].
  set (l := learn_expected lconf dconf e fold w).
  set (d := decode_expected lconf dconf e fold (fst l)).
  assert (Hl : In (CliEnter ToolLearn (FakeLearnArgs_argv lconf e fold)) (snd l)
               /\ (In (Learn (FakeLearnArgs_argv lconf e fold)) (snd l)
                   \/ In (Stderr ("reusing " +:+ lc_name (learner e)
                                  +:+ " model (already built)")) (snd l))).
  { unfold l, learn_expected. cbv zeta.
    destruct (fp_exists (_fold_dir_path lconf fold) w);
      match goal with
      | |- context [if ?c then _ else _] => destruct c
      end; cbn [snd app In]; auto 10. }
  assert (Hd : In (Decode (FakeDecodeArgs_argv lconf e fold)) (snd d)
               \/ In (Stderr ("skipping " +:+ lc_name (learner e) +:+ "/"
                              +:+ dc_name (decoder e) +:+ " (already done)"))
                     (snd d)).
  { unfold d, decode_expected. cbv zeta.
    destruct (fp_exists (_counts_file_path lconf e fold) (fst l));
      [cbn [snd In]; auto|].
    destruct (fp_exists (_fold_dir_path lconf fold) (fst l));
      cbn [snd app In]; auto 10. }
  destruct Hl as [Hl1 Hl2].
  repeat split.
  - apply in_or_app. right. apply in_or_app. now left.
  - destruct Hl2 as [Hl2 | Hl2]; [left | right];
      apply in_or_app; right; apply in_or_app; now left.
  - destruct Hd as [Hd | Hd]; [left | right];
      apply in_or_app; right; apply in_or_app; right;
      apply in_or_app; now left.
Qed.

End Expected.

Lemma index_paths_differ (lconf : LoopConfig) (fold : Z) :
  corpus_index lconf <> fold_index lconf fold.
Proof.
  unfold corpus_index, fold_index, _index_file_path, _fold_dir_path.
  set (n := "count-index-" +:+ dataset lconf +:+ ".csv").
  set (f := "fold-" +:+ str_int fold).
  intros E. apply (f_equal String.length) in E.
  pose proof (join_length_le (scratch_dir lconf) n) as H1.
  pose proof (join_length_ge (os_path_join (scratch_dir lconf) f) n eq_refl) as H2.
  pose proof (join_length_ge (scratch_dir lconf) f eq_refl) as H3.
  assert (5 <= String.length f) by (unfold f; simpl; lia).
  lia.
Qed.

Lemma fold_score_file_plain (lconf : LoopConfig) (fold : Z) :
  dir_like (scratch_dir lconf) = true ->
  fold_score_file lconf fold =
    scratch_dir lconf +:+ "/fold-" +:+ str_int fold +:+ "/scores-"
    +:+ dataset lconf +:+ ".txt".
Proof.
  intros Hs. unfold fold_score_file, _score_file_path_prefix.
  rewrite os_path_join_plain; [| apply fold_dir_dir_like | reflexivity].
  rewrite fold_dir_plain by exact Hs.
  now rewrite !append_assoc.
Qed.

Section FoldClaims.
Context `{Env}.

(** C3: with the file <scratch_dir>/fold-<fold>/scores-<dataset>.txt
    there, [_do_fold] only says on stderr that it skips the fold: it runs
    no configuration, writes no index row and makes no report.  Without
    it, [_do_fold] announces the fold, ensures its directory, opens the
    fold's count index, and takes every configuration of [EVALUATIONS] in
    turn: the learn command line is entered and the learner invoked unless
    both models are there, the decoder is invoked unless the counts file
    is there, and the row goes to both indexes.  Then it closes the index
    and makes the report of the fold: `attelo report` on the fold's index,
    its output in the scores file. *)
Theorem do_fold_skips_or_runs_all (lconf : LoopConfig) (dconf : DataConfig)
    (fold : Z) (idx : string) (w : world) :
  let d := _fold_dir_path lconf fold in
  let fidx := fold_index lconf fold in
  let score := fold_score_file lconf fold in
  let json := os_path_join d ("scores-" +:+ dataset lconf) +:+ ".json" in
  (dir_like (scratch_dir lconf) = true ->
   score =
     scratch_dir lconf +:+ "/fold-" +:+ str_int fold +:+ "/scores-"
     +:+ dataset lconf +:+ ".txt")
  /\ (fp_exists score w = true ->
      _do_fold lconf dconf fold idx w =
        (Ret tt, w,
         [Stderr ("Skipping fold " +:+ str_int fold +:+ " (already run)")]))
  /\ (fp_exists score w = false ->
      let w1 := if fp_exists d w then w else os_makedirs d w in
      let run := configs_expected lconf dconf fold idx fidx EVALUATIONS
                   (index_enter fidx w1) in
      let evs := events_of (_do_fold lconf dconf fold idx w) in
      _do_fold lconf dconf fold idx w =
        (Ret tt,
         call ["attelo"; "report"; fidx; "--json"; json] score
              (open_w score (index_exit fidx (fst run))),
         [Stderr (_fold_banner lconf fold)]
         ++ (if fp_exists d w then [] else [Makedirs d])
         ++ [IndexOpen fidx] ++ concat (snd run)
         ++ [IndexClose fidx;
             OpenW score;
             Call ["attelo"; "report"; fidx; "--json"; json] score;
             Stderr ("Scores summarised in " +:+ score)])
      /\ length (snd run) = length EVALUATIONS
      /\ forall e,
           In e EVALUATIONS ->
           In (CliEnter ToolLearn (FakeLearnArgs_argv lconf e fold)) evs
           /\ (In (Learn (FakeLearnArgs_argv lconf e fold)) evs
               \/ In (Stderr ("reusing " +:+ lc_name (learner e)
                              +:+ " model (already built)")) evs)
           /\ (In (Decode (FakeDecodeArgs_argv lconf e fold)) evs
               \/ In (Stderr ("skipping " +:+ lc_name (learner e) +:+ "/"
                              +:+ dc_name (decoder e) +:+ " (already done)"))
                     evs)).
Proof.
  intros d fidx score json. split; [apply fold_score_file_plain|].
  pose proof (do_fold_expected lconf dconf idx fold w) as R.
  unfold fold_expected in R.
  change (os_path_join (_fold_dir_path lconf fold) ("scores-" +:+ dataset lconf)
          +:+ ".txt") with score in R.
  split; intros Hs; rewrite Hs in R; [exact R|].
  intros w1 run evs.
  assert (Hrun : _do_fold lconf dconf fold idx w =
            (Ret tt,
             call ["attelo"; "report"; fidx; "--json"; json] score
                  (open_w score (index_exit fidx (fst run))),
             [Stderr (_fold_banner lconf fold)]
             ++ (if fp_exists d w then [] else [Makedirs d])
             ++ [IndexOpen fidx] ++ concat (snd run)
             ++ [IndexClose fidx;
                 OpenW score;
                 Call ["attelo"; "report"; fidx; "--json"; json] score;
                 Stderr ("Scores summarised in " +:+ score)])).
  { exact R. }
  split; [exact Hrun|].
  split; [apply configs_expected_length|].
  intros e Hin.
  destruct (configs_expected_covers lconf dconf fold idx fidx EVALUATIONS e Hin
              (index_enter fidx w1)) as [we Hwe].
  fold run in Hwe.
  assert (Hsub : forall ev,
            In ev (snd (config_expected lconf dconf fold idx fidx e we)) ->
            In ev evs).
  { intros ev Hev. unfold evs. rewrite Hrun. unfold events_of. cbn [snd].
    apply in_or_app. right. apply in_or_app. right.
    apply in_or_app. right. apply in_or_app. left.
    apply in_concat. eauto. }
  destruct (config_expected_steps lconf dconf fold idx fidx e we)
    as (H1 & H2 & H3).
  repeat split.
  - now apply Hsub.
  - destruct H2 as [H2 | H2]; [left | right]; now apply Hsub.
  - destruct H3 as [H3 | H3]; [left | right]; now apply Hsub.
Qed.

(** C8: a fold that is not skipped writes, for each configuration of
    [EVALUATIONS] in turn, one row to the index it was handed (the count
    index of the corpus) and the same row to the count index of the fold,
    and no other row.  The row holds the name of the configuration, the
    fold and the path of the counts file; it does not depend on whether
    the learner or the decoder ran. *)
Theorem do_fold_writes_one_row_each (lconf : LoopConfig) (dconf : DataConfig)
    (fold : Z) (idx : string) (w : world) :
  fp_exists (fold_score_file lconf fold) w = false ->
  let fidx := fold_index lconf fold in
  let row := fun e => {| config := ec_name e;
                         fold := fold;
                         counts_file := _counts_file_path lconf e fold |} in
  index_rows (events_of (_do_fold lconf dconf fold idx w)) =
    flat_map (fun e => [(idx, row e); (fidx, row e)]) EVALUATIONS
  /\ (forall e wa,
        outcome_of (_do_tuple lconf dconf e fold wa) = Ret (row e)
        /\ index_rows (events_of (config_step lconf dconf fold idx fidx e wa))
           = [(idx, row e); (fidx, row e)])
  /\ (idx = corpus_index lconf ->
      rows_to idx (events_of (_do_fold lconf dconf fold idx w))
        = map row EVALUATIONS
      /\ rows_to fidx (events_of (_do_fold lconf dconf fold idx w))
        = map row EVALUATIONS).
Proof.
  intros Hs fidx row.
  pose proof (do_fold_run lconf dconf fold idx w) as R. cbv zeta in R.
  rewrite Hs in R. destruct R as (bs & w2 & Hc & Hrun).
  apply config_chain_blocks in Hc.
  assert (Hrows : index_rows (events_of (_do_fold lconf dconf fold idx w)) =
            flat_map (fun e => [(idx, row e); (fidx, row e)]) EVALUATIONS).
  { rewrite Hrun. unfold events_of. cbn [snd].
    rewrite !index_rows_app, (config_blocks_rows _ _ _ _ _ _ _ Hc).
    unfold mkdir_events.
    destruct (fp_exists (_fold_dir_path lconf fold) w); simpl;
      now rewrite app_nil_r. }
  split; [exact Hrows|]. split.
  - intros e wa. split.
    + now rewrite do_tuple_run.
    + apply (config_block_rows lconf dconf). rewrite config_step_run. cbv zeta.
      unfold events_of at 1. cbn [snd]. now exists wa.
  - intros ->. unfold rows_to. rewrite Hrows.
    pose proof (index_paths_differ lconf fold) as Hne. fold fidx in Hne.
    apply String.eqb_neq in Hne.
    assert (Hne' : String.eqb (corpus_index lconf) fidx = false) by exact Hne.
    rewrite String.eqb_sym in Hne.
    generalize EVALUATIONS as es.
    split; induction es as [|e es IH]; simpl; try reflexivity;
      rewrite ?String.eqb_refl, ?Hne, ?Hne'; simpl;
      rewrite ?String.eqb_refl, ?Hne, ?Hne'; simpl; now rewrite IH.
Qed.

End FoldClaims.

Lemma do_fold_skips_or_runs_all_witness :
  let done := {| Toy.files :=
                   ["TMP/latest/scratch-current/fold-1/scores-rst-dt.txt"];
                 Toy.dirs := [] |} in
  let evs := events_of (_do_fold (H := Toy.env) Toy.lconf0 Toy.dconf0 1 "idx"
                          Toy.gathered) in
  fold_score_file Toy.lconf0 1
  = "TMP/latest/scratch-current/fold-1/scores-rst-dt.txt"
  /\ _do_fold (H := Toy.env) Toy.lconf0 Toy.dconf0 1 "idx" done
     = (Ret tt, done, [Stderr "Skipping fold 1 (already run)"])
  /\ In (Learn (FakeLearnArgs_argv (H := Toy.env) Toy.lconf0 Toy.econf0 1)) evs
  /\ In (Decode (FakeDecodeArgs_argv (H := Toy.env) Toy.lconf0 Toy.econf0 1)) evs
  /\ In (Call ["attelo"; "report";
               "TMP/latest/scratch-current/fold-1/count-index-rst-dt.csv";
               "--json";
               "TMP/latest/scratch-current/fold-1/scores-rst-dt.json"]
              "TMP/latest/scratch-current/fold-1/scores-rst-dt.txt") evs.
Proof.
  intros done evs. split; [|split].
  - destruct (do_fold_skips_or_runs_all (H := Toy.env) Toy.lconf0
                Toy.dconf0 1 "idx" done) as (P & _).
    rewrite P; reflexivity.
  - destruct (do_fold_skips_or_runs_all (H := Toy.env) Toy.lconf0
                Toy.dconf0 1 "idx" done) as (_ & A & _).
    apply A. vm_compute. reflexivity.
  - destruct (do_fold_skips_or_runs_all (H := Toy.env) Toy.lconf0
                Toy.dconf0 1 "idx" Toy.gathered) as (_ & _ & B).
    destruct B as (Hrun & _ & _); [vm_compute; reflexivity|].
    unfold evs. rewrite Hrun. unfold events_of. cbn [snd].
    vm_compute. intuition.
Defined.

Lemma do_fold_writes_one_row_each_witness :
  index_rows (events_of (_do_fold (H := Toy.env) Toy.lconf0
                           Toy.dconf0 1 "idx" Toy.gathered))
  = flat_map (fun e => [("idx", index_entry Toy.lconf0 e 1);
                        (fold_index Toy.lconf0 1,
                         index_entry Toy.lconf0 e 1)])
             Toy.evaluations.
Proof.
  destruct (do_fold_writes_one_row_each (H := Toy.env) Toy.lconf0
              Toy.dconf0 1 "idx" Toy.gathered) as (A & _).
  - vm_compute. reflexivity.
  - exact A.
Defined.

(** ** Missing data *)

Section Abort.
Context `{Env}.

(** C4: when the EDU-input file of the dataset is not in the evaluation
    directory, [_do_corpus] ends the run by [sys.exit] with the message
    that sends the user to `irit-rst-dt gather`, having printed the corpus
    banner and nothing else: no data is loaded, no fold is run, the world
    is untouched.  [main] ends the run with the same message when the data
    directory is not there. *)
Theorem missing_data_aborts (lconf : LoopConfig) (args : Args) (w : world) :
  let msg := "No data to run experiments on." +:+ newline +:+
             "Please run `irit-rst-dt gather`" in
  (fp_exists (_edu_input_path lconf) w = false ->
   _do_corpus lconf w = (Exit msg, w, [Stderr (_corpus_banner lconf)]))
  /\ (fp_exists latest_tmp w = false ->
      main args w = (Exit msg, w, [])).
Proof.
  intros msg. split; intros Hm.
  - unfold _do_corpus, bind, print_err, emit, ask, when, _exit_ungathered,
      sys_exit.
    now rewrite Hm.
  - unfold main, bind, ask, when, _exit_ungathered, sys_exit.
    now rewrite Hm.
Qed.

End Abort.

Lemma missing_data_aborts_witness :
  let empty := {| Toy.files := []; Toy.dirs := [] |} in
  outcome_of (_do_corpus (H := Toy.env) Toy.lconf0 empty)
    = Exit ("No data to run experiments on." +:+ newline +:+
            "Please run `irit-rst-dt gather`")
  /\ outcome_of (main (H := Toy.env) (mkArgs false) empty)
    = Exit ("No data to run experiments on." +:+ newline +:+
            "Please run `irit-rst-dt gather`").
Proof.
  intros empty.
  destruct (missing_data_aborts (H := Toy.env) Toy.lconf0
              (mkArgs false) empty) as [A B].
  split.
  - rewrite A; [reflexivity | vm_compute; reflexivity].
  - rewrite B; [reflexivity | vm_compute; reflexivity].
Defined.

(** ** Evaluation and scratch directories *)

Section Dirs.
Context `{Env}.

Lemma link_step_returns (data_dir eval_dir fname : string) (w : world) :
  outcome_of
    ((isf <- ask (os_path_isfile (os_path_join data_dir fname)) ;;
      when isf (act (Link (os_path_join data_dir fname)
                          (os_path_join eval_dir fname))
                    (os_link (os_path_join data_dir fname)
                             (os_path_join eval_dir fname)))) w) = Ret tt.
Proof.
  unfold bind, ask, when, act, ret, outcome_of.
  destruct (os_path_isfile _ w); reflexivity.
Qed.

Lemma link_data_files_returns (data_dir eval_dir : string) (w : world) :
  outcome_of (_link_data_files data_dir eval_dir w) = Ret tt.
Proof.
  unfold _link_data_files, bind at 1, ask at 1.
  match goal with
  | |- context [for_each ?xs ?body ?w0] =>
      pose proof (for_each_returns body xs
                    (link_step_returns data_dir eval_dir) w0) as Hb;
      destruct (for_each xs body w0) as [[r w'] e]
  end.
  unfold outcome_of in *. cbn [fst] in Hb. now subst r.
Qed.

Lemma create_eval_dirs_run (debug : Z) (args : Args) (data_dir : string)
    (w : world) :
  let ec := os_path_join data_dir "eval-current" in
  let sc := os_path_join data_dir "scratch-current" in
  let ts := if truthy debug then "TEST" else timestamp w in
  let ed := os_path_join data_dir ("eval-" +:+ ts) in
  let sd := os_path_join data_dir ("scratch-" +:+ ts) in
  let links := _link_data_files data_dir ed (os_makedirs ed w) in
  let w1 := if fp_exists ed w then w
            else force_symlink (os_path_basename ed) ec (world_of links) in
  create_eval_dirs_with debug args data_dir w =
    if resume args then
      if negb (fp_exists ec w) || negb (fp_exists sc w)
      then (Exit "No currently running evaluation to resume!", w, [])
      else (Ret (ec, sc), w, [])
    else if fp_exists ed w && negb (truthy debug)
    then (Exit "Try again in literally one second", w, [])
    else
      (Ret (ed, sd),
       (if fp_exists sd w1 then w1
        else force_symlink (os_path_basename sd) sc (os_makedirs sd w1)),
       (if fp_exists ed w then []
        else [Makedirs ed] ++ events_of links
             ++ [ForceSymlink (os_path_basename ed) ec])
       ++ (if fp_exists sd w1 then []
           else [Makedirs sd; ForceSymlink (os_path_basename sd) sc])).
Proof.
  cbv zeta.
  unfold create_eval_dirs_with, when, makedirs, bind, ask, sys_exit, act, ret.
  destruct (resume args).
  { destruct (fp_exists _ w), (fp_exists _ w); reflexivity. }
  destruct (truthy debug); cbn [negb].
  - destruct (fp_exists (os_path_join data_dir ("eval-" +:+ "TEST")) w) eqn:He;
      cbn [negb andb app].
    + destruct (fp_exists (os_path_join data_dir ("scratch-" +:+ "TEST")) w);
        reflexivity.
    + pose proof (link_data_files_returns data_dir
                    (os_path_join data_dir ("eval-" +:+ "TEST"))
                    (os_makedirs (os_path_join data_dir ("eval-" +:+ "TEST")) w))
        as Hl.
      destruct (_link_data_files _ _ _) as [[rl wl] el].
      unfold outcome_of in Hl. cbn [fst] in Hl. subst rl.
      unfold world_of, events_of. cbn [fst snd].
      destruct (fp_exists _ (force_symlink _ _ wl));
        cbn [negb app]; rewrite ?app_nil_r; rewrite <- ?app_assoc; reflexivity.
  - destruct (fp_exists (os_path_join data_dir ("eval-" +:+ timestamp w)) w) eqn:He;
      cbn [negb andb app]; [reflexivity|].
    pose proof (link_data_files_returns data_dir
                  (os_path_join data_dir ("eval-" +:+ timestamp w))
                  (os_makedirs (os_path_join data_dir ("eval-" +:+ timestamp w)) w))
      as Hl.
    destruct (_link_data_files _ _ _) as [[rl wl] el].
    unfold outcome_of in Hl. cbn [fst] in Hl. subst rl.
    unfold world_of, events_of. cbn [fst snd].
    destruct (fp_exists _ (force_symlink _ _ wl));
      cbn [negb app]; rewrite ?app_nil_r; rewrite <- ?app_assoc; reflexivity.
Qed.

(** C10: [_create_eval_dirs] ends the program in two cases only.  With
    --resume, when eval-current or scratch-current is not there ("No
    currently running evaluation to resume!"); otherwise it returns these
    two paths and touches nothing.  Without --resume, when the run is not
    a debug run and the timestamped evaluation directory is already there
    ("Try again in literally one second"); otherwise it returns the
    timestamped evaluation and scratch directories, and each of the two
    that was missing has been created and its -current link pointed at
    it, the evaluation directory with the data files linked into it. *)
Theorem create_eval_dirs_outcomes (debug : Z) (args : Args) (data_dir : string)
    (w : world) :
  let ec := os_path_join data_dir "eval-current" in
  let sc := os_path_join data_dir "scratch-current" in
  let ts := if truthy debug then "TEST" else timestamp w in
  let ed := os_path_join data_dir ("eval-" +:+ ts) in
  let sd := os_path_join data_dir ("scratch-" +:+ ts) in
  let run := create_eval_dirs_with debug args data_dir w in
  let links := _link_data_files data_dir ed (os_makedirs ed w) in
  let w1 := if fp_exists ed w then w
            else force_symlink (os_path_basename ed) ec (world_of links) in
  _create_eval_dirs args data_dir w = create_eval_dirs_with 0 args data_dir w
  /\ (resume args = true ->
      (fp_exists ec w = false \/ fp_exists sc w = false ->
       run = (Exit "No currently running evaluation to resume!", w, []))
      /\ (fp_exists ec w = true /\ fp_exists sc w = true ->
          run = (Ret (ec, sc), w, [])))
  /\ (resume args = false ->
      (truthy debug = false /\ fp_exists ed w = true ->
       run = (Exit "Try again in literally one second", w, []))
      /\ (truthy debug = true \/ fp_exists ed w = false ->
          run =
            (Ret (ed, sd),
             (if fp_exists sd w1 then w1
              else force_symlink (os_path_basename sd) sc (os_makedirs sd w1)),
             (if fp_exists ed w then []
              else [Makedirs ed] ++ events_of links
                   ++ [ForceSymlink (os_path_basename ed) ec])
             ++ (if fp_exists sd w1 then []
                 else [Makedirs sd; ForceSymlink (os_path_basename sd) sc]))))
  /\ ((exists msg, outcome_of run = Exit msg) <->
      (resume args = true /\ (fp_exists ec w = false \/ fp_exists sc w = false))
      \/ (resume args = false /\ truthy debug = false /\ fp_exists ed w = true))
  /\ (forall exn, outcome_of run <> Raise exn).
Proof.
  intros ec sc ts ed sd run links w1.
  split; [reflexivity|].
  pose proof (create_eval_dirs_run debug args data_dir w) as R.
  cbv zeta in R. fold ts in R. fold ed in R. fold sd in R. fold ec in R.
  fold sc in R. fold links in R. fold w1 in R. fold run in R.
  clearbody run w1 links. rewrite R. clear R.
  destruct (resume args), (fp_exists ec w), (fp_exists sc w),
    (fp_exists ed w), (truthy debug); cbn [negb orb andb outcome_of fst].
  all: repeat split; try discriminate; try reflexivity.
  all: try (intros [? | ?]; discriminate).
  all: try (intros [? ?]; discriminate).
  all: try (intros [? ?]; eauto; fail).
  all: try (intros [[? [? | ?]] | [? [? ?]]]; try discriminate; eauto; fail).
  all: try (intros; left; split; auto; fail).
  all: try (intros; right; auto; fail).
Qed.

End Dirs.

Lemma create_eval_dirs_outcomes_witness :
  outcome_of (_create_eval_dirs (H := Toy.env) (mkArgs true) "TMP/latest"
                Toy.gathered)
    = Exit "No currently running evaluation to resume!"
  /\ outcome_of (_create_eval_dirs (H := Toy.env) (mkArgs false) "TMP/latest"
                   Toy.gathered)
    = Ret ("TMP/latest/eval-2014-12-01T10:00:00",
           "TMP/latest/scratch-2014-12-01T10:00:00").
Proof.
  split.
  - destruct (create_eval_dirs_outcomes (H := Toy.env) 0 (mkArgs true)
                "TMP/latest" Toy.gathered) as (E & A & _).
    destruct (A eq_refl) as [A1 _].
    rewrite E, A1; [reflexivity | left; vm_compute; reflexivity].
  - destruct (create_eval_dirs_outcomes (H := Toy.env) 0 (mkArgs false)
                "TMP/latest" Toy.gathered) as (E & _ & B & _).
    destruct (B eq_refl) as [_ B2].
    rewrite E, B2; [reflexivity | right; vm_compute; reflexivity].
Defined.

(** X15: the directories [_create_eval_dirs] returns are directory paths
    (not empty, no trailing separator), as long as the timestamp holds no
    separator: joining a relative name to them inserts one separator. *)
Lemma create_eval_dirs_dir_like `{Env} (debug : Z) (args : Args)
    (data_dir : string) (w : world) (ed sd : string) :
  has_sep (timestamp w) = false ->
  outcome_of (create_eval_dirs_with debug args data_dir w) = Ret (ed, sd) ->
  dir_like ed = true /\ dir_like sd = true.
Proof.
  intros Hts. rewrite create_eval_dirs_run. cbv zeta.
  assert (Hs : has_sep (if truthy debug then "TEST" else timestamp w) = false).
  { destruct (truthy debug); [reflexivity | exact Hts]. }
  destruct (resume args).
  - destruct (negb _ || negb _); unfold outcome_of; cbn [fst]; [discriminate|].
    intros [= <- <-]. split; apply dir_like_join; reflexivity.
  - destruct (fp_exists _ w && negb (truthy debug)); unfold outcome_of;
      cbn [fst]; [discriminate|].
    intros [= <- <-].
    split; apply dir_like_join; try reflexivity; simpl; exact Hs.
Qed.

(** ** One corpus *)

Section Corpus.
Context `{Env}.

Lemma do_fold_returns (lconf : LoopConfig) (dconf : DataConfig) (idx : string)
    (f : Z) (w : world) :
  outcome_of (_do_fold lconf dconf f idx w) = Ret tt.
Proof.
  pose proof (do_fold_run lconf dconf f idx w) as R. cbv zeta in R.
  destruct (fp_exists (fold_score_file lconf f) w).
  - now rewrite R.
  - destruct R as (bs & w2 & _ & ->). reflexivity.
Qed.

Lemma do_corpus_run (lconf : LoopConfig) (w : world) :
  let idx := corpus_index lconf in
  let we := corpus_enfolded lconf w in
  if fp_exists (_edu_input_path lconf) w then
    match json_load (fold_file lconf) we with
    | Some fd =>
        let dconf := {| pack := corpus_pack lconf w; folds := fd |} in
        exists bs w2,
          chain (fun f => _do_fold lconf dconf f idx)
                (frozenset_iter (dict_values fd)) (index_enter idx we) bs w2
          /\ _do_corpus lconf w =
               (Ret tt,
                world_of (_mk_report (eval_dir lconf) lconf idx
                            (index_exit idx w2)),
                corpus_prelude lconf
                ++ [JsonLoad (fold_file lconf); IndexOpen idx]
                ++ concat bs ++ [IndexClose idx]
                ++ report_events (eval_dir lconf) lconf idx)
    | None =>
        _do_corpus lconf w =
          (Raise (if can_open (fold_file lconf) we then "ValueError"
                  else "IOError"),
           we, corpus_prelude lconf)
    end
  else
    _do_corpus lconf w =
      (Exit ungathered_msg, w, [Stderr (_corpus_banner lconf)]).
Proof.
  intros idx we.
  destruct (fp_exists (_edu_input_path lconf) w) eqn:He.
  2:{ unfold _do_corpus, bind, print_err, emit, ask, when, _exit_ungathered,
        sys_exit.
      now rewrite He. }
  destruct (json_load (fold_file lconf) we) as [fd|] eqn:Hj.
  - intros dconf.
    destruct (chain_total (fun f => _do_fold lconf dconf f idx)
                (frozenset_iter (dict_values fd))
                (do_fold_returns lconf dconf idx) (index_enter idx we))
      as (bs & w2 & Hc).
    exists bs, w2. split; [exact Hc|].
    pose proof (chain_for_each _ _ _ _ _ Hc) as Hloop.
    unfold _do_corpus, bind, print_err, emit, ask, when, ret,
      _generate_fold_file, with_ctx, FakeEnfoldArgs, cli_enter, cli_exit,
      act, read_folds, bind, emit, ret, CountIndex, CountIndex_exit, act, bind,
      ret.
    rewrite He. cbn [negb fst snd ns_argv ns_tool app].
    fold (corpus_pack lconf w). fold (corpus_enfolded lconf w). fold we.
    rewrite Hj. cbn [folds pack].
    change (_index_file_path (scratch_dir lconf) lconf) with idx. fold dconf.
    cbn [folds] in Hloop. rewrite Hloop.
    rewrite mk_report_run. unfold world_of. cbn [fst snd].
    unfold corpus_prelude. cbn [app]. rewrite ?app_nil_r, <- ?app_assoc.
    reflexivity.
  - unfold _do_corpus, bind, print_err, emit, ask, when, ret,
      _generate_fold_file, with_ctx, FakeEnfoldArgs, cli_enter, cli_exit,
      act, read_folds, bind, emit, ret.
    rewrite He. cbn [negb fst snd ns_argv ns_tool app].
    fold (corpus_pack lconf w). fold (corpus_enfolded lconf w). fold we.
    rewrite Hj. destruct (can_open (fold_file lconf) we); reflexivity.
Qed.

End Corpus.

(** ** What a run leaves in the count index of the corpus *)

Lemma combine_functional {A B} (xs : list A) (ys : list B) (x : A) (a b : B) :
  NoDup xs -> In (x, a) (combine xs ys) -> In (x, b) (combine xs ys) -> a = b.
Proof.
  intros Hnd. revert ys. induction Hnd as [|x0 xs Hnotin Hnd IH]; intros ys Ha Hb.
  - destruct Ha.
  - destruct ys as [|y ys]; [destruct Ha|].
    simpl in Ha, Hb. destruct Ha as [Ha|Ha], Hb as [Hb|Hb].
    + congruence.
    + injection Ha as -> _. apply in_combine_l in Hb. contradiction.
    + injection Hb as -> _. apply in_combine_l in Ha. contradiction.
    + eapply IH; eassumption.
Qed.

Section IndexContents.
Context `{Env}.

Lemma config_blocks_contents (lconf : LoopConfig) (dconf : DataConfig) (f : Z)
    (idx fidx : string) (es : list EvaluationConfig) (bs : list (list event)) :
  String.eqb fidx idx = false ->
  Forall2 (config_block lconf dconf f idx fidx) es bs ->
  forall acc,
    index_contents idx (concat bs) acc
    = acc ++ map (fun e => index_entry lconf e f) es.
Proof.
  intros Hne. induction 1 as [|e b es bs Hb _ IH]; intros acc.
  - simpl. now rewrite app_nil_r.
  - destruct Hb as [wa ->]. simpl concat. cbn [index_contents].
    rewrite !index_contents_app.
    rewrite (index_free_contents _ _ (do_tuple_index_free _ _ _ _ _)).
    cbn [index_contents]. rewrite String.eqb_refl, Hne, IH.
    cbn [map]. now rewrite <- app_assoc.
Qed.

(** A fold adds its rows to the index of the corpus, or nothing when it
    is skipped. *)
Lemma do_fold_contents (lconf : LoopConfig) (dconf : DataConfig) (f : Z)
    (w : world) (acc : list IndexEntry) :
  index_contents (corpus_index lconf)
    (events_of (_do_fold lconf dconf f (corpus_index lconf) w)) acc
  = acc ++ (if fp_exists (fold_score_file lconf f) w then []
            else map (fun e => index_entry lconf e f) EVALUATIONS).
Proof.
  pose proof (do_fold_run lconf dconf f (corpus_index lconf) w) as R.
  cbv zeta in R.
  pose proof (index_paths_differ lconf f) as Hne.
  apply String.eqb_neq in Hne. rewrite String.eqb_sym in Hne.
  unfold fold_index in Hne.
  destruct (fp_exists (fold_score_file lconf f) w).
  - rewrite R. simpl. now rewrite app_nil_r.
  - destruct R as (bs & w2 & Hc & ->).
    apply config_chain_blocks in Hc.
    unfold events_of. cbn [snd].
    rewrite !index_contents_app.
    rewrite (config_blocks_contents _ _ _ _ _ _ _ Hne Hc).
    assert (Hmk : index_contents (corpus_index lconf)
                    (mkdir_events (_fold_dir_path lconf f) w) acc = acc).
    { unfold mkdir_events. destruct (fp_exists _ w); reflexivity. }
    simpl. rewrite Hmk, Hne. reflexivity.
Qed.

Lemma fold_chain_contents (lconf : LoopConfig) (dconf : DataConfig)
    (fs : list Z) (w w' : world) (bs : list (list event)) :
  let body := fun f => _do_fold lconf dconf f (corpus_index lconf) in
  chain body fs w bs w' ->
  forall acc,
    index_contents (corpus_index lconf) (concat bs) acc
    = acc ++ flat_map
               (fun fw =>
                  if fp_exists (fold_score_file lconf (fst fw)) (snd fw) then []
                  else map (fun e => index_entry lconf e (fst fw)) EVALUATIONS)
               (combine fs (start_worlds body fs w)).
Proof.
  intros body. induction 1 as [w | f fs w w1 w2 b bs Hb Hc IH]; intros acc.
  - simpl. now rewrite app_nil_r.
  - simpl concat. rewrite index_contents_app.
    assert (Eb : b = events_of (body f w)) by now rewrite Hb.
    assert (Ew : w1 = world_of (body f w)) by now rewrite Hb.
    rewrite Eb. unfold body at 1. rewrite do_fold_contents.
    rewrite IH. simpl. rewrite <- Ew. now rewrite <- app_assoc.
Qed.

(** C9: a fold whose scores file is there when its turn comes adds no row
    to the count index of the corpus.  After a run of [_do_corpus] that
    returns, the index holds, whatever it held before, the rows of the
    folds that were not skipped in this run and no others; in particular no
    row of a skipped fold, so that the report made from it covers only the
    folds processed in this run. *)
Theorem skipped_folds_leave_no_rows (lconf : LoopConfig) (w : world)
    (fd : FoldDict) :
  fp_exists (_edu_input_path lconf) w = true ->
  json_load (fold_file lconf) (corpus_enfolded lconf w) = Some fd ->
  let idx := corpus_index lconf in
  let dconf := {| pack := corpus_pack lconf w; folds := fd |} in
  let fs := frozenset_iter (dict_values fd) in
  let body := fun f => _do_fold lconf dconf f idx in
  let starts := start_worlds body fs (index_enter idx (corpus_enfolded lconf w)) in
  let run := _do_corpus lconf w in
  outcome_of run = Ret tt
  /\ (forall f wf,
        fp_exists (fold_score_file lconf f) wf = true ->
        index_rows (events_of (body f wf)) = [])
  /\ (forall old,
        index_contents idx (events_of run) old =
        flat_map
          (fun fw =>
             if fp_exists (fold_score_file lconf (fst fw)) (snd fw) then []
             else map (fun e => index_entry lconf e (fst fw)) EVALUATIONS)
          (combine fs starts))
  /\ (forall old f wf row,
        In (f, wf) (combine fs starts) ->
        fp_exists (fold_score_file lconf f) wf = true ->
        In row (index_contents idx (events_of run) old) ->
        fold row <> f).
Proof.
  intros He Hj idx dconf fs body starts run.
  pose proof (do_corpus_run lconf w) as R. cbv zeta in R.
  rewrite He, Hj in R. destruct R as (bs & w2 & Hc & Hrun).
  fold idx in Hc, Hrun. fold dconf in Hc. fold fs in Hc. fold body in Hc.
  assert (Hcontents : forall old,
            index_contents idx (events_of run) old =
            flat_map
              (fun fw =>
                 if fp_exists (fold_score_file lconf (fst fw)) (snd fw) then []
                 else map (fun e => index_entry lconf e (fst fw)) EVALUATIONS)
              (combine fs starts)).
  { intros old. unfold run. rewrite Hrun. unfold events_of. cbn [snd].
    rewrite !index_contents_app.
    rewrite (fold_chain_contents lconf dconf fs _ _ _ Hc).
    simpl. rewrite String.eqb_refl. reflexivity. }
  split; [unfold run; now rewrite Hrun|].
  split.
  { intros f wf Hs. unfold body.
    pose proof (do_fold_run lconf dconf f idx wf) as R. cbv zeta in R.
    rewrite Hs in R. now rewrite R. }
  split; [exact Hcontents|].
  intros old f wf row Hin Hs Hrow Hf.
  rewrite Hcontents in Hrow. apply in_flat_map in Hrow.
  destruct Hrow as ([g wg] & Hg & Hrow). cbn [fst snd] in Hrow.
  destruct (fp_exists (fold_score_file lconf g) wg) eqn:Hsg; [destruct Hrow|].
  apply in_map_iff in Hrow. destruct Hrow as (e & <- & _).
  cbn [fold index_entry] in Hf. subst g.
  assert (wg = wf).
  { eapply combine_functional; [apply frozenset_iter_nodup | exact Hg | exact Hin]. }
  subst wg. congruence.
Qed.

End IndexContents.

Lemma skipped_folds_leave_no_rows_witness :
  map fold
    (index_contents (corpus_index Toy.lconf0)
       (events_of (_do_corpus (H := Toy.env) Toy.lconf0
                     Toy.interrupted))
       [index_entry Toy.lconf0 Toy.econf0 1])
  = [0%Z; 0%Z].
Proof.
  destruct (skipped_folds_leave_no_rows (H := Toy.env) Toy.lconf0
              Toy.interrupted Toy.test_folds)
    as (_ & _ & A & _).
  - vm_compute. reflexivity.
  - vm_compute. reflexivity.
  - rewrite A. vm_compute. reflexivity.
Defined.

(** ** The order of the whole run *)

Lemma Forall2_in_right {A B} (R : A -> B -> Prop) (xs : list A) (ys : list B) :
  Forall2 R xs ys -> forall y, In y ys -> exists x, In x xs /\ R x y.
Proof.
  induction 1 as [|x y xs ys Hxy _ IH]; intros y' Hin; [destruct Hin|].
  destruct Hin as [<- | Hin].
  - exists x. split; [now left | exact Hxy].
  - destruct (IH _ Hin) as (x' & Hx' & Hr). exists x'. split; [now right | exact Hr].
Qed.

Section Order.
Context `{Env}.

Lemma do_tuple_no_call (lconf : LoopConfig) (dconf : DataConfig)
    (econf : EvaluationConfig) (fold : Z) (w : world) (cmd : list string)
    (out : string) :
  ~ In (Call cmd out) (events_of (_do_tuple lconf dconf econf fold w)).
Proof.
  rewrite do_tuple_run. cbv zeta. unfold events_of at 1. cbn [snd].
  rewrite maybe_learn_run. cbv zeta. unfold events_of at 1, world_of. cbn [fst snd].
  rewrite decode_run. cbv zeta.
  unfold mkdir_events.
  repeat match goal with
         | |- context [if ?c then _ else _] => destruct c
         end;
    unfold events_of; cbn [snd app In]; intuition discriminate.
Qed.

(** The report of the corpus is not made inside a fold. *)
Lemma do_fold_no_corpus_report (lconf : LoopConfig) (dconf : DataConfig)
    (f : Z) (w : world) (j out : string) :
  ~ In (Call (report_cmd (corpus_index lconf) j) out)
       (events_of (_do_fold lconf dconf f (corpus_index lconf) w)).
Proof.
  pose proof (do_fold_run lconf dconf f (corpus_index lconf) w) as R.
  cbv zeta in R.
  destruct (fp_exists (fold_score_file lconf f) w).
  - rewrite R. unfold events_of. cbn [snd In]. intuition discriminate.
  - destruct R as (bs & w2 & Hc & ->). apply config_chain_blocks in Hc.
    unfold events_of. cbn [snd]. rewrite !in_app_iff.
    intros [Hin | [Hin | [Hin | [Hin | [Hin | Hin]]]]].
    + cbn [In] in Hin. intuition discriminate.
    + unfold mkdir_events in Hin.
      destruct (fp_exists _ w); cbn [In] in Hin; intuition discriminate.
    + cbn [In] in Hin. intuition discriminate.
    + apply in_concat in Hin. destruct Hin as (b & Hb & Hin).
      destruct (Forall2_in_right _ _ _ Hc _ Hb) as (e & _ & wa & ->).
      rewrite !in_app_iff in Hin. destruct Hin as [Hin | [Hin | Hin]].
      * cbn [In] in Hin. intuition discriminate.
      * now apply do_tuple_no_call in Hin.
      * cbn [In] in Hin. intuition discriminate.
    + cbn [In] in Hin. intuition discriminate.
    + unfold report_events in Hin. cbn [In] in Hin.
      destruct Hin as [Hin | [Hin | [Hin | []]]]; try discriminate.
      injection Hin. intros.
      match goal with
      | Hcmd : _ = corpus_index lconf |- _ =>
          symmetry in Hcmd; now apply index_paths_differ in Hcmd
      end.
Qed.

Lemma main_unfold (args : Args) (w : world) :
  main args w =
    if fp_exists latest_tmp w then
      match _create_eval_dirs args latest_tmp w with
      | (Ret (ed, sd), wd, evd) =>
          let vt := os_path_join ed "versions.txt" in
          match for_each TRAINING_CORPORA
                  (fun corpus => _do_corpus (main_lconf ed sd corpus))
                  (call ["pip"; "freeze"] vt (open_w vt wd)) with
          | (r, w', e) => (r, w', evd ++ [OpenW vt; Call ["pip"; "freeze"] vt] ++ e)
          end
      | (Exit msg, wd, evd) => (Exit msg, wd, evd)
      | (Raise exn, wd, evd) => (Raise exn, wd, evd)
      end
    else (Exit ungathered_msg, w, []).
Proof.
  unfold main, bind, ask, when, _exit_ungathered, sys_exit, with_ctx,
    open_write, bind, act, ret.
  destruct (fp_exists latest_tmp w); cbn [negb]; [|reflexivity].
  destruct (_create_eval_dirs args latest_tmp w) as [[r wd] evd].
  destruct r as [[ed sd]|msg|exn]; try reflexivity.
  cbv zeta.
  destruct (for_each TRAINING_CORPORA _ _) as [[r w'] e].
  cbn [app]. now rewrite ?app_nil_r.
Qed.

Lemma main_run (args : Args) (w : world) :
  outcome_of (main args w) = Ret tt ->
  exists ed sd wd evd bs w',
    _create_eval_dirs args latest_tmp w = (Ret (ed, sd), wd, evd)
    /\ chain (fun corpus => _do_corpus (main_lconf ed sd corpus))
             TRAINING_CORPORA
             (call ["pip"; "freeze"] (os_path_join ed "versions.txt")
                   (open_w (os_path_join ed "versions.txt") wd))
             bs w'
    /\ events_of (main args w) =
         evd ++ [OpenW (os_path_join ed "versions.txt");
                 Call ["pip"; "freeze"] (os_path_join ed "versions.txt")]
         ++ concat bs.
Proof.
  rewrite main_unfold.
  destruct (fp_exists latest_tmp w); [|discriminate].
  destruct (_create_eval_dirs args latest_tmp w) as [[r wd] evd].
  destruct r as [[ed sd]|msg|exn]; try discriminate.
  cbv zeta.
  destruct (for_each TRAINING_CORPORA _ _) as [[r w'] e] eqn:Hloop.
  unfold outcome_of, events_of. cbn [fst snd]. intros ->.
  destruct (for_each_chain _ _ _ _ _ Hloop) as (bs & Hc & ->).
  exists ed, sd, wd, evd, bs, w'. split; [reflexivity|]. split; [exact Hc|].
  reflexivity.
Qed.

End Order.

Section Sequence.
Context `{Env}.

(** C5: the run is a nest of loops whose bodies run one after the other.
    A run of [main] that returns has made the directories, recorded the
    versions, and then run [_do_corpus] on each corpus of
    [TRAINING_CORPORA] in list order, each from the world the one before
    left.  A run of [_do_corpus] that returns has taken each fold of the
    fold file once, in the order of the frozenset, each from the world the
    one before left, and made the report of the corpus after the last
    fold and not before.  Each fold is either skipped or takes the
    configurations of [EVALUATIONS] in list order, each from the world the
    one before left: learner unless the models are there, decoder unless
    the counts file is there, row to both indexes. *)
Theorem strictly_sequential_nesting :
  (forall args w,
     outcome_of (main args w) = Ret tt ->
     exists ed sd wd evd bs w',
       _create_eval_dirs args latest_tmp w = (Ret (ed, sd), wd, evd)
       /\ chain (fun corpus => _do_corpus (main_lconf ed sd corpus))
                TRAINING_CORPORA
                (call ["pip"; "freeze"] (os_path_join ed "versions.txt")
                      (open_w (os_path_join ed "versions.txt") wd))
                bs w'
       /\ events_of (main args w) =
            evd ++ [OpenW (os_path_join ed "versions.txt");
                    Call ["pip"; "freeze"] (os_path_join ed "versions.txt")]
            ++ concat bs)
  /\ (forall lconf w,
        outcome_of (_do_corpus lconf w) = Ret tt ->
        exists fd,
          let idx := corpus_index lconf in
          let dconf := {| pack := corpus_pack lconf w; folds := fd |} in
          let fs := frozenset_iter (dict_values fd) in
          let run := folds_expected lconf dconf idx fs
                       (index_enter idx (corpus_enfolded lconf w)) in
          let txt := os_path_join (eval_dir lconf) ("scores-" +:+ dataset lconf)
                     +:+ ".txt" in
          let json := os_path_join (eval_dir lconf) ("scores-" +:+ dataset lconf)
                      +:+ ".json" in
          json_load (fold_file lconf) (corpus_enfolded lconf w) = Some fd
          /\ NoDup fs
          /\ (forall f, In f fs <-> In f (dict_values fd))
          /\ length (snd run) = length fs
          /\ _do_corpus lconf w =
               (Ret tt,
                call ["attelo"; "report"; idx; "--json"; json] txt
                     (open_w txt (index_exit idx (fst run))),
                corpus_prelude lconf
                ++ [JsonLoad (fold_file lconf); IndexOpen idx]
                ++ concat (snd run)
                ++ [IndexClose idx;
                    OpenW txt;
                    Call ["attelo"; "report"; idx; "--json"; json] txt;
                    Stderr ("Scores summarised in " +:+ txt)])
          /\ (forall b j out,
                In b (snd run) ->
                ~ In (Call ["attelo"; "report"; idx; "--json"; j] out) b))
  /\ (forall lconf dconf idx f w,
        let d := _fold_dir_path lconf f in
        let fidx := fold_index lconf f in
        let score := fold_score_file lconf f in
        let json := os_path_join d ("scores-" +:+ dataset lconf) +:+ ".json" in
        let w1 := if fp_exists d w then w else os_makedirs d w in
        let run := configs_expected lconf dconf f idx fidx EVALUATIONS
                     (index_enter fidx w1) in
        fold_expected lconf dconf idx f w =
          (if fp_exists score w
           then (w, [Stderr ("Skipping fold " +:+ str_int f
                             +:+ " (already run)")])
           else (call ["attelo"; "report"; fidx; "--json"; json] score
                      (open_w score (index_exit fidx (fst run))),
                 [Stderr (_fold_banner lconf f)]
                 ++ (if fp_exists d w then [] else [Makedirs d])
                 ++ [IndexOpen fidx] ++ concat (snd run)
                 ++ [IndexClose fidx;
                     OpenW score;
                     Call ["attelo"; "report"; fidx; "--json"; json] score;
                     Stderr ("Scores summarised in " +:+ score)]))
        /\ _do_fold lconf dconf f idx w =
             (Ret tt, fst (fold_expected lconf dconf idx f w),
              snd (fold_expected lconf dconf idx f w))
        /\ length (snd run) = length EVALUATIONS
        /\ forall e we,
             let learnt := learn_expected lconf dconf e f we in
             let decoded := decode_expected lconf dconf e f (fst learnt) in
             _do_tuple lconf dconf e f we =
               (Ret {| config := ec_name e;
                       fold := f;
                       counts_file := _counts_file_path lconf e f |},
                fst decoded, snd learnt ++ snd decoded)
             /\ _maybe_learn lconf dconf e f we = (Ret tt, fst learnt, snd learnt)
             /\ _decode lconf dconf e f (fst learnt)
                = (Ret tt, fst decoded, snd decoded)).
Proof.
  split; [exact main_run|]. split.
  - intros lconf w Hret.
    pose proof (do_corpus_run lconf w) as R. cbv zeta in R.
    destruct (fp_exists (_edu_input_path lconf) w).
    2:{ rewrite R in Hret. discriminate. }
    destruct (json_load (fold_file lconf) (corpus_enfolded lconf w)) as [fd|].
    2:{ rewrite R in Hret. discriminate. }
    destruct R as (bs & w2 & Hc & Hrun).
    exists fd. cbv zeta.
    pose proof (fold_chain_expected _ _ _ _ _ _ _ Hc) as Hexp.
    rewrite Hexp. cbn [fst snd].
    split; [reflexivity|].
    split; [apply frozenset_iter_nodup|].
    split; [apply frozenset_iter_in|].
    split; [exact (chain_length _ _ _ _ _ Hc)|].
    split.
    { rewrite Hrun. rewrite mk_report_run. unfold world_of. cbn [fst snd].
      reflexivity. }
    intros b j out Hb.
    destruct (Forall2_in_right _ _ _ (chain_Forall2 _ _ _ _ _ Hc) _ Hb)
      as (f & _ & wa & wb & Hf).
    assert (Eb : b = events_of (_do_fold lconf
                      {| pack := corpus_pack lconf w; folds := fd |} f
                      (corpus_index lconf) wa)) by now rewrite Hf.
    rewrite Eb. apply do_fold_no_corpus_report.
  - intros lconf dconf idx f w. cbv zeta.
    split; [reflexivity|].
    split; [apply do_fold_expected|].
    split; [apply configs_expected_length|].
    intros e we. cbv zeta.
    split; [|split; [apply maybe_learn_expected | apply decode_expected_run]].
    rewrite do_tuple_run. cbv zeta.
    rewrite maybe_learn_expected. unfold world_of at 1, events_of at 1.
    cbn [fst snd]. rewrite decode_expected_run.
    unfold world_of, events_of. cbn [fst snd]. reflexivity.
Qed.

End Sequence.

Lemma chain_two `{Env} {A} (body : A -> M unit) (x y : A) w bs w' :
  chain body [x; y] w bs w' ->
  exists w1 b1 b2,
    body x w = (Ret tt, w1, b1) /\ body y w1 = (Ret tt, w', b2)
    /\ bs = [b1; b2].
Proof.
  intros Hc.
  inversion Hc as [| x0 xs0 wa w1 wc b1 bs1 Hb1 Hc1]; subst.
  inversion Hc1 as [| y0 ys0 wa2 w2 wc2 b2 bs2 Hb2 Hc2]; subst.
  inversion Hc2; subst.
  exists w1, b1, b2. auto.
Qed.

Lemma ret_triple_inv {A B W Ev} (a a' : A) (b b' : B) (w w' : W) (e e' : Ev) :
  (Ret (a, b), w, e) = (Ret (a', b'), w', e') ->
  a = a' /\ b = b' /\ w = w' /\ e = e'.
Proof. intros Heq. injection Heq. auto. Qed.

Lemma ret_unit_inv {W Ev} (w w' : W) (e e' : Ev) :
  (Ret tt, w, e) = (Ret tt, w', e') -> w = w' /\ e = e'.
Proof. intros Heq. injection Heq. auto. Qed.

Lemma strictly_sequential_nesting_witness :
  let E := Toy.env_with ["corpus/rst-dt"; "corpus/pdtb"] true true in
  let ed := "TMP/latest/eval-2014-12-01T10:00:00" in
  let sd := "TMP/latest/scratch-2014-12-01T10:00:00" in
  let l1 := main_lconf ed sd "corpus/rst-dt" in
  let l2 := main_lconf ed sd "corpus/pdtb" in
  let dconf := mkDataConfig E tt Toy.test_folds in
  let dirs := _create_eval_dirs (H := E) (mkArgs false) "TMP/latest"
                Toy.gathered_two in
  let w0 := call (Env := E) ["pip"; "freeze"] (os_path_join ed "versions.txt")
              (open_w (Env := E) (os_path_join ed "versions.txt") (world_of dirs)) in
  let r1 := _do_corpus (H := E) l1 w0 in
  let r2 := _do_corpus (H := E) l2 (world_of r1) in
  let folds1 := folds_expected (H := E) l1 dconf (corpus_index l1) [1%Z; 0%Z]
                  (index_enter (Env := E) (corpus_index l1)
                     (corpus_enfolded (H := E) l1 w0)) in
  outcome_of (main (H := E) (mkArgs false) Toy.gathered_two) = Ret tt
  /\ events_of (main (H := E) (mkArgs false) Toy.gathered_two)
     = events_of dirs
       ++ [OpenW (os_path_join ed "versions.txt");
           Call ["pip"; "freeze"] (os_path_join ed "versions.txt")]
       ++ events_of r1 ++ events_of r2
  /\ outcome_of r1 = Ret tt
  /\ outcome_of r2 = Ret tt
  /\ events_of r1
     = corpus_prelude (H := E) l1
       ++ [JsonLoad (fold_file l1); IndexOpen (corpus_index l1)]
       ++ concat (snd folds1)
       ++ [IndexClose (corpus_index l1);
           OpenW "TMP/latest/eval-2014-12-01T10:00:00/scores-rst-dt.txt";
           Call ["attelo"; "report"; corpus_index l1; "--json";
                 "TMP/latest/eval-2014-12-01T10:00:00/scores-rst-dt.json"]
                "TMP/latest/eval-2014-12-01T10:00:00/scores-rst-dt.txt";
           Stderr ("Scores summarised in "
                   +:+ "TMP/latest/eval-2014-12-01T10:00:00/scores-rst-dt.txt")]
  /\ length (snd folds1) = 2
  /\ In (Learn (FakeLearnArgs_argv (H := E) l1 Toy.econf0 1)) (events_of r1)
  /\ In (Decode (FakeDecodeArgs_argv (H := E) l1 Toy.econf0 0)) (events_of r1)
  /\ In (Learn (FakeLearnArgs_argv (H := E) l2 Toy.econf0 1)) (events_of r2)
  /\ outcome_of (_do_tuple (H := E) l1 dconf Toy.econf0 1 w0)
     = Ret (index_entry l1 Toy.econf0 1).
Proof.
  intros E ed sd l1 l2 dconf dirs w0 r1 r2 folds1.
  destruct (strictly_sequential_nesting (H := E)) as (A & B & C).
  assert (Hmain : outcome_of (main (H := E) (mkArgs false) Toy.gathered_two)
                  = Ret tt) by (vm_compute; reflexivity).
  assert (Hdirs : dirs = (Ret (ed, sd), world_of dirs, events_of dirs))
    by (vm_compute; reflexivity).
  assert (H1 : outcome_of r1 = Ret tt) by (vm_compute; reflexivity).
  assert (H2 : outcome_of r2 = Ret tt) by (vm_compute; reflexivity).
  destruct (A _ _ Hmain) as (ed' & sd' & wd & evd & bs & w' & Hd & Hc & He).
  change (@latest_tmp E) with "TMP/latest" in Hd.
  change (_create_eval_dirs (H := E) (mkArgs false) "TMP/latest"
                    Toy.gathered_two) with dirs in Hd.
  rewrite Hdirs in Hd.
  destruct (ret_triple_inv _ _ _ _ _ _ _ _ Hd) as (Eed & Esd & Ewd & Eevd).
  subst ed' sd' wd evd.
  change (@TRAINING_CORPORA E) with ["corpus/rst-dt"; "corpus/pdtb"] in Hc.
  destruct (chain_two (H := E) _ _ _ _ _ _ Hc) as (w1 & b1 & b2 & Hb1 & Hb2 & ->).
  change (r1 = (Ret tt, w1, b1)) in Hb1.
  assert (Hr1 : r1 = (Ret tt, world_of r1, events_of r1))
    by (vm_compute; reflexivity).
  rewrite Hr1 in Hb1.
  destruct (ret_unit_inv _ _ _ _ Hb1) as (Ew1 & Eb1).
  subst w1 b1.
  change (r2 = (Ret tt, w', b2)) in Hb2.
  assert (Hr2 : r2 = (Ret tt, world_of r2, events_of r2))
    by (vm_compute; reflexivity).
  rewrite Hr2 in Hb2.
  destruct (ret_unit_inv _ _ _ _ Hb2) as (Ew2 & Eb2).
  subst w' b2.
  cbn [concat] in He. rewrite app_nil_r in He.
  split; [exact Hmain|].
  split; [exact He|].
  split; [exact H1|].
  split; [exact H2|].
  destruct (B l1 w0 H1) as (fd & Hj & _ & _ & Hlen & Hrun & _).
  assert (Hfd : json_load (Env := E) (fold_file l1) (corpus_enfolded (H := E) l1 w0)
                = Some Toy.test_folds) by (vm_compute; reflexivity).
  rewrite Hfd in Hj.
  assert (Efd : Toy.test_folds = fd) by congruence.
  subst fd.
  cbv zeta in Hrun, Hlen.
  change (corpus_pack (H := E) l1 w0) with tt in Hrun, Hlen.
  change (frozenset_iter (Env := E) (dict_values Toy.test_folds))
    with [1%Z; 0%Z] in Hrun, Hlen.
  change (_do_corpus (H := E) l1 w0) with r1 in Hrun.
  split.
  { rewrite Hrun. reflexivity. }
  split; [exact Hlen|].
  split; [vm_compute; repeat (first [left; reflexivity | right])|].
  split; [vm_compute; repeat (first [left; reflexivity | right])|].
  split; [vm_compute; repeat (first [left; reflexivity | right])|].
  destruct (C l1 dconf (corpus_index l1) 1%Z w0) as (_ & _ & _ & Ht).
  destruct (Ht Toy.econf0 w0) as (Ht1 & _).
  rewrite Ht1. reflexivity.
Defined.

(** * Further properties of the module *)

(** ** Paths that cannot collide *)

Lemma append_inj_l (a x y : string) : a +:+ x = a +:+ y -> x = y.
Proof. induction a as [|c a IH]; simpl; [auto | intros [= E]; auto]. Qed.

Lemma append_inj_same_length (x y s t : string) :
  String.length x = String.length y -> x +:+ s = y +:+ t -> x = y /\ s = t.
Proof.
  revert y. induction x as [|c x IH]; intros [|c' y] Hl E; simpl in *;
    try discriminate; [auto|].
  injection E as -> E. injection Hl as Hl.
  destruct (IH _ Hl E) as [-> ->]. auto.
Qed.

Lemma append_inj_r (x y s : string) : x +:+ s = y +:+ s -> x = y.
Proof.
  intros E. apply (append_inj_same_length x y s s); [|exact E].
  apply (f_equal String.length) in E. rewrite !append_length in E. lia.
Qed.

(** Two names joined to the same directory give the same path only if
    they are the same name, as long as they are both relative or both
    absolute. *)
Lemma os_path_join_inj (a b b' : string) :
  starts_with_sep b = starts_with_sep b' ->
  os_path_join a b = os_path_join a b' -> b = b'.
Proof.
  unfold os_path_join. intros <-.
  destruct (starts_with_sep b); [auto|].
  destruct (str_empty a || ends_with_sep a); intros E.
  - now apply append_inj_l in E.
  - apply append_inj_l in E. now injection E.
Qed.

Lemma str_int_inj (a b : Z) : str_int a = str_int b -> a = b.
Proof.
  unfold str_int. intros E.
  apply Stdlib.Numbers.DecimalZ.to_int_inj.
  assert (Hnn : forall z, Z.to_int z <> Decimal.Pos Decimal.Nil
                          /\ Z.to_int z <> Decimal.Neg Decimal.Nil).
  { intros [|p|p]; simpl; split; try discriminate;
      intros [= E']; now apply Stdlib.Numbers.DecimalPos.Unsigned.to_uint_nonnil in E'. }
  destruct (Hnn a) as [Ha1 Ha2], (Hnn b) as [Hb1 Hb2].
  pose proof (NilZero.isi _ Ha1 Ha2) as Ia.
  pose proof (NilZero.isi _ Hb1 Hb2) as Ib.
  rewrite E in Ia. congruence.
Qed.

(** The text before the first separator of a path decides where it is cut. *)
Lemma split_at_sep (s1 s2 n1 n2 : string) :
  has_sep s1 = false -> has_sep s2 = false ->
  s1 +:+ "/" +:+ n1 = s2 +:+ "/" +:+ n2 -> s1 = s2 /\ n1 = n2.
Proof.
  revert s2. induction s1 as [|c s1 IH]; intros [|c' s2] H1 H2 E; simpl in *.
  - now injection E.
  - injection E as <- _. discriminate.
  - injection E as -> _. discriminate.
  - injection E as -> E.
    apply orb_false_elim in H1, H2. destruct H1 as [_ H1], H2 as [_ H2].
    destruct (IH _ H1 H2 E) as [-> ->]. auto.
Qed.

(** Every fold directory is one fixed prefix followed by fold-<n>. *)
Lemma fold_dir_form (lconf : LoopConfig) :
  exists pre, forall f, _fold_dir_path lconf f = pre +:+ "fold-" +:+ str_int f.
Proof.
  unfold _fold_dir_path, os_path_join.
  destruct (str_empty (scratch_dir lconf) || ends_with_sep (scratch_dir lconf)).
  - exists (scratch_dir lconf). reflexivity.
  - exists (scratch_dir lconf +:+ "/"). intros f. simpl.
    now rewrite append_assoc.
Qed.

Lemma fold_dir_inj (lconf : LoopConfig) (f1 f2 : Z) :
  _fold_dir_path lconf f1 = _fold_dir_path lconf f2 -> f1 = f2.
Proof.
  destruct (fold_dir_form lconf) as [pre Hpre]. rewrite !Hpre. intros E.
  do 2 apply append_inj_l in E. now apply str_int_inj.
Qed.

(** Files directly inside the directories of two folds are the same file
    only if the folds are the same. *)
Lemma fold_files_inj (lconf : LoopConfig) (f1 f2 : Z) (n1 n2 : string) :
  starts_with_sep n1 = false -> starts_with_sep n2 = false ->
  os_path_join (_fold_dir_path lconf f1) n1
  = os_path_join (_fold_dir_path lconf f2) n2 ->
  f1 = f2 /\ n1 = n2.
Proof.
  intros H1 H2.
  rewrite (os_path_join_plain _ n1 (fold_dir_dir_like lconf f1) H1).
  rewrite (os_path_join_plain _ n2 (fold_dir_dir_like lconf f2) H2).
  destruct (fold_dir_form lconf) as [pre Hpre]. rewrite !Hpre.
  rewrite !append_assoc. intros E. do 2 apply append_inj_l in E.
  apply split_at_sep in E; try apply has_sep_str_int.
  destruct E as [E ->]. split; [now apply str_int_inj | reflexivity].
Qed.

(** X1: the attachment model and the relation model of a configuration in
    a fold are never the same file. *)
Theorem model_paths_differ (lconf : LoopConfig) (econf : EvaluationConfig)
    (fold : Z) :
  String.eqb (_eval_model_path lconf econf fold "attach")
             (_eval_model_path lconf econf fold "relate") = false.
Proof.
  apply String.eqb_neq.
  unfold _eval_model_path. intros E.
  apply os_path_join_inj in E.
  - do 3 apply append_inj_l in E. discriminate.
  - rewrite !starts_with_sep_app. destruct (dataset lconf); reflexivity.
Qed.

(** X2: two folds never share a fold directory, a scores file, a counts
    file or a fold index: work found for one fold is never taken for the
    work of another. *)
Theorem folds_keep_apart (lconf : LoopConfig) (f1 f2 : Z) :
  f1 <> f2 ->
  _fold_dir_path lconf f1 <> _fold_dir_path lconf f2
  /\ fold_score_file lconf f1 <> fold_score_file lconf f2
  /\ fold_index lconf f1 <> fold_index lconf f2
  /\ forall e1 e2,
       _counts_file_path lconf e1 f1 <> _counts_file_path lconf e2 f2.
Proof.
  intros Hne. repeat split.
  - intros E. now apply fold_dir_inj in E.
  - unfold fold_score_file, _score_file_path_prefix. intros E.
    apply append_inj_r in E. now apply fold_files_inj in E.
  - unfold fold_index, _index_file_path. intros E.
    now apply fold_files_inj in E.
  - intros e1 e2. unfold _counts_file_path. intros E.
    now apply fold_files_inj in E.
Qed.

Lemma folds_keep_apart_witness :
  fold_score_file Toy.lconf0 0 <> fold_score_file Toy.lconf0 1
  /\ _counts_file_path Toy.lconf0 Toy.econf0 0
     <> _counts_file_path Toy.lconf0 Toy.econf0 1.
Proof.
  destruct (folds_keep_apart Toy.lconf0 0 1) as (_ & A & _ & B).
  - discriminate.
  - split; [exact A | apply B].
Defined.

Section Names.
Context `{Env}.

(** X3: within a fold the counts file of a configuration is decided by the
    name of the configuration alone: two configurations have the same
    counts file exactly when they have the same name, and then the second
    is not decoded once the counts file of the first is there. *)
Theorem counts_file_by_name (lconf : LoopConfig) (dconf : DataConfig)
    (e1 e2 : EvaluationConfig) (fold : Z) :
  (_counts_file_path lconf e1 fold = _counts_file_path lconf e2 fold
   <-> ec_name e1 = ec_name e2)
  /\ (ec_name e1 = ec_name e2 ->
      forall w,
        fp_exists (_counts_file_path lconf e1 fold) w = true ->
        Forall (fun e => expensive e = false)
               (events_of (_decode lconf dconf e2 fold w))).
Proof.
  assert (Hiff : _counts_file_path lconf e1 fold = _counts_file_path lconf e2 fold
                 <-> ec_name e1 = ec_name e2).
  { unfold _counts_file_path. split.
    - intros E. apply fold_files_inj in E; [|reflexivity|reflexivity].
      destruct E as [_ E]. simpl in E. injection E as E.
      now apply append_inj_r in E.
    - now intros ->. }
  split; [exact Hiff|].
  intros Hn w Hc. apply Hiff in Hn. rewrite Hn in Hc.
  rewrite decode_run. cbv zeta. rewrite Hc.
  unfold events_of. cbn [snd]. repeat constructor.
Qed.

(** X4: the learner and the decoder of a configuration in a fold are given
    the same three data files, and the same [--config], [--fold],
    [--fold-file], [--attachment-model], [--relation-model] and [--decoder],
    each flag present on both command lines with the value written here;
    the decoder is so pointed at the two model files the learner is told
    to write.  [--learner] is on the learner's line only, [--scores] and
    [--output] on the decoder's only, [--relation-learner] on the
    learner's exactly when the configuration has a relation learner, and
    neither line has any other option. *)
Theorem learn_decode_command_lines_agree (lconf : LoopConfig)
    (econf : EvaluationConfig) (fold : Z) :
  let la := FakeLearnArgs_argv lconf econf fold in
  let da := FakeDecodeArgs_argv lconf econf fold in
  firstn 3 la
  = [_edu_input_path lconf; _pairings_path lconf; _features_path lconf]
  /\ firstn 3 da
     = [_edu_input_path lconf; _pairings_path lconf; _features_path lconf]
  /\ Forall (fun fv => opt_value (fst fv) (skipn 3 la) = Some (snd fv)
                       /\ opt_value (fst fv) (skipn 3 da) = Some (snd fv))
            [("--config", ATTELO_CONFIG_FILE);
             ("--fold", str_int fold);
             ("--fold-file", fold_file lconf);
             ("--attachment-model", _eval_model_path lconf econf fold "attach");
             ("--relation-model", _eval_model_path lconf econf fold "relate");
             ("--decoder", dc_decoder (decoder econf))]
  /\ opt_value "--learner" (skipn 3 la) = Some (attach (learner econf))
  /\ opt_value "--relation-learner" (skipn 3 la) = relate (learner econf)
  /\ opt_value "--scores" (skipn 3 la) = None
  /\ opt_value "--output" (skipn 3 la) = None
  /\ opt_value "--learner" (skipn 3 da) = None
  /\ opt_value "--relation-learner" (skipn 3 da) = None
  /\ opt_value "--scores" (skipn 3 da) = Some (_counts_file_path lconf econf fold)
  /\ opt_value "--output" (skipn 3 da)
     = Some (_decode_output_path lconf econf fold)
  /\ length la = (match relate (learner econf) with
                  | Some _ => 19
                  | None => 17
                  end)%nat
  /\ length da = 19%nat.
Proof.
  intros la da. unfold la, da, FakeLearnArgs_argv, FakeDecodeArgs_argv.
  destruct (relate (learner econf)); repeat split; repeat constructor.
Qed.

(** X5: the counts file named in the index row of a configuration is the
    file the decoder is asked to write its scores to, and the file whose
    presence makes [_decode] skip: the decoder runs exactly when it is not
    there. *)
Theorem counts_file_ties_row_decoder_and_skip (lconf : LoopConfig)
    (dconf : DataConfig) (econf : EvaluationConfig) (fold : Z) (w : world) :
  let d := mkNamespace ToolDecode (FakeDecodeArgs_argv lconf econf fold) in
  exists row,
    outcome_of (_do_tuple lconf dconf econf fold w) = Ret row
    /\ counts_file row = ns_get "--scores" d
    /\ ns_get "--output" d = _decode_output_path lconf econf fold
    /\ forall w',
         (exists argv, In (Decode argv) (events_of (_decode lconf dconf econf fold w')))
         <-> fp_exists (counts_file row) w' = false.
Proof.
  intros d. exists (index_entry lconf econf fold).
  split; [now rewrite do_tuple_run|].
  split; [reflexivity|]. split; [reflexivity|].
  intros w'. rewrite decode_run. cbv zeta. cbn [counts_file index_entry].
  destruct (fp_exists (_counts_file_path lconf econf fold) w').
  - unfold events_of. cbn [snd In]. split; [|discriminate].
    intros [argv [E|[]]]. discriminate.
  - unfold events_of. cbn [snd]. split; [reflexivity|]. intros _.
    eexists. apply in_or_app. right. cbn [In]. eauto.
Qed.

End Names.

Lemma counts_file_by_name_witness :
  let twin := {| ec_name := "maxent-mst"; learner := Toy.bayes;
                 decoder := Toy.mst |} in
  let w1 := world_of (_do_tuple (H := Toy.env) Toy.lconf0 Toy.dconf0
                        Toy.econf0 1 Toy.gathered) in
  Forall (fun e => expensive e = false)
         (events_of (_decode (H := Toy.env) Toy.lconf0 Toy.dconf0 twin 1 w1)).
Proof.
  intros twin w1.
  destruct (counts_file_by_name (H := Toy.env) Toy.lconf0 Toy.dconf0
              Toy.econf0 twin 1) as [_ A].
  apply A; [reflexivity | vm_compute; reflexivity].
Defined.

(** ** Resuming *)

Section Resuming.
Context `{Env}.

(** X6: with tools that keep their word, the decoder of [_do_tuple] never
    runs without its models: the world in which the models are loaded and
    the decoder is invoked holds both model files, whether they were just
    trained or found. *)
Theorem decoder_runs_on_built_models (lconf : LoopConfig) (dconf : DataConfig)
    (econf : EvaluationConfig) (fold : Z) (w : world) :
  tools_contract ->
  let learnt := world_of (_maybe_learn lconf dconf econf fold w) in
  let ready := ensure_dir (_fold_dir_path lconf fold) learnt in
  let d := mkNamespace ToolDecode (FakeDecodeArgs_argv lconf econf fold) in
  models_built lconf econf fold ready = true
  /\ (fp_exists (_counts_file_path lconf econf fold) learnt = false ->
      world_of (_do_tuple lconf dconf econf fold w)
      = decode_main_for_harness d (args_to_decoder d)
          (testing (pack dconf) (folds dconf) fold) (load_models d ready) ready).
Proof.
  intros C learnt ready d.
  assert (Hm : models_built lconf econf fold learnt = true).
  { unfold learnt. rewrite maybe_learn_run. cbv zeta.
    unfold world_of. cbn [fst snd].
    destruct (models_built lconf econf fold
                (ensure_dir (_fold_dir_path lconf fold) w)) eqn:E; [exact E|].
    unfold models_built.
    rewrite <- learn_args_attach at 1. rewrite (learn_creates_attach C).
    rewrite <- learn_args_relate at 1. rewrite (learn_creates_relate C).
    reflexivity. }
  split.
  - unfold models_built in *. apply andb_prop in Hm. destruct Hm as [Ha Hr].
    unfold ready.
    now rewrite (ensure_dir_keeps _ _ _ C Ha), (ensure_dir_keeps _ _ _ C Hr).
  - intros Hc. rewrite do_tuple_run. cbv zeta. fold learnt.
    unfold world_of at 1. cbn [fst snd].
    rewrite decode_run. cbv zeta. rewrite Hc. reflexivity.
Qed.

(** X7: a fold marks itself as done.  When [open(p, "w")] leaves its file
    and the report command removes nothing, the scores file of the fold is
    there after [_do_fold], so that running [_do_fold] again right away
    skips the fold and changes nothing. *)
Theorem do_fold_marks_itself_done (lconf : LoopConfig) (dconf : DataConfig)
    (fold : Z) (idx : string) (w : world) :
  report_contract ->
  let w1 := world_of (_do_fold lconf dconf fold idx w) in
  fp_exists (fold_score_file lconf fold) w1 = true
  /\ _do_fold lconf dconf fold idx w1 =
       (Ret tt, w1,
        [Stderr ("Skipping fold " +:+ str_int fold +:+ " (already run)")]).
Proof.
  intros C w1.
  assert (Hs : fp_exists (fold_score_file lconf fold) w1 = true).
  { unfold w1.
    pose proof (do_fold_run lconf dconf fold idx w) as R. cbv zeta in R.
    destruct (fp_exists (fold_score_file lconf fold) w) eqn:E.
    - rewrite R. exact E.
    - destruct R as (bs & w2 & _ & ->).
      unfold world_of. cbn [fst snd]. rewrite mk_report_run. cbn [fst snd].
      apply (call_keeps C). apply (open_w_creates C). }
  split; [exact Hs|].
  pose proof (do_fold_run lconf dconf fold idx w1) as R. cbv zeta in R.
  now rewrite Hs in R.
Qed.

Lemma do_tuple_done (lconf : LoopConfig) (dconf : DataConfig)
    (econf : EvaluationConfig) (fold : Z) (w : world) :
  config_done lconf fold w econf ->
  world_of (_do_tuple lconf dconf econf fold w) = w
  /\ Forall (fun e => expensive e = false)
            (events_of (_do_tuple lconf dconf econf fold w)).
Proof.
  intros (Hd & Hm & Hc).
  rewrite do_tuple_run. cbv zeta. rewrite maybe_learn_run. cbv zeta.
  rewrite (ensure_dir_present _ _ Hd), Hm.
  unfold world_of, events_of. cbn [fst snd].
  rewrite decode_run. cbv zeta. rewrite Hc. cbn [fst snd].
  split; [reflexivity|].
  unfold mkdir_events. rewrite Hd. repeat constructor.
Qed.

Lemma config_done_kept (lconf : LoopConfig) (fold : Z) (w w' : world)
    (econf : EvaluationConfig) :
  (forall q, fp_exists q w = true -> fp_exists q w' = true) ->
  config_done lconf fold w econf -> config_done lconf fold w' econf.
Proof.
  intros K (Hd & Hm & Hc). unfold config_done, models_built in *.
  apply andb_prop in Hm. destruct Hm as [Ha Hr].
  now rewrite (K _ Hd), (K _ Ha), (K _ Hr), (K _ Hc).
Qed.

Lemma done_chain_cheap (lconf : LoopConfig) (dconf : DataConfig) (fold : Z)
    (idx fidx : string) (es : list EvaluationConfig) w bs w' :
  index_keeps ->
  chain (config_step lconf dconf fold idx fidx) es w bs w' ->
  (forall e, In e es -> config_done lconf fold w e) ->
  Forall (fun e => expensive e = false) (concat bs).
Proof.
  intros K Hc. induction Hc as [w | e es w w1 w2 b bs Hb Hc IH]; intros Hdone.
  - constructor.
  - rewrite config_step_run in Hb. cbv zeta in Hb.
    destruct (do_tuple_done lconf dconf e fold w (Hdone e (or_introl eq_refl)))
      as [Hw He].
    rewrite Hw in Hb. injection Hb as <- <-.
    simpl concat. constructor; [reflexivity|]. apply Forall_app. split.
    + apply Forall_app. split; [exact He | repeat constructor].
    + apply IH. intros e' Hin.
      apply (config_done_kept lconf fold w); [|apply Hdone; now right].
      intros q Hq. now apply (index_writerow_keeps K), (index_writerow_keeps K).
Qed.

(** X8: resuming inside a fold costs nothing that is already paid.  When
    the fold has no scores file yet but every configuration of
    [EVALUATIONS] has its models and its counts file, [_do_fold] trains,
    loads and decodes nothing, while it still writes every index row and
    makes the report of the fold. *)
Theorem resumed_fold_costs_nothing (lconf : LoopConfig) (dconf : DataConfig)
    (fold : Z) (idx : string) (w : world) :
  index_keeps ->
  fp_exists (fold_score_file lconf fold) w = false ->
  (forall e, In e EVALUATIONS -> config_done lconf fold w e) ->
  let evs := events_of (_do_fold lconf dconf fold idx w) in
  Forall (fun e => expensive e = false) evs
  /\ index_rows evs =
       flat_map (fun e => [(idx, index_entry lconf e fold);
                           (fold_index lconf fold, index_entry lconf e fold)])
                EVALUATIONS
  /\ exists before,
       evs = before ++ report_events (_fold_dir_path lconf fold) lconf
                         (fold_index lconf fold).
Proof.
  intros K Hs Hdone evs. unfold evs.
  pose proof (do_fold_run lconf dconf fold idx w) as R. cbv zeta in R.
  rewrite Hs in R. destruct R as (bs & w2 & Hc & ->).
  unfold events_of. cbn [snd].
  split; [|split].
  - assert (Hd : EVALUATIONS = [] \/
                 fp_exists (_fold_dir_path lconf fold) w = true).
    { destruct EVALUATIONS as [|e es]; [now left | right].
      now destruct (Hdone e (or_introl eq_refl)). }
    assert (Hcheap : Forall (fun e => expensive e = false) (concat bs)).
    { eapply done_chain_cheap; [exact K | exact Hc |].
      intros e Hin. apply (config_done_kept lconf fold w); [|now apply Hdone].
      intros q Hq. apply (index_enter_keeps K).
      destruct (Hdone e Hin) as (Hdir & _).
      now rewrite (ensure_dir_present _ _ Hdir). }
    repeat (apply Forall_app; split); try exact Hcheap;
      unfold report_events, mkdir_events;
      try destruct (fp_exists (_fold_dir_path lconf fold) w);
      repeat constructor.
  - apply config_chain_blocks in Hc.
    rewrite !index_rows_app, (config_blocks_rows _ _ _ _ _ _ _ Hc).
    unfold mkdir_events.
    destruct (fp_exists (_fold_dir_path lconf fold) w); simpl;
      now rewrite app_nil_r.
  - eexists. rewrite !app_assoc. reflexivity.
Qed.

(** X9: the count index of a fold is always whole.  A fold that is not
    skipped starts its own index afresh and leaves in it, whatever it held
    before, one row per configuration of [EVALUATIONS] in list order. *)
Theorem fold_index_is_complete (lconf : LoopConfig) (dconf : DataConfig)
    (fold : Z) (idx : string) (w : world) (old : list IndexEntry) :
  idx <> fold_index lconf fold ->
  fp_exists (fold_score_file lconf fold) w = false ->
  index_contents (fold_index lconf fold)
    (events_of (_do_fold lconf dconf fold idx w)) old
  = map (fun e => index_entry lconf e fold) EVALUATIONS.
Proof.
  intros Hne Hs.
  pose proof (do_fold_run lconf dconf fold idx w) as R. cbv zeta in R.
  rewrite Hs in R. destruct R as (bs & w2 & Hc & ->).
  apply config_chain_blocks in Hc. fold (fold_index lconf fold) in Hc.
  apply String.eqb_neq in Hne.
  unfold events_of. cbn [snd].
  assert (Hblocks : forall acc,
            index_contents (fold_index lconf fold) (concat bs) acc
            = acc ++ map (fun e => index_entry lconf e fold) EVALUATIONS).
  { clear -Hc Hne. induction Hc as [|e b es bs Hb _ IH]; intros acc.
    - simpl. now rewrite app_nil_r.
    - destruct Hb as [wa ->]. simpl concat. cbn [index_contents].
      rewrite !index_contents_app.
      rewrite (index_free_contents _ _ (do_tuple_index_free _ _ _ _ _)).
      cbn [index_contents]. rewrite String.eqb_refl, Hne, IH.
      cbn [map]. now rewrite <- app_assoc. }
  rewrite !index_contents_app.
  assert (Hmk : forall acc,
            index_contents (fold_index lconf fold)
              (mkdir_events (_fold_dir_path lconf fold) w) acc = acc).
  { intros acc. unfold mkdir_events.
    destruct (fp_exists (_fold_dir_path lconf fold) w); reflexivity. }
  cbn [index_contents]. rewrite Hmk.
  change (_index_file_path (_fold_dir_path lconf fold) lconf)
    with (fold_index lconf fold).
  rewrite String.eqb_refl. rewrite Hblocks. reflexivity.
Qed.

End Resuming.

(** ** Linking the data files *)

Section Linking.
Context `{Env}.

Lemma link_data_files_unfold (data_dir eval_dir : string) (w : world) :
  _link_data_files data_dir eval_dir w
  = for_each (os_listdir data_dir w) (link_step data_dir eval_dir) w.
Proof.
  unfold _link_data_files, bind at 1, ask at 1.
  change (fun fname : string =>
            isf <- ask (os_path_isfile (os_path_join data_dir fname)) ;;
            when isf (act (Link (os_path_join data_dir fname)
                                (os_path_join eval_dir fname))
                          (os_link (os_path_join data_dir fname)
                                   (os_path_join eval_dir fname))))
    with (link_step data_dir eval_dir).
  destruct (for_each _ _ w) as [[r w'] e]. reflexivity.
Qed.

Lemma link_step_run (data_dir eval_dir n : string) (w : world) :
  let src := os_path_join data_dir n in
  let dst := os_path_join eval_dir n in
  link_step data_dir eval_dir n w =
    if os_path_isfile src w then (Ret tt, os_link src dst w, [Link src dst])
    else (Ret tt, w, []).
Proof.
  cbv zeta. unfold link_step, bind, ask, when, act, ret.
  destruct (os_path_isfile _ w); reflexivity.
Qed.

Lemma link_loop_events (data_dir eval_dir : string) (names l : list string) :
  forall w,
    Forall (fun ev => exists n, In n names
                      /\ ev = Link (os_path_join data_dir n)
                                   (os_path_join eval_dir n))
           (events_of (for_each l (link_step data_dir eval_dir) w))
    \/ ~ incl l names.
Proof.
  induction l as [|n l IH]; intros w.
  - left. constructor.
  - destruct (IH (world_of (link_step data_dir eval_dir n w))) as [IHf | Hn].
    2:{ right. intros Hi. apply Hn. intros x Hx. apply Hi. now right. }
    destruct (in_dec string_dec n names) as [Hin | Hnin].
    2:{ right. intros Hi. apply Hnin, Hi. now left. }
    left. simpl for_each. unfold bind.
    rewrite link_step_run in *. cbv zeta in *.
    destruct (os_path_isfile (os_path_join data_dir n) w);
      unfold world_of in IHf; cbn [fst snd] in IHf;
      destruct (for_each l _ _) as [[r w'] e];
      unfold events_of in *; cbn [snd app] in *; [constructor; eauto | exact IHf].
Qed.

Lemma link_loop_stable (data_dir eval_dir : string) (names l : list string)
    (w0 : world) :
  (forall n m w', In n names -> In m names ->
     os_path_isfile (os_path_join data_dir n)
       (os_link (os_path_join data_dir m) (os_path_join eval_dir m) w')
     = os_path_isfile (os_path_join data_dir n) w') ->
  incl l names ->
  forall w,
    (forall n, In n names ->
       os_path_isfile (os_path_join data_dir n) w
       = os_path_isfile (os_path_join data_dir n) w0) ->
    events_of (for_each l (link_step data_dir eval_dir) w)
    = map (fun n => Link (os_path_join data_dir n) (os_path_join eval_dir n))
          (filter (fun n => os_path_isfile (os_path_join data_dir n) w0) l).
Proof.
  intros Hframe. induction l as [|n l IH]; intros Hincl w Hsame; [reflexivity|].
  assert (Hn : In n names) by (apply Hincl; now left).
  assert (Hl : incl l names) by (intros x Hx; apply Hincl; now right).
  simpl for_each. unfold bind. rewrite link_step_run. cbv zeta.
  cbn [filter]. rewrite <- (Hsame n Hn).
  destruct (os_path_isfile (os_path_join data_dir n) w).
  - specialize (IH Hl (os_link (os_path_join data_dir n)
                               (os_path_join eval_dir n) w)).
    destruct (for_each l _ _) as [[r w'] e].
    unfold events_of in *. cbn [snd app map] in *. f_equal.
    apply IH. intros x Hx. rewrite Hframe by assumption. now apply Hsame.
  - specialize (IH Hl w Hsame).
    destruct (for_each l _ _) as [[r w'] e].
    unfold events_of in *. cbn [snd app] in *. exact IH.
Qed.

Lemma link_data_files_links_only (data_dir eval_dir : string) (w : world) :
  Forall (fun ev => exists s t, ev = Link s t)
         (events_of (_link_data_files data_dir eval_dir w)).
Proof.
  rewrite link_data_files_unfold.
  destruct (link_loop_events data_dir eval_dir (os_listdir data_dir w)
              (os_listdir data_dir w) w) as [Hf | Hn];
    [|exfalso; apply Hn, incl_refl].
  eapply Forall_impl; [|exact Hf]. intros ev (n & _ & ->). eauto.
Qed.

(** X10: all that [_link_data_files] asks of the world is hard links of
    entries of the data directory into the evaluation directory, each
    under the name it has in the data directory.  When linking does not
    change which entries of the data directory are files, the links it
    asks for are exactly those of the entries that are files, in the order
    of the listing, and the directories are passed over; with no file in
    the listing it asks for nothing and leaves the world as it was.
    Whether a link succeeds is not part of the model: the theorem is
    about the links that are asked for, not about their success. *)
Theorem link_data_files_links_the_files (data_dir eval_dir : string)
    (w : world) :
  let names := os_listdir data_dir w in
  let link := fun n => Link (os_path_join data_dir n)
                            (os_path_join eval_dir n) in
  let run := _link_data_files data_dir eval_dir w in
  Forall (fun ev => exists n, In n names /\ ev = link n) (events_of run)
  /\ ((forall n m w', In n names -> In m names ->
         os_path_isfile (os_path_join data_dir n)
           (os_link (os_path_join data_dir m) (os_path_join eval_dir m) w')
         = os_path_isfile (os_path_join data_dir n) w') ->
      events_of run
      = map link (filter (fun n => os_path_isfile (os_path_join data_dir n) w)
                         names))
  /\ ((forall n, In n names ->
         os_path_isfile (os_path_join data_dir n) w = false) ->
      world_of run = w /\ events_of run = []).
Proof.
  intros names link run.
  unfold run. rewrite link_data_files_unfold. fold names.
  split; [|split].
  - destruct (link_loop_events data_dir eval_dir names names w) as [Hf | Hn];
      [exact Hf | exfalso; apply Hn, incl_refl].
  - intros Hframe.
    apply (link_loop_stable data_dir eval_dir names names w Hframe);
      [apply incl_refl | reflexivity].
  - intros Hnone.
    assert (Hrun : forall l,
               (forall n, In n l ->
                  os_path_isfile (os_path_join data_dir n) w = false) ->
               for_each l (link_step data_dir eval_dir) w = (Ret tt, w, [])).
    { induction l as [|n l IH]; intros Hl; [reflexivity|].
      simpl for_each. unfold bind. rewrite link_step_run. cbv zeta.
      rewrite (Hl n (or_introl eq_refl)).
      rewrite IH; [reflexivity|]. intros x Hx. apply Hl. now right. }
    rewrite (Hrun names Hnone). split; reflexivity.
Qed.

End Linking.

(** ** The fold file, and failures on the way *)

Section FoldFile.
Context `{Env}.

(** X11: [_do_corpus] regenerates the fold file on every run.  Whenever the
    EDU input is there it loads the data and runs enfold before anything
    else, whether or not a fold file exists already, and enfold is told to
    write the very file that is read back afterwards. *)
Theorem do_corpus_always_enfolds (lconf : LoopConfig) (w : world) :
  fp_exists (_edu_input_path lconf) w = true ->
  ns_get "--output" (mkNamespace ToolEnfold (FakeEnfoldArgs_argv lconf))
    = fold_file lconf
  /\ In (Enfold (FakeEnfoldArgs_argv lconf)) (events_of (_do_corpus lconf w))
  /\ exists rest,
       events_of (_do_corpus lconf w) = corpus_prelude lconf ++ rest
       /\ (outcome_of (_do_corpus lconf w) = Ret tt ->
           exists rest', rest = JsonLoad (fold_file lconf) :: rest').
Proof.
  intros He. split; [reflexivity|].
  pose proof (do_corpus_run lconf w) as R. cbv zeta in R. rewrite He in R.
  destruct (json_load (fold_file lconf) (corpus_enfolded lconf w)) as [fd|].
  - destruct R as (bs & w2 & _ & ->). unfold events_of, outcome_of. cbn [fst snd].
    split.
    + apply in_or_app. left. unfold corpus_prelude. cbn [In]. auto.
    + eexists. split; [reflexivity|]. intros _. eexists. reflexivity.
  - rewrite R. unfold events_of, outcome_of. cbn [fst snd]. split.
    + unfold corpus_prelude. cbn [In]. auto.
    + exists []. split; [now rewrite app_nil_r | discriminate].
Qed.

(** X12: when the fold file cannot be read after enfold has run,
    [_do_corpus] ends with an exception, IOError when the file cannot be
    opened and ValueError when it opens and does not parse: no count index
    is opened, no fold is run and no report is made. *)
Theorem do_corpus_unreadable_fold_file (lconf : LoopConfig) (w : world) :
  fp_exists (_edu_input_path lconf) w = true ->
  json_load (fold_file lconf) (corpus_enfolded lconf w) = None ->
  _do_corpus lconf w
    = (Raise (if can_open (fold_file lconf) (corpus_enfolded lconf w)
              then "ValueError" else "IOError"),
       corpus_enfolded lconf w, corpus_prelude lconf)
  /\ index_free (events_of (_do_corpus lconf w))
  /\ Forall (fun e => expensive e = false) (events_of (_do_corpus lconf w))
  /\ forall cmd out, ~ In (Call cmd out) (events_of (_do_corpus lconf w)).
Proof.
  intros He Hj.
  pose proof (do_corpus_run lconf w) as R. cbv zeta in R.
  rewrite He, Hj in R. rewrite R. unfold events_of. cbn [snd].
  split; [reflexivity|].
  unfold index_free, corpus_prelude.
  split; [repeat constructor|]. split; [repeat constructor|].
  intros cmd out. cbn [In]. intuition discriminate.
Qed.

(** X13: when [_create_eval_dirs] ends the program, so does [main], with
    the same message, in the same world and after the same calls: no
    versions file is written and no corpus is touched. *)
Theorem main_stops_when_dirs_fail (args : Args) (w : world) (msg : string) :
  fp_exists latest_tmp w = true ->
  outcome_of (_create_eval_dirs args latest_tmp w) = Exit msg ->
  main args w
    = (Exit msg, world_of (_create_eval_dirs args latest_tmp w),
       events_of (_create_eval_dirs args latest_tmp w)).
Proof.
  intros Hd Hx. rewrite main_unfold, Hd.
  destruct (_create_eval_dirs args latest_tmp w) as [[r wd] evd].
  unfold outcome_of in Hx. cbn [fst] in Hx. subst r. reflexivity.
Qed.

End FoldFile.

(** ** The -current links *)

Lemma basename_no_sep (b : string) : has_sep b = false -> os_path_basename b = b.
Proof.
  destruct b as [|c r]; [reflexivity|]. simpl.
  intros E. apply orb_false_elim in E. destruct E as [Ec Er].
  now rewrite Er, Ec.
Qed.

Lemma basename_after_sep (x b : string) :
  has_sep b = false -> os_path_basename (x +:+ "/" +:+ b) = b.
Proof.
  intros Hb. induction x as [|c x IH]; simpl.
  - now rewrite Hb.
  - rewrite has_sep_app. simpl. now rewrite orb_true_r.
Qed.

Lemma ends_with_sep_split (a : string) :
  ends_with_sep a = true -> exists x, a = x +:+ "/".
Proof.
  induction a as [|c a IH]; [discriminate|]. simpl.
  destruct a as [|c' a'].
  - intros E. apply Ascii.eqb_eq in E. subst c. now exists "".
  - intros E. destruct (IH E) as [x Hx]. exists (String c x). simpl. now rewrite <- Hx.
Qed.

(** The base name of a joined path is the name that was joined, when that
    name holds no separator. *)
Lemma basename_join (a b : string) :
  has_sep b = false -> os_path_basename (os_path_join a b) = b.
Proof.
  intros Hb. unfold os_path_join.
  rewrite (no_sep_no_start _ Hb).
  destruct (str_empty a) eqn:Ea.
  - destruct a; [|discriminate]. simpl. now apply basename_no_sep.
  - simpl. destruct (ends_with_sep a) eqn:Ee.
    + destruct (ends_with_sep_split _ Ee) as [x ->].
      rewrite append_assoc. now apply basename_after_sep.
    + now apply basename_after_sep.
Qed.

Section Links.
Context `{Env}.

(** X14: a fresh run points the -current links at the new directories by
    their bare names.  Without --resume, with a timestamp that holds no
    separator and no evaluation directory of that timestamp yet,
    [_create_eval_dirs] first makes eval-<timestamp> and, after linking
    the data files, points eval-current at the name eval-<timestamp>; a
    scratch directory it has to make gets scratch-current pointed at the
    name scratch-<timestamp> as the last call. *)
Theorem create_eval_dirs_links_by_name (debug : Z) (args : Args)
    (data_dir : string) (w : world) :
  let ts := if truthy debug then "TEST" else timestamp w in
  let ed := os_path_join data_dir ("eval-" +:+ ts) in
  let sd := os_path_join data_dir ("scratch-" +:+ ts) in
  let ec := os_path_join data_dir "eval-current" in
  let sc := os_path_join data_dir "scratch-current" in
  let run := create_eval_dirs_with debug args data_dir w in
  resume args = false ->
  has_sep ts = false ->
  fp_exists ed w = false ->
  outcome_of run = Ret (ed, sd)
  /\ (exists rest, events_of run = Makedirs ed :: rest)
  /\ In (ForceSymlink ("eval-" +:+ ts) ec) (events_of run)
  /\ (In (Makedirs sd) (events_of run) ->
      exists before,
        events_of run
        = before ++ [Makedirs sd; ForceSymlink ("scratch-" +:+ ts) sc]).
Proof.
  intros ts ed sd ec sc run Hr Hts He.
  assert (Hbe : os_path_basename ed = "eval-" +:+ ts).
  { unfold ed. apply basename_join. simpl. exact Hts. }
  assert (Hbs : os_path_basename sd = "scratch-" +:+ ts).
  { unfold sd. apply basename_join. simpl. exact Hts. }
  unfold run. rewrite create_eval_dirs_run. cbv zeta.
  fold ts. fold ed. fold sd. fold ec. fold sc.
  rewrite Hr, He, Hbe, Hbs. cbn [andb].
  unfold outcome_of, events_of. cbn [fst snd].
  split; [reflexivity|]. split; [eexists; reflexivity|]. split.
  - apply in_or_app. left. cbn [app]. right.
    apply in_or_app. right. now left.
  - set (links := _link_data_files data_dir ed (os_makedirs ed w)).
    set (w1 := force_symlink ("eval-" +:+ ts) ec (world_of links)).
    destruct (fp_exists sd w1).
    + rewrite app_nil_r. intros Hin. exfalso.
      cbn [app In] in Hin. destruct Hin as [Hin | Hin].
      * injection Hin as Hin. unfold ed, sd in Hin.
        apply os_path_join_inj in Hin; [discriminate | reflexivity].
      * apply in_app_or in Hin. destruct Hin as [Hin | [Hin | []]];
          [|discriminate].
        pose proof (link_data_files_links_only data_dir ed (os_makedirs ed w)) as F.
        fold links in F. rewrite Forall_forall in F.
        destruct (F _ Hin) as (s & t & E). discriminate.
    + intros _. eexists. reflexivity.
Qed.

End Links.

(** ** The toy environment keeps the other contracts *)

Lemma toy_report_contract : @report_contract Toy.env.
Proof.
  constructor; simpl; intros.
  - apply toy_add_file_new.
  - unfold Toy.run_call.
    repeat match goal with
           | |- context [match ?x with _ => _ end] => destruct x; try assumption
           end.
    now apply toy_add_file_keeps.
Qed.

Lemma toy_index_keeps : @index_keeps Toy.env.
Proof. constructor; simpl; intros; [now apply toy_add_file_keeps | assumption]. Qed.

Lemma toy_add_file_other (p q : string) (w : Toy.fs) :
  p <> q -> Toy.mem p (Toy.files (Toy.add_file q w)) = Toy.mem p (Toy.files w).
Proof.
  intros Hne. unfold Toy.add_file.
  destruct (Toy.mem q (Toy.files w)); [reflexivity|].
  simpl. rewrite toy_mem_app. simpl.
  apply String.eqb_neq in Hne. now rewrite Hne, !orb_false_r.
Qed.

Lemma decoder_runs_on_built_models_witness :
  models_built (H := Toy.env) Toy.lconf0 Toy.econf0 1
    (ensure_dir (H := Toy.env) (_fold_dir_path Toy.lconf0 1)
       (world_of (_maybe_learn (H := Toy.env) Toy.lconf0 Toy.dconf0 Toy.econf0 1
                    Toy.gathered))) = true.
Proof.
  exact (proj1 (decoder_runs_on_built_models (H := Toy.env) Toy.lconf0
                  Toy.dconf0 Toy.econf0 1 Toy.gathered toy_contract)).
Defined.

Lemma do_fold_marks_itself_done_witness :
  outcome_of
    (_do_fold (H := Toy.env) Toy.lconf0 Toy.dconf0 1 "idx"
       (world_of (_do_fold (H := Toy.env) Toy.lconf0 Toy.dconf0 1 "idx"
                    Toy.gathered))) = Ret tt
  /\ events_of
       (_do_fold (H := Toy.env) Toy.lconf0 Toy.dconf0 1 "idx"
          (world_of (_do_fold (H := Toy.env) Toy.lconf0 Toy.dconf0 1 "idx"
                       Toy.gathered)))
     = [Stderr "Skipping fold 1 (already run)"].
Proof.
  destruct (do_fold_marks_itself_done (H := Toy.env) Toy.lconf0 Toy.dconf0 1
              "idx" Toy.gathered toy_report_contract) as [_ A].
  rewrite A. split; reflexivity.
Defined.

Lemma resumed_fold_costs_nothing_witness :
  let bayes_mst := {| ec_name := "bayes-mst"; learner := Toy.bayes;
                      decoder := Toy.mst |} in
  let w := world_of (_do_tuple (H := Toy.env) Toy.lconf0 Toy.dconf0 bayes_mst 1
             (world_of (_do_tuple (H := Toy.env) Toy.lconf0 Toy.dconf0
                          Toy.econf0 1 Toy.gathered))) in
  Forall (fun e => expensive e = false)
         (events_of (_do_fold (H := Toy.env) Toy.lconf0 Toy.dconf0 1 "idx" w)).
Proof.
  intros bayes_mst w.
  apply (resumed_fold_costs_nothing (H := Toy.env) Toy.lconf0 Toy.dconf0 1
           "idx" w toy_index_keeps).
  - vm_compute. reflexivity.
  - intros e [<- | [<- | []]]; repeat split; vm_compute; reflexivity.
Defined.

Lemma fold_index_is_complete_witness :
  index_contents (fold_index Toy.lconf0 1)
    (events_of (_do_fold (H := Toy.env) Toy.lconf0 Toy.dconf0 1 "idx"
                  Toy.gathered))
    [index_entry Toy.lconf0 Toy.econf0 7]
  = map (fun e => index_entry Toy.lconf0 e 1) Toy.evaluations.
Proof.
  apply (fold_index_is_complete (H := Toy.env) Toy.lconf0 Toy.dconf0 1 "idx"
           Toy.gathered).
  - discriminate.
  - vm_compute. reflexivity.
Defined.

Lemma link_data_files_links_the_files_witness :
  let w := Toy.add_dir "TMP/latest/eval-T" Toy.gathered in
  os_listdir (Env := Toy.env) "TMP/latest" w
  = ["rst-dt.relations.sparse"; "rst-dt.relations.sparse.edu_input";
     "rst-dt.relations.sparse.pairings"; "eval-T"]
  /\ events_of (_link_data_files (H := Toy.env) "TMP/latest" "TMP/latest/eval-T"
                  w)
     = [Link "TMP/latest/rst-dt.relations.sparse"
             "TMP/latest/eval-T/rst-dt.relations.sparse";
        Link "TMP/latest/rst-dt.relations.sparse.edu_input"
             "TMP/latest/eval-T/rst-dt.relations.sparse.edu_input";
        Link "TMP/latest/rst-dt.relations.sparse.pairings"
             "TMP/latest/eval-T/rst-dt.relations.sparse.pairings"]
  /\ events_of (_link_data_files (H := Toy.env) "TMP/latest/eval-T"
                  "TMP/latest/eval-U" w)
     = [].
Proof.
  intros w. split; [vm_compute; reflexivity|]. split.
  - destruct (link_data_files_links_the_files (H := Toy.env) "TMP/latest"
                "TMP/latest/eval-T" w) as (_ & A & _).
    rewrite A; [vm_compute; reflexivity|].
    intros n m w' Hn Hm. simpl. apply toy_add_file_other.
    vm_compute in Hn, Hm.
    destruct Hn as [<- | [<- | [<- | [<- | []]]]],
             Hm as [<- | [<- | [<- | [<- | []]]]];
      discriminate.
  - destruct (link_data_files_links_the_files (H := Toy.env) "TMP/latest/eval-T"
                "TMP/latest/eval-U" w) as (_ & _ & A).
    apply A. intros n Hn. vm_compute in Hn. destruct Hn.
Defined.

Lemma do_corpus_always_enfolds_witness :
  In (Enfold (FakeEnfoldArgs_argv (H := Toy.env) Toy.lconf0))
     (events_of (_do_corpus (H := Toy.env) Toy.lconf0 Toy.interrupted)).
Proof.
  destruct (do_corpus_always_enfolds (H := Toy.env) Toy.lconf0 Toy.interrupted)
    as (_ & A & _).
  - vm_compute. reflexivity.
  - exact A.
Defined.

Lemma do_corpus_unreadable_fold_file_witness :
  outcome_of (_do_corpus (H := Toy.env_lost_folds) Toy.lconf0 Toy.interrupted)
  = Raise "IOError"
  /\ outcome_of (_do_corpus (H := Toy.env_with ["corpus/rst-dt"] true false)
                   Toy.lconf0 Toy.interrupted)
     = Raise "ValueError".
Proof.
  split.
  - destruct (do_corpus_unreadable_fold_file (H := Toy.env_lost_folds)
                Toy.lconf0 Toy.interrupted) as (A & _).
    + vm_compute. reflexivity.
    + vm_compute. reflexivity.
    + rewrite A. reflexivity.
  - destruct (do_corpus_unreadable_fold_file
                (H := Toy.env_with ["corpus/rst-dt"] true false)
                Toy.lconf0 Toy.interrupted) as (A & _).
    + vm_compute. reflexivity.
    + vm_compute. reflexivity.
    + rewrite A. reflexivity.
Defined.

Lemma main_stops_when_dirs_fail_witness :
  outcome_of (main (H := Toy.env) (mkArgs true) Toy.gathered)
  = Exit "No currently running evaluation to resume!"
  /\ events_of (main (H := Toy.env) (mkArgs true) Toy.gathered) = [].
Proof.
  rewrite (main_stops_when_dirs_fail (H := Toy.env) (mkArgs true) Toy.gathered
             "No currently running evaluation to resume!").
  - split; vm_compute; reflexivity.
  - vm_compute. reflexivity.
  - vm_compute. reflexivity.
Defined.

Lemma create_eval_dirs_links_by_name_witness :
  In (ForceSymlink "eval-2014-12-01T10:00:00" "TMP/latest/eval-current")
     (events_of (_create_eval_dirs (H := Toy.env) (mkArgs false) "TMP/latest"
                   Toy.gathered)).
Proof.
  destruct (create_eval_dirs_links_by_name (H := Toy.env) 0 (mkArgs false)
              "TMP/latest" Toy.gathered) as (_ & _ & A & _).
  - reflexivity.
  - vm_compute. reflexivity.
  - vm_compute. reflexivity.
  - exact A.
Defined.

Lemma create_eval_dirs_dir_like_witness :
  dir_like "TMP/latest/eval-2014-12-01T10:00:00" = true
  /\ dir_like "TMP/latest/scratch-2014-12-01T10:00:00" = true.
Proof.
  apply (create_eval_dirs_dir_like (H := Toy.env) 0 (mkArgs false) "TMP/latest"
           Toy.gathered).
  - vm_compute. reflexivity.
  - vm_compute. reflexivity.
Defined.

(** ** A corpus without data, midway *)

Section Midway.
Context `{Env}.

Lemma for_each_exit_at {A} (body : A -> M unit) (pre : list A) (x : A)
    (post : list A) w bs wc msg wx evx :
  chain body pre w bs wc ->
  body x wc = (Exit msg, wx, evx) ->
  for_each (pre ++ x :: post) body w = (Exit msg, wx, concat bs ++ evx).
Proof.
  intros Hc Hx. induction Hc as [w | y ys w w1 w2 b bs Hb Hc IH].
  - simpl. unfold bind. now rewrite Hx.
  - simpl. unfold bind. rewrite Hb. unfold bind in IH. rewrite (IH Hx).
    now rewrite app_assoc.
Qed.

(** X16: a corpus whose EDU input is missing stops the whole run where
    it stands.  When the directories are made, the corpora before it have
    run to their end and its EDU input is not there, [main] ends by
    [sys.exit] with the gather message right after the banner of that
    corpus: the work of the earlier corpora and the versions file stay,
    and no later corpus is started. *)
Theorem main_stops_at_ungathered_corpus (args : Args) (w wd wc : world)
    (ed sd c : string) (evd : list event) (pre post : list string)
    (bs : list (list event)) :
  let vt := os_path_join ed "versions.txt" in
  fp_exists latest_tmp w = true ->
  _create_eval_dirs args latest_tmp w = (Ret (ed, sd), wd, evd) ->
  TRAINING_CORPORA = pre ++ c :: post ->
  chain (fun corpus => _do_corpus (main_lconf ed sd corpus)) pre
        (call ["pip"; "freeze"] vt (open_w vt wd)) bs wc ->
  fp_exists (_edu_input_path (main_lconf ed sd c)) wc = false ->
  main args w =
    (Exit ("No data to run experiments on." +:+ newline +:+
           "Please run `irit-rst-dt gather`"),
     wc,
     evd ++ [OpenW vt; Call ["pip"; "freeze"] vt] ++ concat bs
     ++ [Stderr (_corpus_banner (main_lconf ed sd c))]).
Proof.
  intros vt Hd Hdirs Hcorpora Hc He.
  rewrite main_unfold, Hd, Hdirs. cbv zeta. fold vt. rewrite Hcorpora.
  pose proof (do_corpus_run (main_lconf ed sd c) wc) as R. cbv zeta in R.
  rewrite He in R.
  rewrite (for_each_exit_at _ pre c post _ _ _ _ _ _ Hc R).
  reflexivity.
Qed.

End Midway.

Lemma main_stops_at_ungathered_corpus_witness :
  let E := Toy.env_with ["corpus/rst-dt"; "corpus/missing"; "corpus/pdtb"]
             true true in
  let ed := "TMP/latest/eval-2014-12-01T10:00:00" in
  let sd := "TMP/latest/scratch-2014-12-01T10:00:00" in
  let vt := "TMP/latest/eval-2014-12-01T10:00:00/versions.txt" in
  let dirs := _create_eval_dirs (H := E) (mkArgs false) "TMP/latest"
                Toy.gathered_two in
  let w0 := call (Env := E) ["pip"; "freeze"] vt
              (open_w (Env := E) vt (world_of dirs)) in
  let r1 := _do_corpus (H := E) (main_lconf ed sd "corpus/rst-dt") w0 in
  let run := main (H := E) (mkArgs false) Toy.gathered_two in
  run = (Exit ("No data to run experiments on." +:+ newline +:+
               "Please run `irit-rst-dt gather`"),
         world_of r1,
         events_of dirs ++ [OpenW vt; Call ["pip"; "freeze"] vt]
         ++ events_of r1
         ++ [Stderr (_corpus_banner (main_lconf ed sd "corpus/missing"))])
  /\ In (Learn (FakeLearnArgs_argv (H := E) (main_lconf ed sd "corpus/rst-dt")
                  Toy.econf0 1))
        (events_of r1)
  /\ In (Call ["attelo"; "report";
               "TMP/latest/scratch-2014-12-01T10:00:00/count-index-rst-dt.csv";
               "--json";
               "TMP/latest/eval-2014-12-01T10:00:00/scores-rst-dt.json"]
              "TMP/latest/eval-2014-12-01T10:00:00/scores-rst-dt.txt")
        (events_of r1)
  /\ Forall (fun e => e <> Stderr (_corpus_banner (main_lconf ed sd "corpus/pdtb")))
            (events_of run).
Proof.
  intros E ed sd vt dirs w0 r1 run.
  assert (H1 : fp_exists (Env := E) (latest_tmp (Env := E)) Toy.gathered_two = true)
    by (vm_compute; reflexivity).
  assert (H2 : dirs = (Ret (ed, sd), world_of dirs, events_of dirs))
    by (vm_compute; reflexivity).
  assert (H3 : TRAINING_CORPORA (Env := E)
               = ["corpus/rst-dt"] ++ "corpus/missing" :: ["corpus/pdtb"])
    by reflexivity.
  assert (H4 : r1 = (Ret tt, world_of r1, events_of r1))
    by (vm_compute; reflexivity).
  assert (H5 : fp_exists (Env := E)
                 (_edu_input_path (main_lconf ed sd "corpus/missing"))
                 (world_of r1) = false)
    by (vm_compute; reflexivity).
  pose proof (main_stops_at_ungathered_corpus (H := E) (mkArgs false)
                Toy.gathered_two (world_of dirs) (world_of r1) ed sd
                "corpus/missing" (events_of dirs) ["corpus/rst-dt"]
                ["corpus/pdtb"] [events_of r1] H1 H2 H3
                (chain_cons
                   (fun corpus => _do_corpus (H := E) (main_lconf ed sd corpus))
                   "corpus/rst-dt" [] w0 (world_of r1) (world_of r1)
                   (events_of r1) [] H4 (chain_nil _ (world_of r1)))
                H5) as Hm.
  cbn [concat] in Hm. rewrite app_nil_r in Hm.
  split; [exact Hm|].
  split; [vm_compute; repeat (first [left; reflexivity | right])|].
  split; [vm_compute; repeat (first [left; reflexivity | right])|].
  vm_compute. repeat constructor; discriminate.
Defined.

